(** * Order lifecycle and inventory consistency of the campus marketplace

    A shallow embedding of the domain entities ([Product], [UMKM], [Order],
    [Promo]), of the in-memory repositories and of [OrderService], followed
    by the properties of the order workflow.

    Conventions of the embedding:
    - a Python [int] is a [Z]; a Python [float] (prices, amounts, ratings) is
      an exact rational [Q], so rounding, infinities and NaN are outside the
      model of the entities; the properties of amounts are stated on the
      expressions the code evaluates, in its grouping and order, and
      [Float64] embeds the construction of an order on doubles, where the
      rounding of a total is the point;
    - a [UUID] is a [positive]; a [datetime] is a [Z] (an instant on a
      linear time line);
    - [datetime.utcnow()] is read once per call: every operation takes the
      current instant [now] as an argument;
    - [uuid4()] is an argument too (the fresh identifier);
    - a method that mutates [self] and may raise is a computation in the
      monad [M S] (state [S], exceptions [exn]); a raise leaves the state as
      it was at the raise;
    - a repository is a [gmap] from identifiers to entities; as the
      repositories deep-copy on [save] and on [find_by_id], no reference is
      shared between the store and a caller. *)

From Stdlib Require Import ZArith QArith Qminmax String List Lia.
From stdpp Require Import base option gmap.
From Stdlib Require Import Lqa.
From Stdlib Require Import Floats.PrimFloat Floats.SpecFloat Floats.FloatOps.

Local Open Scope Z_scope.

Abbreviation UUID := positive (only parsing).
Abbreviation datetime := Z (only parsing).

(** ** Exceptions *)

(** The statuses are declared first: two messages quote the status. *)
Inductive OrderStatus :=
| PLACED | CONFIRMED | PREPARING | READY | COMPLETED | CANCELLED.

(** One constructor per [ValueError] message of the modelled code; the
    arguments are the values the message interpolates. *)
Inductive message :=
| Insufficient_stock (available : option Z) (requested : Z)
| Quantity_must_be_positive
| Unit_price_must_be_positive
| Order_must_have_at_least_one_item
| Pickup_time_must_be_in_the_future
| Order_total_must_be_positive
| Cannot_confirm_order_in_status (s : OrderStatus)
| Only_confirmed_orders_can_be_marked_as_preparing
| Only_preparing_orders_can_be_marked_as_ready
| Only_ready_orders_can_be_completed
| Cannot_cancel_order_in_status (s : OrderStatus)
| Cannot_update_pickup_time_for_orders_in_progress
| Only_pending_UMKMs_can_be_approved
| Cannot_suspend_a_closed_UMKM
| Cannot_reactivate_a_closed_UMKM
| Rating_must_be_between_1_and_5
| Promo_title_must_be_at_least_3_characters
| Promo_description_is_required
| Valid_from_date_must_be_before_valid_until_date
| Percentage_discount_must_be_between_0_and_100
| Fixed_discount_amount_must_be_positive
| Usage_limit_cannot_be_negative
| Promo_usage_limit_exceeded
| UMKM_not_found
| UMKM_is_not_accepting_orders
| Product_not_found (product_id : UUID)
| Product_does_not_belong_to_this_UMKM (product_id : UUID)
| Product_is_not_available_in_requested_quantity (name : string)
| Order_not_found
| Unauthorized_you_dont_own_this_UMKM
| Unauthorized_you_cannot_cancel_this_order
| Order_cannot_be_cancelled
| Invalid_status (new_status : string).

Inductive exn :=
| ValueError (m : message)
| ZeroDivisionError.

(** ** The monad of a method: state and exceptions *)

Definition M (S A : Type) : Type := S -> (exn + A) * S.

Definition ret {S A} (a : A) : M S A := fun s => (inr a, s).

Definition bind {S A B} (m : M S A) (k : A -> M S B) : M S B :=
  fun s => match m s with
           | (inl e, s') => (inl e, s')
           | (inr a, s') => k a s'
           end.

Definition raise {S A} (e : exn) : M S A := fun s => (inl e, s).

Definition get {S} : M S S := fun s => (inr s, s).

Definition gets {S A} (f : S -> A) : M S A := fun s => (inr (f s), s).

Definition modify {S} (f : S -> S) : M S unit := fun s => (inr tt, f s).

(** [call obj m] runs the method [m] on the local object [obj], inside a
    computation over another state; it yields the result and the object as
    the method left it, and propagates the exception of [m]. *)
Definition call {S T A} (obj : T) (m : M T A) : M S (A * T) :=
  fun s => match m obj with
           | (inl e, _) => (inl e, s)
           | (inr a, obj') => (inr (a, obj'), s)
           end.

Declare Scope method_scope.
Delimit Scope method_scope with method.
Notation "x <- m ;; k" := (bind m (fun x => k))
  (at level 100, m at next level, right associativity) : method_scope.
Notation "m ;; k" := (bind m (fun _ => k))
  (at level 100, right associativity) : method_scope.

(** [try_ r]: the call of a constructor, which returns the object or
    raises. *)
Definition try_ {S A} (r : exn + A) : M S A :=
  fun s => (r, s).

(** Comparisons of floats, as booleans. *)
Definition Qlt_bool (a b : Q) : bool := negb (Qle_bool b a).

(** Python's two-argument [min(a, b)]: the first argument unless the second
    is strictly smaller. *)
Definition py_min (a b : Q) : Q := if Qlt_bool b a then b else a.

(** ** Exceptions of the product and review code

    The messages of the methods modelled further down that the catalogue
    above does not hold; an exception of that code is one of the
    exceptions above or a [ValueError] with one of these messages. *)
Inductive further_message :=
| Product_name_must_be_at_least_2_characters
| Product_description_is_required
| Price_must_be_greater_than_0
| Stock_quantity_cannot_be_negative
| Minimum_preorder_hours_cannot_be_negative
| Product_description_cannot_be_empty
| Product_not_found_
| Unauthorized_you_dont_own_this_products_UMKM
| Stock_cannot_be_negative
| Review_comment_must_be_at_least_5_characters
| Review_comment_cannot_exceed_1000_characters
| You_can_only_review_orders_you_made
| Order_does_not_belong_to_this_UMKM
| Review_not_found
| Unauthorized_you_can_only_update_your_own_reviews.

Inductive further_exn :=
| Earlier (e : exn)
| FurtherValueError (m : further_message).

(** The monad of a method, over these exceptions. *)
Definition MF (S A : Type) : Type := S -> (further_exn + A) * S.

Definition retF {S A} (a : A) : MF S A := fun s => (inr a, s).

Definition bindF {S A B} (m : MF S A) (k : A -> MF S B) : MF S B :=
  fun s => match m s with
           | (inl e, s') => (inl e, s')
           | (inr a, s') => k a s'
           end.

Definition raiseF {S A} (e : further_exn) : MF S A := fun s => (inl e, s).

Definition getF {S} : MF S S := fun s => (inr s, s).

Definition modifyF {S} (f : S -> S) : MF S unit := fun s => (inr tt, f s).

(** A computation of the monad [M], run in [MF]. *)
Definition earlier {S A} (m : M S A) : MF S A :=
  fun s => match m s with
           | (inl e, s') => (inl (Earlier e), s')
           | (inr a, s') => (inr a, s')
           end.

(** [callF obj m]: as [call], for a method of [MF]. *)
Definition callF {S T A} (obj : T) (m : MF T A) : MF S (A * T) :=
  fun s => match m obj with
           | (inl e, _) => (inl e, s)
           | (inr a, obj') => (inr (a, obj'), s)
           end.

(** [tryF r]: as [try_], for a constructor of this code. *)
Definition tryF {S A} (r : further_exn + A) : MF S A :=
  fun s => (r, s).

Declare Scope further_scope.
Delimit Scope further_scope with further.
Notation "x <- m ;; k" := (bindF m (fun x => k))
  (at level 100, m at next level, right associativity) : further_scope.
Notation "m ;; k" := (bindF m (fun _ => k))
  (at level 100, right associativity) : further_scope.

(** ** Product (domain/entities/product.py) *)

Module Product.

Inductive ProductCategory := FOOD | BEVERAGE | SNACK | MERCHANDISE | OTHER.

Record t := mk {
  id : UUID;
  umkm_id : UUID;
  name : string;
  description : string;
  price : Q;
  category : ProductCategory;
  image_url : option string;
  stock_quantity : option Z;   (* None means unlimited *)
  is_available : bool;
  preorder_required : bool;
  min_preorder_hours : Z;
  created_at : datetime;
  updated_at : datetime
}.

Definition set_stock_quantity (v : option Z) (p : t) : t :=
  mk (id p) (umkm_id p) (name p) (description p) (price p) (category p)
     (image_url p) v (is_available p) (preorder_required p)
     (min_preorder_hours p) (created_at p) (updated_at p).

Definition set_updated_at (v : datetime) (p : t) : t :=
  mk (id p) (umkm_id p) (name p) (description p) (price p) (category p)
     (image_url p) (stock_quantity p) (is_available p) (preorder_required p)
     (min_preorder_hours p) (created_at p) v.

(** [can_be_ordered(quantity)] *)
Definition can_be_ordered (quantity : Z) (p : t) : bool :=
  if negb (is_available p) then false
  else match stock_quantity p with
       | None => true
       | Some stock => quantity <=? stock
       end.

(** [reduce_stock(quantity)] *)
Definition reduce_stock (quantity : Z) (now : datetime) : M t unit :=
  (self <- get ;;
   match stock_quantity self with
   | None => ret tt
   | Some stock =>
       if negb (can_be_ordered quantity self)
       then raise (ValueError (Insufficient_stock (stock_quantity self) quantity))
       else (modify (set_stock_quantity (Some (stock - quantity))) ;;
             modify (set_updated_at now))
   end)%method.

(** [increase_stock(quantity)] *)
Definition increase_stock (quantity : Z) (now : datetime) : M t unit :=
  (if quantity <=? 0 then raise (ValueError Quantity_must_be_positive)
   else
     self <- get ;;
     match stock_quantity self with
     | Some stock =>
         modify (set_stock_quantity (Some (stock + quantity))) ;;
         modify (set_updated_at now)
     | None => ret tt
     end)%method.

Definition set_name (v : string) (p : t) : t :=
  mk (id p) (umkm_id p) v (description p) (price p) (category p)
     (image_url p) (stock_quantity p) (is_available p) (preorder_required p)
     (min_preorder_hours p) (created_at p) (updated_at p).

Definition set_description (v : string) (p : t) : t :=
  mk (id p) (umkm_id p) (name p) v (price p) (category p)
     (image_url p) (stock_quantity p) (is_available p) (preorder_required p)
     (min_preorder_hours p) (created_at p) (updated_at p).

Definition set_price (v : Q) (p : t) : t :=
  mk (id p) (umkm_id p) (name p) (description p) v (category p)
     (image_url p) (stock_quantity p) (is_available p) (preorder_required p)
     (min_preorder_hours p) (created_at p) (updated_at p).

Definition set_category (v : ProductCategory) (p : t) : t :=
  mk (id p) (umkm_id p) (name p) (description p) (price p) v
     (image_url p) (stock_quantity p) (is_available p) (preorder_required p)
     (min_preorder_hours p) (created_at p) (updated_at p).

Definition set_image_url (v : option string) (p : t) : t :=
  mk (id p) (umkm_id p) (name p) (description p) (price p) (category p)
     v (stock_quantity p) (is_available p) (preorder_required p)
     (min_preorder_hours p) (created_at p) (updated_at p).

Definition set_is_available (v : bool) (p : t) : t :=
  mk (id p) (umkm_id p) (name p) (description p) (price p) (category p)
     (image_url p) (stock_quantity p) v (preorder_required p)
     (min_preorder_hours p) (created_at p) (updated_at p).

Definition set_preorder_required (v : bool) (p : t) : t :=
  mk (id p) (umkm_id p) (name p) (description p) (price p) (category p)
     (image_url p) (stock_quantity p) (is_available p) v
     (min_preorder_hours p) (created_at p) (updated_at p).

Definition set_min_preorder_hours (v : Z) (p : t) : t :=
  mk (id p) (umkm_id p) (name p) (description p) (price p) (category p)
     (image_url p) (stock_quantity p) (is_available p) (preorder_required p)
     v (created_at p) (updated_at p).

(** [_validate()] *)
Definition _validate (p : t) : further_exn + t :=
  if (String.length (name p) <? 2)%nat
  then inl (FurtherValueError Product_name_must_be_at_least_2_characters)
  else if (String.length (description p) =? 0)%nat
  then inl (FurtherValueError Product_description_is_required)
  else if Qle_bool (price p) 0
  then inl (FurtherValueError Price_must_be_greater_than_0)
  else if match stock_quantity p with
          | Some stock => stock <? 0
          | None => false
          end
  then inl (FurtherValueError Stock_quantity_cannot_be_negative)
  else if min_preorder_hours p <? 0
  then inl (FurtherValueError Minimum_preorder_hours_cannot_be_negative)
  else inr p.

(** [Product(...)]: [None] for an optional argument is the default
    ([is_available = True], [preorder_required = False],
    [min_preorder_hours = 0]); [fresh] is the value of [uuid4()]. *)
Definition new (umkm_id : UUID) (name description : string) (price : Q)
           (category : ProductCategory) (id : option UUID)
           (image_url : option string) (stock_quantity : option Z)
           (is_available preorder_required : option bool)
           (min_preorder_hours : option Z)
           (created_at updated_at : option datetime)
           (fresh : UUID) (now : datetime) : further_exn + t :=
  _validate
    (mk (default fresh id) umkm_id name description price category image_url
        stock_quantity (default true is_available)
        (default false preorder_required) (default 0 min_preorder_hours)
        (default now created_at) (default now updated_at)).

(** [mark_available()] and [mark_unavailable()] *)
Definition mark_available (now : datetime) : M t unit :=
  (modify (set_is_available true) ;; modify (set_updated_at now))%method.

Definition mark_unavailable (now : datetime) : M t unit :=
  (modify (set_is_available false) ;; modify (set_updated_at now))%method.

(** [update_price(new_price)] *)
Definition update_price (new_price : Q) (now : datetime) : MF t unit :=
  (if Qle_bool new_price 0
   then raiseF (FurtherValueError Price_must_be_greater_than_0)
   else (modifyF (set_price new_price) ;; modifyF (set_updated_at now)))%further.

(** [update_info(...)]: the arguments are handled one after the other, so
    a later raise leaves the earlier assignments on the object. *)
Definition update_info (name description : option string)
           (category : option ProductCategory) (image_url : option string)
           (preorder_required : option bool) (min_preorder_hours : option Z)
           (now : datetime) : MF t unit :=
  (match name with
   | Some name =>
       if (String.length name <? 2)%nat
       then raiseF (FurtherValueError Product_name_must_be_at_least_2_characters)
       else modifyF (set_name name)
   | None => retF tt
   end ;;
   match description with
   | Some description =>
       if (String.length description =? 0)%nat
       then raiseF (FurtherValueError Product_description_cannot_be_empty)
       else modifyF (set_description description)
   | None => retF tt
   end ;;
   match category with
   | Some category => modifyF (set_category category)
   | None => retF tt
   end ;;
   match image_url with
   | Some image_url => modifyF (set_image_url (Some image_url))
   | None => retF tt
   end ;;
   match preorder_required with
   | Some preorder_required => modifyF (set_preorder_required preorder_required)
   | None => retF tt
   end ;;
   match min_preorder_hours with
   | Some min_preorder_hours =>
       if min_preorder_hours <? 0
       then raiseF (FurtherValueError Minimum_preorder_hours_cannot_be_negative)
       else modifyF (set_min_preorder_hours min_preorder_hours)
   | None => retF tt
   end ;;
   modifyF (set_updated_at now))%further.

End Product.


(** ** UMKM (domain/entities/umkm.py) *)

Module UMKM.

Inductive UMKMStatus := PENDING | ACTIVE | SUSPENDED | CLOSED.

Definition status_eqb (a b : UMKMStatus) : bool :=
  match a, b with
  | PENDING, PENDING | ACTIVE, ACTIVE
  | SUSPENDED, SUSPENDED | CLOSED, CLOSED => true
  | _, _ => false
  end.

Record t := mk {
  id : UUID;
  owner_id : UUID;
  name : string;
  description : string;
  location : string;
  phone : string;
  status : UMKMStatus;
  image_url : option string;
  operating_hours : option string;
  rating_average : Q;
  rating_count : Z;
  created_at : datetime;
  updated_at : datetime
}.

Definition set_status (v : UMKMStatus) (u : t) : t :=
  mk (id u) (owner_id u) (name u) (description u) (location u) (phone u) v
     (image_url u) (operating_hours u) (rating_average u) (rating_count u)
     (created_at u) (updated_at u).

Definition set_rating_average (v : Q) (u : t) : t :=
  mk (id u) (owner_id u) (name u) (description u) (location u) (phone u)
     (status u) (image_url u) (operating_hours u) v (rating_count u)
     (created_at u) (updated_at u).

Definition set_rating_count (v : Z) (u : t) : t :=
  mk (id u) (owner_id u) (name u) (description u) (location u) (phone u)
     (status u) (image_url u) (operating_hours u) (rating_average u) v
     (created_at u) (updated_at u).

Definition set_updated_at (v : datetime) (u : t) : t :=
  mk (id u) (owner_id u) (name u) (description u) (location u) (phone u)
     (status u) (image_url u) (operating_hours u) (rating_average u)
     (rating_count u) (created_at u) v.

(** [can_accept_orders()] *)
Definition can_accept_orders (u : t) : bool := status_eqb (status u) ACTIVE.

(** [approve()] *)
Definition approve (now : datetime) : M t unit :=
  (self <- get ;;
   if negb (status_eqb (status self) PENDING)
   then raise (ValueError Only_pending_UMKMs_can_be_approved)
   else (modify (set_status ACTIVE) ;; modify (set_updated_at now)))%method.

(** [suspend(reason)] *)
Definition suspend (reason : option string) (now : datetime) : M t unit :=
  (self <- get ;;
   if status_eqb (status self) CLOSED
   then raise (ValueError Cannot_suspend_a_closed_UMKM)
   else (modify (set_status SUSPENDED) ;; modify (set_updated_at now)))%method.

(** [close()] *)
Definition close (now : datetime) : M t unit :=
  (modify (set_status CLOSED) ;; modify (set_updated_at now))%method.

(** [reactivate()] *)
Definition reactivate (now : datetime) : M t unit :=
  (self <- get ;;
   if status_eqb (status self) CLOSED
   then raise (ValueError Cannot_reactivate_a_closed_UMKM)
   else (modify (set_status ACTIVE) ;; modify (set_updated_at now)))%method.

(** [update_rating(new_rating)]. The count is incremented before the
    division, and a division by a zero count raises. *)
Definition update_rating (new_rating : Q) (now : datetime) : M t unit :=
  (if Qlt_bool new_rating 1 || Qlt_bool 5 new_rating
   then raise (ValueError Rating_must_be_between_1_and_5)
   else
     self <- get ;;
     let total_rating := (rating_average self * inject_Z (rating_count self))%Q in
     modify (set_rating_count (rating_count self + 1)) ;;
     self <- get ;;
     if rating_count self =? 0 then raise ZeroDivisionError
     else
       (modify (set_rating_average
                  ((total_rating + new_rating) / inject_Z (rating_count self))%Q) ;;
        modify (set_updated_at now)))%method.

End UMKM.

(** ** Order (domain/entities/order.py) *)

Definition OrderStatus_eqb (a b : OrderStatus) : bool :=
  match a, b with
  | PLACED, PLACED | CONFIRMED, CONFIRMED | PREPARING, PREPARING
  | READY, READY | COMPLETED, COMPLETED | CANCELLED, CANCELLED => true
  | _, _ => false
  end.

Module OrderItem.

Record t := mk {
  product_id : UUID;
  product_name : string;
  quantity : Z;
  unit_price : Q
}.

(** [OrderItem(product_id, product_name, quantity, unit_price)] *)
Definition new (product_id : UUID) (product_name : string)
           (quantity : Z) (unit_price : Q) : exn + t :=
  if quantity <=? 0 then inl (ValueError Quantity_must_be_positive)
  else if Qle_bool unit_price 0 then inl (ValueError Unit_price_must_be_positive)
  else inr (mk product_id product_name quantity unit_price).

(** [subtotal()] *)
Definition subtotal (i : t) : Q := (inject_Z (quantity i) * unit_price i)%Q.

End OrderItem.

Module Order.

Record t := mk {
  id : UUID;
  buyer_id : UUID;
  umkm_id : UUID;
  items : list OrderItem.t;
  status : OrderStatus;
  pickup_time : option datetime;
  notes : option string;
  total_amount : Q;
  created_at : datetime;
  updated_at : datetime;
  cancelled_at : option datetime;
  cancellation_reason : option string
}.

Definition set_status (v : OrderStatus) (o : t) : t :=
  mk (id o) (buyer_id o) (umkm_id o) (items o) v (pickup_time o) (notes o)
     (total_amount o) (created_at o) (updated_at o) (cancelled_at o)
     (cancellation_reason o).

Definition set_pickup_time (v : option datetime) (o : t) : t :=
  mk (id o) (buyer_id o) (umkm_id o) (items o) (status o) v (notes o)
     (total_amount o) (created_at o) (updated_at o) (cancelled_at o)
     (cancellation_reason o).

Definition set_updated_at (v : datetime) (o : t) : t :=
  mk (id o) (buyer_id o) (umkm_id o) (items o) (status o) (pickup_time o)
     (notes o) (total_amount o) (created_at o) v (cancelled_at o)
     (cancellation_reason o).

Definition set_cancelled_at (v : option datetime) (o : t) : t :=
  mk (id o) (buyer_id o) (umkm_id o) (items o) (status o) (pickup_time o)
     (notes o) (total_amount o) (created_at o) (updated_at o) v
     (cancellation_reason o).

Definition set_cancellation_reason (v : option string) (o : t) : t :=
  mk (id o) (buyer_id o) (umkm_id o) (items o) (status o) (pickup_time o)
     (notes o) (total_amount o) (created_at o) (updated_at o)
     (cancelled_at o) v.

(** [_calculate_total()]: Python's [sum] adds from the left, from 0. *)
Definition _calculate_total (items : list OrderItem.t) : Q :=
  fold_left (fun acc item => (acc + OrderItem.subtotal item)%Q) items 0%Q.

(** [_validate()] *)
Definition _validate (now : datetime) (o : t) : exn + t :=
  match items o with
  | [] => inl (ValueError Order_must_have_at_least_one_item)
  | _ :: _ =>
      if match pickup_time o with
         | Some pickup => pickup <=? now
         | None => false
         end
      then inl (ValueError Pickup_time_must_be_in_the_future)
      else if Qle_bool (total_amount o) 0
           then inl (ValueError Order_total_must_be_positive)
           else inr o
  end.

(** [Order(...)]: [None] for an optional argument is the default; [fresh]
    is the value of [uuid4()]. *)
Definition new (buyer_id umkm_id : UUID) (items : list OrderItem.t)
           (status : OrderStatus) (id : option UUID)
           (pickup_time : option datetime) (notes : option string)
           (total_amount : option Q) (created_at updated_at : option datetime)
           (cancelled_at : option datetime) (cancellation_reason : option string)
           (fresh : UUID) (now : datetime) : exn + t :=
  _validate now
    (mk (default fresh id) buyer_id umkm_id items status pickup_time notes
        (match total_amount with
         | Some total => total
         | None => _calculate_total items
         end)
        (default now created_at) (default now updated_at)
        cancelled_at cancellation_reason).

(** [can_be_cancelled()] *)
Definition can_be_cancelled (o : t) : bool :=
  negb (OrderStatus_eqb (status o) COMPLETED
        || OrderStatus_eqb (status o) CANCELLED).

(** [can_be_confirmed()] *)
Definition can_be_confirmed (o : t) : bool := OrderStatus_eqb (status o) PLACED.

(** [confirm()] *)
Definition confirm (now : datetime) : M t unit :=
  (self <- get ;;
   if negb (can_be_confirmed self)
   then raise (ValueError (Cannot_confirm_order_in_status (status self)))
   else (modify (set_status CONFIRMED) ;; modify (set_updated_at now)))%method.

(** [mark_preparing()] *)
Definition mark_preparing (now : datetime) : M t unit :=
  (self <- get ;;
   if negb (OrderStatus_eqb (status self) CONFIRMED)
   then raise (ValueError Only_confirmed_orders_can_be_marked_as_preparing)
   else (modify (set_status PREPARING) ;; modify (set_updated_at now)))%method.

(** [mark_ready()] *)
Definition mark_ready (now : datetime) : M t unit :=
  (self <- get ;;
   if negb (OrderStatus_eqb (status self) PREPARING)
   then raise (ValueError Only_preparing_orders_can_be_marked_as_ready)
   else (modify (set_status READY) ;; modify (set_updated_at now)))%method.

(** [complete()] *)
Definition complete (now : datetime) : M t unit :=
  (self <- get ;;
   if negb (OrderStatus_eqb (status self) READY)
   then raise (ValueError Only_ready_orders_can_be_completed)
   else (modify (set_status COMPLETED) ;; modify (set_updated_at now)))%method.

(** [cancel(reason)] *)
Definition cancel (reason : option string) (now : datetime) : M t unit :=
  (self <- get ;;
   if negb (can_be_cancelled self)
   then raise (ValueError (Cannot_cancel_order_in_status (status self)))
   else (modify (set_status CANCELLED) ;;
         modify (set_cancelled_at (Some now)) ;;
         modify (set_cancellation_reason reason) ;;
         modify (set_updated_at now)))%method.

(** [is_preorder()] *)
Definition is_preorder (now : datetime) (o : t) : bool :=
  match pickup_time o with
  | Some pickup => now <? pickup
  | None => false
  end.

(** [update_pickup_time(new_pickup_time)] *)
Definition update_pickup_time (new_pickup_time : datetime) (now : datetime)
  : M t unit :=
  (self <- get ;;
   if negb (OrderStatus_eqb (status self) PLACED
            || OrderStatus_eqb (status self) CONFIRMED)
   then raise (ValueError Cannot_update_pickup_time_for_orders_in_progress)
   else if new_pickup_time <=? now
   then raise (ValueError Pickup_time_must_be_in_the_future)
   else (modify (set_pickup_time (Some new_pickup_time)) ;;
         modify (set_updated_at now)))%method.

End Order.

(** ** Promo (domain/entities/promo.py) *)

Module Promo.

Inductive PromoType := PERCENTAGE | FIXED_AMOUNT | BUY_ONE_GET_ONE.

Record t := mk {
  id : UUID;
  umkm_id : UUID;
  title : string;
  description : string;
  promo_type : PromoType;
  discount_value : Q;
  valid_from : datetime;
  valid_until : datetime;
  code : option string;
  min_purchase : option Q;
  max_discount : option Q;
  usage_limit : option Z;
  usage_count : Z;
  is_active : bool;
  created_at : datetime;
  updated_at : datetime
}.

Definition set_usage_count (v : Z) (p : t) : t :=
  mk (id p) (umkm_id p) (title p) (description p) (promo_type p)
     (discount_value p) (valid_from p) (valid_until p) (code p)
     (min_purchase p) (max_discount p) (usage_limit p) v (is_active p)
     (created_at p) (updated_at p).

Definition set_is_active (v : bool) (p : t) : t :=
  mk (id p) (umkm_id p) (title p) (description p) (promo_type p)
     (discount_value p) (valid_from p) (valid_until p) (code p)
     (min_purchase p) (max_discount p) (usage_limit p) (usage_count p) v
     (created_at p) (updated_at p).

Definition set_updated_at (v : datetime) (p : t) : t :=
  mk (id p) (umkm_id p) (title p) (description p) (promo_type p)
     (discount_value p) (valid_from p) (valid_until p) (code p)
     (min_purchase p) (max_discount p) (usage_limit p) (usage_count p)
     (is_active p) (created_at p) v.

(** [_validate()] *)
Definition _validate (p : t) : exn + t :=
  if (String.length (title p) <? 3)%nat
  then inl (ValueError Promo_title_must_be_at_least_3_characters)
  else if (String.length (description p) =? 0)%nat
  then inl (ValueError Promo_description_is_required)
  else if valid_until p <=? valid_from p
  then inl (ValueError Valid_from_date_must_be_before_valid_until_date)
  else if match promo_type p with
          | PERCENTAGE =>
              Qle_bool (discount_value p) 0 || Qlt_bool 100 (discount_value p)
          | _ => false
          end
  then inl (ValueError Percentage_discount_must_be_between_0_and_100)
  else if match promo_type p with
          | FIXED_AMOUNT => Qle_bool (discount_value p) 0
          | _ => false
          end
  then inl (ValueError Fixed_discount_amount_must_be_positive)
  else if match usage_limit p with
          | Some limit => limit <? 0
          | None => false
          end
  then inl (ValueError Usage_limit_cannot_be_negative)
  else inr p.

(** [Promo(...)]: [None] for an optional argument is the default
    ([usage_count = 0], [is_active = True]). *)
Definition new (umkm_id : UUID) (title description : string)
           (promo_type : PromoType) (discount_value : Q)
           (valid_from valid_until : datetime) (id : option UUID)
           (code : option string) (min_purchase max_discount : option Q)
           (usage_limit : option Z) (usage_count : option Z)
           (is_active : option bool) (created_at updated_at : option datetime)
           (fresh : UUID) (now : datetime) : exn + t :=
  _validate
    (mk (default fresh id) umkm_id title description promo_type discount_value
        valid_from valid_until code min_purchase max_discount usage_limit
        (default 0 usage_count) (default true is_active)
        (default now created_at) (default now updated_at)).

(** [is_valid(current_time)] *)
Definition is_valid (current_time : option datetime) (utcnow : datetime)
           (p : t) : bool :=
  let now := default utcnow current_time in
  if negb (is_active p) then false
  else if (now <? valid_from p) || (valid_until p <? now) then false
  else if match usage_limit p with
          | Some limit => limit <=? usage_count p
          | None => false
          end
  then false
  else true.

(** [can_apply_to_order(order_amount)] *)
Definition can_apply_to_order (order_amount : Q) (utcnow : datetime)
           (p : t) : bool :=
  if negb (is_valid None utcnow p) then false
  else if match min_purchase p with
          | Some minimum => Qlt_bool order_amount minimum
          | None => false
          end
  then false
  else true.

(** [calculate_discount(order_amount)] *)
Definition calculate_discount (order_amount : Q) (utcnow : datetime)
           (p : t) : Q :=
  if negb (can_apply_to_order order_amount utcnow p) then 0%Q
  else match promo_type p with
       | PERCENTAGE =>
           let discount := (order_amount * (discount_value p / 100))%Q in
           match max_discount p with
           | Some cap => py_min discount cap
           | None => discount
           end
       | FIXED_AMOUNT => py_min (discount_value p) order_amount
       | BUY_ONE_GET_ONE => 0%Q
       end.

(** [increment_usage()] *)
Definition increment_usage (now : datetime) : M t unit :=
  (self <- get ;;
   if match usage_limit self with
      | Some limit => limit <=? usage_count self
      | None => false
      end
   then raise (ValueError Promo_usage_limit_exceeded)
   else (modify (set_usage_count (usage_count self + 1)) ;;
         modify (set_updated_at now)))%method.

(** [deactivate()] and [activate()] *)
Definition deactivate (now : datetime) : M t unit :=
  (modify (set_is_active false) ;; modify (set_updated_at now))%method.

Definition activate (now : datetime) : M t unit :=
  (modify (set_is_active true) ;; modify (set_updated_at now))%method.

End Promo.

(** ** In-memory repositories
       (infrastructure/persistence/in_memory_repositories.py)

    Each repository is a dictionary keyed by the identifier of the entity;
    [save] stores under [entity.id]. *)

Module InMemoryUMKMRepository.

Definition save (umkm : UMKM.t) : M (gmap positive UMKM.t) UMKM.t :=
  (modify (insert (UMKM.id umkm) umkm) ;; ret umkm)%method.

Definition find_by_id (umkm_id : UUID)
  : M (gmap positive UMKM.t) (option UMKM.t) :=
  gets (fun _umkms => _umkms !! umkm_id).

End InMemoryUMKMRepository.

Module InMemoryProductRepository.

Definition save (product : Product.t)
  : M (gmap positive Product.t) Product.t :=
  (modify (insert (Product.id product) product) ;; ret product)%method.

Definition find_by_id (product_id : UUID)
  : M (gmap positive Product.t) (option Product.t) :=
  gets (fun _products => _products !! product_id).

Definition delete (product_id : UUID)
  : M (gmap positive Product.t) bool :=
  (_products <- get ;;
   match _products !! product_id with
   | Some _ => modify (base.delete product_id) ;; ret true
   | None => ret false
   end)%method.

End InMemoryProductRepository.

Module InMemoryOrderRepository.

Definition save (order : Order.t) : M (gmap positive Order.t) Order.t :=
  (modify (insert (Order.id order) order) ;; ret order)%method.

Definition find_by_id (order_id : UUID)
  : M (gmap positive Order.t) (option Order.t) :=
  gets (fun _orders => _orders !! order_id).

End InMemoryOrderRepository.

(** ** OrderService (application/services/order_service.py) *)

(** An element of [items]: the dictionary [{product_id, quantity}]. *)
Record item_data := mk_item_data {
  item_product_id : UUID;
  item_quantity : Z
}.

Module OrderService.

(** The three injected repositories. *)
Record t := mk {
  order_repository : gmap positive Order.t;
  product_repository : gmap positive Product.t;
  umkm_repository : gmap positive UMKM.t
}.

(** A repository call, inside a method of the service. *)
Definition in_orders {A} (m : M (gmap positive Order.t) A) : M t A :=
  fun self =>
    let (r, repo) := m (order_repository self) in
    (r, mk repo (product_repository self) (umkm_repository self)).

Definition in_products {A} (m : M (gmap positive Product.t) A) : M t A :=
  fun self =>
    let (r, repo) := m (product_repository self) in
    (r, mk (order_repository self) repo (umkm_repository self)).

Definition in_umkms {A} (m : M (gmap positive UMKM.t) A) : M t A :=
  fun self =>
    let (r, repo) := m (umkm_repository self) in
    (r, mk (order_repository self) (product_repository self) repo).

(** The loop of [create_order] over [items]; [order_items] is the list
    accumulated so far. *)
Fixpoint create_order_items (umkm_id : UUID) (now : datetime)
         (items : list item_data) (order_items : list OrderItem.t)
  : M t (list OrderItem.t) :=
  match items with
  | [] => ret order_items
  | item_data :: rest =>
      (let product_id := item_product_id item_data in
       let quantity := item_quantity item_data in
       product <- in_products (InMemoryProductRepository.find_by_id product_id) ;;
       match product with
       | None => raise (ValueError (Product_not_found product_id))
       | Some product =>
           if negb (Pos.eqb (Product.umkm_id product) umkm_id)
           then raise (ValueError (Product_does_not_belong_to_this_UMKM product_id))
           else if negb (Product.can_be_ordered quantity product)
           then raise (ValueError
                         (Product_is_not_available_in_requested_quantity
                            (Product.name product)))
           else
             order_item <- try_ (OrderItem.new (Product.id product)
                                               (Product.name product)
                                               quantity
                                               (Product.price product)) ;;
             let order_items := order_items ++ [order_item] in
             reduced <- call product (Product.reduce_stock quantity now) ;;
             let product := snd reduced in
             in_products (InMemoryProductRepository.save product) ;;
             create_order_items umkm_id now rest order_items
       end)%method
  end.

(** [create_order(buyer_id, umkm_id, items, pickup_time, notes)] *)
Definition create_order (buyer_id umkm_id : UUID) (items : list item_data)
           (pickup_time : option datetime) (notes : option string)
           (fresh : UUID) (now : datetime) : M t Order.t :=
  (umkm <- in_umkms (InMemoryUMKMRepository.find_by_id umkm_id) ;;
   match umkm with
   | None => raise (ValueError UMKM_not_found)
   | Some umkm =>
       if negb (UMKM.can_accept_orders umkm)
       then raise (ValueError UMKM_is_not_accepting_orders)
       else
         order_items <- create_order_items umkm_id now items [] ;;
         order <- try_ (Order.new buyer_id umkm_id order_items PLACED None
                                  pickup_time notes None None None None None
                                  fresh now) ;;
         saved_order <- in_orders (InMemoryOrderRepository.save order) ;;
         ret saved_order
   end)%method.

(** [confirm_order(order_id, seller_id)] *)
Definition confirm_order (order_id seller_id : UUID) (now : datetime)
  : M t Order.t :=
  (order <- in_orders (InMemoryOrderRepository.find_by_id order_id) ;;
   match order with
   | None => raise (ValueError Order_not_found)
   | Some order =>
       umkm <- in_umkms (InMemoryUMKMRepository.find_by_id (Order.umkm_id order)) ;;
       if match umkm with
          | None => true
          | Some umkm => negb (Pos.eqb (UMKM.owner_id umkm) seller_id)
          end
       then raise (ValueError Unauthorized_you_dont_own_this_UMKM)
       else
         confirmed <- call order (Order.confirm now) ;;
         let order := snd confirmed in
         in_orders (InMemoryOrderRepository.save order) ;;
         ret order
   end)%method.

(** [update_order_status(order_id, seller_id, new_status)] *)
Definition update_order_status (order_id seller_id : UUID)
           (new_status : string) (now : datetime) : M t Order.t :=
  (order <- in_orders (InMemoryOrderRepository.find_by_id order_id) ;;
   match order with
   | None => raise (ValueError Order_not_found)
   | Some order =>
       umkm <- in_umkms (InMemoryUMKMRepository.find_by_id (Order.umkm_id order)) ;;
       if match umkm with
          | None => true
          | Some umkm => negb (Pos.eqb (UMKM.owner_id umkm) seller_id)
          end
       then raise (ValueError Unauthorized_you_dont_own_this_UMKM)
       else
         moved <-
           (if String.eqb new_status "confirmed"
            then call order (Order.confirm now)
            else if String.eqb new_status "preparing"
            then call order (Order.mark_preparing now)
            else if String.eqb new_status "ready"
            then call order (Order.mark_ready now)
            else if String.eqb new_status "completed"
            then call order (Order.complete now)
            else raise (ValueError (Invalid_status new_status))) ;;
         let order := snd moved in
         in_orders (InMemoryOrderRepository.save order) ;;
         ret order
   end)%method.

(** The restoration loop of [cancel_order] over [order.items]. *)
Fixpoint restore_stock (now : datetime) (items : list OrderItem.t)
  : M t unit :=
  match items with
  | [] => ret tt
  | item :: rest =>
      (product <- in_products (InMemoryProductRepository.find_by_id
                                 (OrderItem.product_id item)) ;;
       match product with
       | Some product =>
           increased <- call product
                          (Product.increase_stock (OrderItem.quantity item) now) ;;
           let product := snd increased in
           in_products (InMemoryProductRepository.save product) ;;
           ret tt
       | None => ret tt
       end ;;
       restore_stock now rest)%method
  end.

(** [cancel_order(order_id, user_id, reason)] *)
Definition cancel_order (order_id user_id : UUID) (reason : option string)
           (now : datetime) : M t Order.t :=
  (order <- in_orders (InMemoryOrderRepository.find_by_id order_id) ;;
   match order with
   | None => raise (ValueError Order_not_found)
   | Some order =>
       let is_buyer := Pos.eqb (Order.buyer_id order) user_id in
       umkm <- in_umkms (InMemoryUMKMRepository.find_by_id (Order.umkm_id order)) ;;
       let is_seller :=
         match umkm with
         | Some umkm => Pos.eqb (UMKM.owner_id umkm) user_id
         | None => false
         end in
       if negb (is_buyer || is_seller)
       then raise (ValueError Unauthorized_you_cannot_cancel_this_order)
       else if negb (Order.can_be_cancelled order)
       then raise (ValueError Order_cannot_be_cancelled)
       else
         restore_stock now (Order.items order) ;;
         cancelled <- call order (Order.cancel reason now) ;;
         let order := snd cancelled in
         in_orders (InMemoryOrderRepository.save order) ;;
         ret order
   end)%method.

End OrderService.

(** ** ProductService (application/services/product_service.py) *)

Module ProductService.

(** The two injected repositories. *)
Record t := mk {
  product_repository : gmap positive Product.t;
  umkm_repository : gmap positive UMKM.t
}.

Definition in_products {A} (m : M (gmap positive Product.t) A) : MF t A :=
  earlier (fun self =>
             let (r, repo) := m (product_repository self) in
             (r, mk repo (umkm_repository self))).

Definition in_umkms {A} (m : M (gmap positive UMKM.t) A) : MF t A :=
  earlier (fun self =>
             let (r, repo) := m (umkm_repository self) in
             (r, mk (product_repository self) repo)).

(** [create_product(seller_id, umkm_id, name, ...)] *)
Definition create_product (seller_id umkm_id : UUID) (name description : string)
           (price : Q) (category : Product.ProductCategory)
           (image_url : option string) (stock_quantity : option Z)
           (preorder_required : bool) (min_preorder_hours : Z)
           (fresh : UUID) (now : datetime) : MF t Product.t :=
  (umkm <- in_umkms (InMemoryUMKMRepository.find_by_id umkm_id) ;;
   match umkm with
   | None => raiseF (Earlier (ValueError UMKM_not_found))
   | Some umkm =>
       if negb (Pos.eqb (UMKM.owner_id umkm) seller_id)
       then raiseF (Earlier (ValueError Unauthorized_you_dont_own_this_UMKM))
       else
         product <- tryF (Product.new umkm_id name description price category
                                      None image_url stock_quantity None
                                      (Some preorder_required)
                                      (Some min_preorder_hours) None None
                                      fresh now) ;;
         saved_product <- in_products (InMemoryProductRepository.save product) ;;
         retF saved_product
   end)%further.

(** The start of every method that changes a product: the product is
    fetched, then the merchant it belongs to, and the caller must own
    that merchant. *)
Definition owned_product (product_id seller_id : UUID) : MF t Product.t :=
  (product <- in_products (InMemoryProductRepository.find_by_id product_id) ;;
   match product with
   | None => raiseF (FurtherValueError Product_not_found_)
   | Some product =>
       umkm <- in_umkms (InMemoryUMKMRepository.find_by_id
                           (Product.umkm_id product)) ;;
       if match umkm with
          | None => true
          | Some umkm => negb (Pos.eqb (UMKM.owner_id umkm) seller_id)
          end
       then raiseF (FurtherValueError Unauthorized_you_dont_own_this_products_UMKM)
       else retF product
   end)%further.

(** [update_product(product_id, seller_id, ...)] *)
Definition update_product (product_id seller_id : UUID)
           (name description : option string)
           (category : option Product.ProductCategory)
           (image_url : option string) (preorder_required : option bool)
           (min_preorder_hours : option Z) (now : datetime) : MF t Product.t :=
  (product <- owned_product product_id seller_id ;;
   updated <- callF product (Product.update_info name description category
                                                 image_url preorder_required
                                                 min_preorder_hours now) ;;
   let product := snd updated in
   in_products (InMemoryProductRepository.save product) ;;
   retF product)%further.

(** [update_product_price(product_id, seller_id, new_price)] *)
Definition update_product_price (product_id seller_id : UUID) (new_price : Q)
           (now : datetime) : MF t Product.t :=
  (product <- owned_product product_id seller_id ;;
   updated <- callF product (Product.update_price new_price now) ;;
   let product := snd updated in
   in_products (InMemoryProductRepository.save product) ;;
   retF product)%further.

(** [update_product_stock(product_id, seller_id, new_stock)] *)
Definition update_product_stock (product_id seller_id : UUID) (new_stock : Z)
  : MF t Product.t :=
  (product <- owned_product product_id seller_id ;;
   if new_stock <? 0
   then raiseF (FurtherValueError Stock_cannot_be_negative)
   else
     let product := Product.set_stock_quantity (Some new_stock) product in
     in_products (InMemoryProductRepository.save product) ;;
     retF product)%further.

(** [toggle_product_availability(product_id, seller_id, available)] *)
Definition toggle_product_availability (product_id seller_id : UUID)
           (available : bool) (now : datetime) : MF t Product.t :=
  (product <- owned_product product_id seller_id ;;
   toggled <- earlier (call product (if available
                                     then Product.mark_available now
                                     else Product.mark_unavailable now)) ;;
   let product := snd toggled in
   in_products (InMemoryProductRepository.save product) ;;
   retF product)%further.

(** [delete_product(product_id, seller_id)] *)
Definition delete_product (product_id seller_id : UUID) : MF t bool :=
  (product <- owned_product product_id seller_id ;;
   in_products (InMemoryProductRepository.delete product_id))%further.

End ProductService.

(** ** Review (domain/entities/review.py) *)

Module Review.

Record t := mk {
  id : UUID;
  user_id : UUID;
  umkm_id : UUID;
  order_id : option UUID;
  rating : Z;
  comment : string;
  is_visible : bool;
  is_flagged : bool;
  created_at : datetime;
  updated_at : datetime
}.

Definition set_rating (v : Z) (r : t) : t :=
  mk (id r) (user_id r) (umkm_id r) (order_id r) v (comment r)
     (is_visible r) (is_flagged r) (created_at r) (updated_at r).

Definition set_comment (v : string) (r : t) : t :=
  mk (id r) (user_id r) (umkm_id r) (order_id r) (rating r) v
     (is_visible r) (is_flagged r) (created_at r) (updated_at r).

Definition set_is_visible (v : bool) (r : t) : t :=
  mk (id r) (user_id r) (umkm_id r) (order_id r) (rating r) (comment r)
     v (is_flagged r) (created_at r) (updated_at r).

Definition set_is_flagged (v : bool) (r : t) : t :=
  mk (id r) (user_id r) (umkm_id r) (order_id r) (rating r) (comment r)
     (is_visible r) v (created_at r) (updated_at r).

Definition set_updated_at (v : datetime) (r : t) : t :=
  mk (id r) (user_id r) (umkm_id r) (order_id r) (rating r) (comment r)
     (is_visible r) (is_flagged r) (created_at r) v.

(** The three checks of [_validate()] and of [update_content], on a rating
    and a comment. *)
Definition check (rating : Z) (comment : string) : option further_exn :=
  if (rating <? 1) || (5 <? rating)
  then Some (Earlier (ValueError Rating_must_be_between_1_and_5))
  else if (String.length comment <? 5)%nat
  then Some (FurtherValueError Review_comment_must_be_at_least_5_characters)
  else if (1000 <? String.length comment)%nat
  then Some (FurtherValueError Review_comment_cannot_exceed_1000_characters)
  else None.

(** [_validate()] *)
Definition _validate (r : t) : further_exn + t :=
  match check (rating r) (comment r) with
  | Some e => inl e
  | None => inr r
  end.

(** [Review(...)]: [None] for an optional argument is the default
    ([is_visible = True], [is_flagged = False]). *)
Definition new (user_id umkm_id : UUID) (rating : Z) (comment : string)
           (order_id : option UUID) (id : option UUID)
           (is_visible is_flagged : option bool)
           (created_at updated_at : option datetime)
           (fresh : UUID) (now : datetime) : further_exn + t :=
  _validate
    (mk (default fresh id) user_id umkm_id order_id rating comment
        (default true is_visible) (default false is_flagged)
        (default now created_at) (default now updated_at)).

(** [is_positive()] *)
Definition is_positive (r : t) : bool := 4 <=? rating r.

(** [flag_for_moderation()], [hide()] and [show()] *)
Definition flag_for_moderation (now : datetime) : M t unit :=
  (modify (set_is_flagged true) ;; modify (set_updated_at now))%method.

Definition hide (now : datetime) : M t unit :=
  (modify (set_is_visible false) ;; modify (set_updated_at now))%method.

Definition show (now : datetime) : M t unit :=
  (modify (set_is_visible true) ;;
   modify (set_is_flagged false) ;;
   modify (set_updated_at now))%method.

(** [update_content(new_rating, new_comment)] *)
Definition update_content (new_rating : Z) (new_comment : string)
           (now : datetime) : MF t unit :=
  (match check new_rating new_comment with
   | Some e => raiseF e
   | None =>
       modifyF (set_rating new_rating) ;;
       modifyF (set_comment new_comment) ;;
       modifyF (set_updated_at now)
   end)%further.

End Review.

Module InMemoryReviewRepository.

Definition save (review : Review.t) : M (gmap positive Review.t) Review.t :=
  (modify (insert (Review.id review) review) ;; ret review)%method.

Definition find_by_id (review_id : UUID)
  : M (gmap positive Review.t) (option Review.t) :=
  gets (fun _reviews => _reviews !! review_id).

End InMemoryReviewRepository.

(** ** ReviewService (application/services/review_service.py) *)

Module ReviewService.

(** The three injected repositories. *)
Record t := mk {
  review_repository : gmap positive Review.t;
  umkm_repository : gmap positive UMKM.t;
  order_repository : gmap positive Order.t
}.

Definition in_reviews {A} (m : M (gmap positive Review.t) A) : MF t A :=
  earlier (fun self =>
             let (r, repo) := m (review_repository self) in
             (r, mk repo (umkm_repository self) (order_repository self))).

Definition in_umkms {A} (m : M (gmap positive UMKM.t) A) : MF t A :=
  earlier (fun self =>
             let (r, repo) := m (umkm_repository self) in
             (r, mk (review_repository self) repo (order_repository self))).

Definition in_orders {A} (m : M (gmap positive Order.t) A) : MF t A :=
  earlier (fun self =>
             let (r, repo) := m (order_repository self) in
             (r, mk (review_repository self) (umkm_repository self) repo)).


(** [update_review(review_id, user_id, new_rating, new_comment)] *)
Definition update_review (review_id user_id : UUID) (new_rating : Z)
           (new_comment : string) (now : datetime) : MF t Review.t :=
  (review <- in_reviews (InMemoryReviewRepository.find_by_id review_id) ;;
   match review with
   | None => raiseF (FurtherValueError Review_not_found)
   | Some review =>
       if negb (Pos.eqb (Review.user_id review) user_id)
       then raiseF (FurtherValueError
                      Unauthorized_you_can_only_update_your_own_reviews)
       else
         updated <- callF review (Review.update_content new_rating new_comment now) ;;
         let review := snd updated in
         in_reviews (InMemoryReviewRepository.save review) ;;
         retF review
   end)%further.

End ReviewService.

(** ** Order totals on doubles (domain/entities/order.py)

    The prices and amounts of the code are Python floats, that is IEEE 754
    doubles. The entities above carry them as rationals, which are exact
    where the code rounds. This module embeds the construction of an order
    a second time, on doubles: every product and every addition is rounded
    to the nearest double, and an [int] too large for a double raises
    [OverflowError]. *)

Module Float64.

(** The errors of the construction: the [ValueError]s of the entities, and
    the [OverflowError] of [int * float]. *)
Inductive error :=
| Raised (e : exn)
| OverflowError.

(** The rational a finite double stands for. *)
Definition exact (x : float) : option Q :=
  match Prim2SF x with
  | S754_zero _ => Some 0%Q
  | S754_finite negative m e =>
      Some ((if negative then -1 else 1) * inject_Z (Z.pos m) * 2 ^ e)%Q
  | S754_infinity _ | S754_nan => None
  end.

(** The [int] operand of [int * float] is converted to the nearest double,
    ties to even; beyond the largest double the conversion raises. *)
Definition of_int (n : Z) : error + float :=
  let x := SF2Prim (binary_normalize prec emax n 0 false) in
  if is_infinity x then inl OverflowError else inr x.

Module OrderItem.

Record t := mk {
  product_id : UUID;
  product_name : string;
  quantity : Z;
  unit_price : float
}.

(** [OrderItem(product_id, product_name, quantity, unit_price)] *)
Definition new (product_id : UUID) (product_name : string)
           (quantity : Z) (unit_price : float) : error + t :=
  if quantity <=? 0 then inl (Raised (ValueError Quantity_must_be_positive))
  else if (unit_price <=? 0)%float
       then inl (Raised (ValueError Unit_price_must_be_positive))
       else inr (mk product_id product_name quantity unit_price).

(** [subtotal()] *)
Definition subtotal (i : t) : error + float :=
  match of_int (quantity i) with
  | inl e => inl e
  | inr q => inr (q * unit_price i)%float
  end.

End OrderItem.

Module Order.

Record t := mk {
  id : UUID;
  buyer_id : UUID;
  umkm_id : UUID;
  items : list OrderItem.t;
  status : OrderStatus;
  pickup_time : option datetime;
  notes : option string;
  total_amount : float;
  created_at : datetime;
  updated_at : datetime;
  cancelled_at : option datetime;
  cancellation_reason : option string
}.

(** Python's [sum] over the subtotals: each is added in turn to the
    running total, every addition rounded, and the first subtotal that
    raises ends the sum. (From CPython 3.12 on, [sum] also carries a
    compensation for the rounding of the additions; with a single line
    there is no addition to compensate.) *)
Fixpoint sum_from (acc : float) (items : list OrderItem.t) : error + float :=
  match items with
  | [] => inr acc
  | item :: rest =>
      match OrderItem.subtotal item with
      | inl e => inl e
      | inr subtotal => sum_from (acc + subtotal)%float rest
      end
  end.

(** [_calculate_total()] *)
Definition _calculate_total (items : list OrderItem.t) : error + float :=
  sum_from 0%float items.

(** [_validate()] *)
Definition _validate (now : datetime) (o : t) : error + t :=
  match items o with
  | [] => inl (Raised (ValueError Order_must_have_at_least_one_item))
  | _ :: _ =>
      if match pickup_time o with
         | Some pickup => pickup <=? now
         | None => false
         end
      then inl (Raised (ValueError Pickup_time_must_be_in_the_future))
      else if (total_amount o <=? 0)%float
           then inl (Raised (ValueError Order_total_must_be_positive))
           else inr o
  end.

(** [Order(...)]: the total is computed, before the validation, when none
    is given. *)
Definition new (buyer_id umkm_id : UUID) (items : list OrderItem.t)
           (status : OrderStatus) (id : option UUID)
           (pickup_time : option datetime) (notes : option string)
           (total_amount : option float)
           (created_at updated_at : option datetime)
           (cancelled_at : option datetime) (cancellation_reason : option string)
           (fresh : UUID) (now : datetime) : error + t :=
  match match total_amount with
        | Some total => inr total
        | None => _calculate_total items
        end with
  | inl e => inl e
  | inr total =>
      _validate now
        (mk (default fresh id) buyer_id umkm_id items status pickup_time notes
            total (default now created_at) (default now updated_at)
            cancelled_at cancellation_reason)
  end.

End Order.

End Float64.

(** ** Vocabulary of the properties *)

(** The triggers of the order state machine, and the method each names. *)
Inductive trigger :=
| confirm
| markPreparing
| markReady
| complete
| cancel (reason : option string).

Definition fire (tr : trigger) (now : datetime) : M Order.t unit :=
  match tr with
  | confirm => Order.confirm now
  | markPreparing => Order.mark_preparing now
  | markReady => Order.mark_ready now
  | complete => Order.complete now
  | cancel reason => Order.cancel reason now
  end.


(** The transition table, as the specification words it: the next status
    of an allowed trigger, [None] for a dash. *)
Definition transition_table (current : OrderStatus) (tr : trigger)
  : option OrderStatus :=
  match current, tr with
  | PLACED, confirm => Some CONFIRMED
  | CONFIRMED, markPreparing => Some PREPARING
  | PREPARING, markReady => Some READY
  | READY, complete => Some COMPLETED
  | (PLACED | CONFIRMED | PREPARING | READY), cancel _ => Some CANCELLED
  | _, _ => None
  end.

(** The [ValueError]s by which the order entity rejects a trigger. *)
Definition InvalidTransition (e : exn) : Prop :=
  match e with
  | ValueError (Cannot_confirm_order_in_status _)
  | ValueError Only_confirmed_orders_can_be_marked_as_preparing
  | ValueError Only_preparing_orders_can_be_marked_as_ready
  | ValueError Only_ready_orders_can_be_completed
  | ValueError (Cannot_cancel_order_in_status _) => True
  | _ => False
  end.



(** The same sum taken from the last line, for the proofs that bound a
    total. *)
Fixpoint sum_of_subtotals (items : list OrderItem.t) : Q :=
  match items with
  | [] => 0
  | item :: rest =>
      inject_Z (OrderItem.quantity item) * OrderItem.unit_price item
      + sum_of_subtotals rest
  end%Q.

(** Successive uses of a promo, each at its instant; a refused use leaves
    the promo as it was. *)
Fixpoint use_all (instants : list datetime) (p : Promo.t) : Promo.t :=
  match instants with
  | [] => p
  | now :: rest => use_all rest (snd (Promo.increment_usage now p))
  end.

(** The product dictionary stores every product under its own identifier,
    as [save] does. *)
Definition keyed_by_id (products : gmap positive Product.t) : Prop :=
  forall k p, products !! k = Some p -> Product.id p = k.

(** The quantity a request asks of a product, over all its lines. *)
Fixpoint requested (product_id : UUID) (items : list item_data) : Z :=
  match items with
  | [] => 0
  | item :: rest =>
      (if Pos.eqb (item_product_id item) product_id
       then item_quantity item else 0)
      + requested product_id rest
  end.

(** The quantity an order holds of a product, over all its lines. *)
Fixpoint ordered (product_id : UUID) (items : list OrderItem.t) : Z :=
  match items with
  | [] => 0
  | item :: rest =>
      (if Pos.eqb (OrderItem.product_id item) product_id
       then OrderItem.quantity item else 0)
      + ordered product_id rest
  end.

(** The stock of a product in the store: [None] when the product is not
    stored, [Some None] when its stock is unlimited. *)
Definition stock_of (self : OrderService.t) (product_id : UUID)
  : option (option Z) :=
  Product.stock_quantity <$> OrderService.product_repository self !! product_id.

(** A finite stock moved by [delta]; an unlimited one stays unlimited. *)
Definition shift_stock (delta : Z) (stock : option Z) : option Z :=
  (fun quantity => quantity + delta) <$> stock.

(** The caller may cancel: the buyer of the order, or the owner of its
    merchant. *)
Definition may_cancel (self : OrderService.t) (order : Order.t)
           (user_id : UUID) : Prop :=
  Order.buyer_id order = user_id
  \/ exists umkm,
       OrderService.umkm_repository self !! Order.umkm_id order = Some umkm
       /\ UMKM.owner_id umkm = user_id.

(** The line's product is in the store. *)
Definition in_store (self : OrderService.t) (item : OrderItem.t) : bool :=
  match OrderService.product_repository self !! OrderItem.product_id item with
  | Some _ => true
  | None => false
  end.

(** A line the store can serve: its product is stored, belongs to the
    merchant, is available and priced, the quantity is positive, and a
    finite stock covers all that the request asks of the product. *)
Definition can_be_served (self : OrderService.t) (umkm_id : UUID)
           (items : list item_data) (item : item_data) : Prop :=
  exists p,
    OrderService.product_repository self !! item_product_id item = Some p
    /\ Product.umkm_id p = umkm_id
    /\ Product.is_available p = true
    /\ (0 < Product.price p)%Q
    /\ 0 < item_quantity item
    /\ match Product.stock_quantity p with
       | Some stock => requested (item_product_id item) items <= stock
       | None => True
       end.

(** ** Sample entities *)

Definition nasi_goreng : Product.t :=
  Product.mk 1 1 "Nasi goreng" "Nasi goreng telur" 15000 Product.FOOD None
             (Some 5) true false 0 0 0.

Definition es_jeruk : Product.t :=
  Product.mk 2 1 "Es jeruk" "Es jeruk peras" 5000 Product.BEVERAGE None
             (Some 1) true false 0 0 0.

Definition kaos : Product.t :=
  Product.mk 3 2 "Kaos kampus" "Kaos sablon" 80000 Product.MERCHANDISE None
             (Some 10) true false 0 0 0.

Definition two_lines : list OrderItem.t :=
  [OrderItem.mk 1 "Nasi goreng" 2 15000; OrderItem.mk 2 "Es jeruk" 1 5000].

Definition unavailable_unlimited : Product.t :=
  Product.mk 1 1 "Es teh" "Es teh manis" 5000 Product.BEVERAGE None None false
             false 0 0 0.


Definition ten_thousand_off : Promo.t :=
  Promo.mk 2 1 "Potongan 10rb" "Potongan sepuluh ribu" Promo.FIXED_AMOUNT 10000
           0 100 None None None None 0 true 0 0.

Definition used_up : Promo.t :=
  Promo.mk 3 1 "Sekali pakai" "Hanya untuk satu pembeli" Promo.PERCENTAGE 10
           0 100 None None None (Some 1) 1 true 0 0.

Definition new_stall : UMKM.t :=
  UMKM.mk 1 10 "Warung Bu Sri" "Nasi dan lauk rumahan" "Kantin Sapta" "0812"
          UMKM.ACTIVE None None 0 0 0 0.

(** A store with one active merchant (owner 10) selling products 1 and 2,
    and product 3 of another merchant; no order yet. *)
Definition shop : OrderService.t :=
  OrderService.mk ∅
    (<[1%positive := nasi_goreng]>
       (<[2%positive := es_jeruk]> (<[3%positive := kaos]> ∅)))
    (<[1%positive := new_stall]> ∅).

Definition line (product_id : UUID) (quantity : Z) : item_data :=
  mk_item_data product_id quantity.

(** The order of buyer 20 for two nasi goreng and one es jeruk, stored in
    [shop] once completed. *)
Definition completed_order : Order.t :=
  Order.mk 100 20 1 two_lines COMPLETED None None 35000 0 0 None None.

Definition shop_after_pickup : OrderService.t :=
  OrderService.mk (<[100%positive := completed_order]> ∅)
    (<[1%positive := Product.set_stock_quantity (Some 3) nasi_goreng]>
       (<[2%positive := Product.set_stock_quantity (Some 0) es_jeruk]> ∅))
    (<[1%positive := new_stall]> ∅).

(** [shop] once buyer 20 has ordered two nasi goreng and one es jeruk at
    instant 0, the order taking the identifier 100. *)
Definition placed_order : Order.t :=
  Order.mk 100 20 1 two_lines PLACED None None 35000 0 0 None None.

Definition shop_after_order : OrderService.t :=
  OrderService.mk (<[100%positive := placed_order]> ∅)
    (<[1%positive := Product.set_stock_quantity (Some 3) nasi_goreng]>
       (<[2%positive := Product.set_stock_quantity (Some 0) es_jeruk]>
          (<[3%positive := kaos]> ∅)))
    (<[1%positive := new_stall]> ∅).

(** An order whose second line names a product no longer in the store. *)
Definition open_order : Order.t :=
  Order.mk 101 20 1 two_lines PLACED None None 35000 0 0 None None.

Definition shop_without_es_jeruk : OrderService.t :=
  OrderService.mk (<[101%positive := open_order]> ∅)
    (<[1%positive := Product.set_stock_quantity (Some 3) nasi_goreng]> ∅)
    (<[1%positive := new_stall]> ∅).


(** ** Vocabulary of the further properties *)

(** Whether the order accepts the trigger. *)
Definition accepts (tr : trigger) (now : datetime) (o : Order.t) : bool :=
  match fst (fire tr now o) with
  | inr _ => true
  | inl _ => false
  end.

(** The number of triggers of a history that the order accepts. *)
Fixpoint accepted_count (history : list (trigger * datetime)) (o : Order.t) : nat :=
  match history with
  | [] => 0
  | (tr, now) :: rest =>
      ((if accepts tr now o then 1 else 0)
       + accepted_count rest (snd (fire tr now o)))%nat
  end.

(** The longest path from a status to a final one. *)
Definition steps_left (s : OrderStatus) : nat :=
  match s with
  | PLACED => 4
  | CONFIRMED => 3
  | PREPARING => 2
  | READY => 1
  | COMPLETED | CANCELLED => 0
  end.

(** The cancellation stamp is there exactly on a cancelled order, and a
    reason only on a cancelled order. *)
Definition stamped_iff_cancelled (o : Order.t) : Prop :=
  (Order.status o = CANCELLED -> Order.cancelled_at o <> None)
  /\ (Order.status o <> CANCELLED ->
      Order.cancelled_at o = None /\ Order.cancellation_reason o = None).

(** A status from which the pickup time can no longer change. *)
Definition in_progress_or_finished (s : OrderStatus) : Prop :=
  s <> PLACED /\ s <> CONFIRMED.

(** A call on an order: a trigger, or a change of the pickup time. *)
Inductive order_call :=
| Fire (tr : trigger)
| Reschedule (new_pickup_time : datetime).

Definition order_method (c : order_call) (now : datetime) : M Order.t unit :=
  match c with
  | Fire tr => fire tr now
  | Reschedule new_pickup_time => Order.update_pickup_time new_pickup_time now
  end.

Fixpoint call_all (calls : list (order_call * datetime)) (o : Order.t) : Order.t :=
  match calls with
  | [] => o
  | (c, now) :: rest => call_all rest (snd (order_method c now o))
  end.

(** The calls that move a merchant through its statuses. *)
Inductive lifecycle :=
| Approve
| Suspend (reason : option string)
| Close
| Reactivate.

Definition lifecycle_method (a : lifecycle) (now : datetime) : M UMKM.t unit :=
  match a with
  | Approve => UMKM.approve now
  | Suspend reason => UMKM.suspend reason now
  | Close => UMKM.close now
  | Reactivate => UMKM.reactivate now
  end.

Fixpoint lifecycle_all (actions : list (lifecycle * datetime)) (u : UMKM.t) : UMKM.t :=
  match actions with
  | [] => u
  | (a, now) :: rest => lifecycle_all rest (snd (lifecycle_method a now u))
  end.

(** The status a lifecycle call leads to, [None] when the call raises. *)
Definition lifecycle_table (current : UMKM.UMKMStatus) (a : lifecycle)
  : option UMKM.UMKMStatus :=
  match a, current with
  | Approve, UMKM.PENDING => Some UMKM.ACTIVE
  | Approve, _ => None
  | Suspend _, UMKM.CLOSED => None
  | Suspend _, _ => Some UMKM.SUSPENDED
  | Close, _ => Some UMKM.CLOSED
  | Reactivate, UMKM.CLOSED => None
  | Reactivate, _ => Some UMKM.ACTIVE
  end.

(** A score on the scale of one to five. *)
Definition on_scale (score : Q) : Prop := (1 <= score /\ score <= 5)%Q.

(** Every finite stock of the dictionary is non-negative. *)
Definition stocks_nonneg (products : gmap positive Product.t) : Prop :=
  forall k p stock,
    products !! k = Some p -> Product.stock_quantity p = Some stock -> 0 <= stock.

(** [p'] is [p] up to its stock and its stamp. *)
Definition same_but_stock (p p' : Product.t) : Prop :=
  Product.set_updated_at (Product.updated_at p)
    (Product.set_stock_quantity (Product.stock_quantity p) p') = p.

(** The same products are stored in both dictionaries, each the same up to
    its stock and its stamp, and no finite stock is above (below, for
    [direction = Gt]) what it was. *)
Definition stock_moved (direction : comparison)
           (before after : gmap positive Product.t) : Prop :=
  forall k,
    match before !! k, after !! k with
    | Some p, Some p' =>
        same_but_stock p p'
        /\ match Product.stock_quantity p, Product.stock_quantity p' with
           | Some stock, Some stock' =>
               match direction with
               | Lt => stock' <= stock
               | Gt => stock <= stock'
               | Eq => stock' = stock
               end
           | None, None => True
           | _, _ => False
           end
    | None, None => True
    | _, _ => False
    end.


(** The status a seller names in [update_order_status]. *)
Definition status_named (new_status : string) : option OrderStatus :=
  if String.eqb new_status "confirmed" then Some CONFIRMED
  else if String.eqb new_status "preparing" then Some PREPARING
  else if String.eqb new_status "ready" then Some READY
  else if String.eqb new_status "completed" then Some COMPLETED
  else None.

(** A call on the product dictionary. *)
Inductive product_store_call :=
| Save (product : Product.t)
| Delete (product_id : UUID).

Definition product_store_method (c : product_store_call)
  : M (gmap positive Product.t) unit :=
  match c with
  | Save product => (InMemoryProductRepository.save product ;; ret tt)%method
  | Delete product_id =>
      (InMemoryProductRepository.delete product_id ;; ret tt)%method
  end.

Fixpoint store_all (calls : list product_store_call)
         (products : gmap positive Product.t) : gmap positive Product.t :=
  match calls with
  | [] => products
  | c :: rest => store_all rest (snd (product_store_method c products))
  end.

(** A product that passes the validation of its constructor. *)
Definition valid_product (p : Product.t) : Prop := Product._validate p = inr p.

(** A call of a method of a product. *)
Inductive product_call :=
| ReduceStock (quantity : Z)
| IncreaseStock (quantity : Z)
| MarkAvailable
| MarkUnavailable
| UpdatePrice (new_price : Q)
| UpdateInfo (name description : option string)
             (category : option Product.ProductCategory)
             (image_url : option string) (preorder_required : option bool)
             (min_preorder_hours : option Z).

Definition product_method (c : product_call) (now : datetime)
  : MF Product.t unit :=
  match c with
  | ReduceStock quantity => earlier (Product.reduce_stock quantity now)
  | IncreaseStock quantity => earlier (Product.increase_stock quantity now)
  | MarkAvailable => earlier (Product.mark_available now)
  | MarkUnavailable => earlier (Product.mark_unavailable now)
  | UpdatePrice new_price => Product.update_price new_price now
  | UpdateInfo name description category image_url preorder_required
               min_preorder_hours =>
      Product.update_info name description category image_url
                          preorder_required min_preorder_hours now
  end.

Fixpoint product_calls (calls : list (product_call * datetime)) (p : Product.t)
  : Product.t :=
  match calls with
  | [] => p
  | (c, now) :: rest => product_calls rest (snd (product_method c now p))
  end.

(** A call of a method of [ProductService] that changes a stored product. *)
Inductive product_service_call :=
| UpdateProduct (name description : option string)
                (category : option Product.ProductCategory)
                (image_url : option string) (preorder_required : option bool)
                (min_preorder_hours : option Z)
| UpdateProductPrice (new_price : Q)
| UpdateProductStock (new_stock : Z)
| ToggleProductAvailability (available : bool)
| DeleteProduct.

Definition product_service_method (c : product_service_call)
           (product_id seller_id : UUID) (now : datetime)
  : MF ProductService.t unit :=
  match c with
  | UpdateProduct name description category image_url preorder_required
                  min_preorder_hours =>
      (ProductService.update_product product_id seller_id name description
                                     category image_url preorder_required
                                     min_preorder_hours now ;; retF tt)%further
  | UpdateProductPrice new_price =>
      (ProductService.update_product_price product_id seller_id new_price now ;;
       retF tt)%further
  | UpdateProductStock new_stock =>
      (ProductService.update_product_stock product_id seller_id new_stock ;;
       retF tt)%further
  | ToggleProductAvailability available =>
      (ProductService.toggle_product_availability product_id seller_id
                                                  available now ;;
       retF tt)%further
  | DeleteProduct =>
      (ProductService.delete_product product_id seller_id ;; retF tt)%further
  end.

(** The method of the product that a method of the service calls, when it
    calls one. *)
Definition entity_call (c : product_service_call) : option product_call :=
  match c with
  | UpdateProduct name description category image_url preorder_required
                  min_preorder_hours =>
      Some (UpdateInfo name description category image_url preorder_required
                       min_preorder_hours)
  | UpdateProductPrice new_price => Some (UpdatePrice new_price)
  | ToggleProductAvailability true => Some MarkAvailable
  | ToggleProductAvailability false => Some MarkUnavailable
  | UpdateProductStock _ | DeleteProduct => None
  end.

(** A review that passes the validation of its constructor. *)
Definition valid_review (r : Review.t) : Prop := Review._validate r = inr r.

(** A call of a method of a review. *)
Inductive review_call :=
| FlagForModeration
| HideReview
| ShowReview
| UpdateContent (new_rating : Z) (new_comment : string).

Definition review_method (c : review_call) (now : datetime) : MF Review.t unit :=
  match c with
  | FlagForModeration => earlier (Review.flag_for_moderation now)
  | HideReview => earlier (Review.hide now)
  | ShowReview => earlier (Review.show now)
  | UpdateContent new_rating new_comment =>
      Review.update_content new_rating new_comment now
  end.

Fixpoint review_calls (calls : list (review_call * datetime)) (r : Review.t)
  : Review.t :=
  match calls with
  | [] => r
  | (c, now) :: rest => review_calls rest (snd (review_method c now r))
  end.

(** More sample entities: the product store and the merchants of [shop],
    as the product service sees them, and a store of reviews. *)
Definition product_desk : ProductService.t :=
  ProductService.mk (OrderService.product_repository shop)
                    (OrderService.umkm_repository shop).

Definition kind_review : Review.t :=
  Review.mk 500 20 1 None 5 "Enak sekali" true false 0 0.

Definition review_desk : ReviewService.t :=
  ReviewService.mk (<[500%positive := kind_review]> ∅)
                   (OrderService.umkm_repository shop_after_order)
                   (OrderService.order_repository shop_after_order).

(* ================================================================== *)
(** * Properties *)
(* ================================================================== *)

(** ** Product inventory ledger *)

(** C3, as stated, fails: an unavailable product with unlimited stock has
    [can_be_ordered] false, yet [reduce_stock] returns normally. *)
Lemma reduce_stock_unlimited_ignores_availability :
  ~ (forall (p : Product.t) (quantity : Z) (now : datetime),
        0 < quantity ->
        ((exists e p', Product.reduce_stock quantity now p = (inl e, p'))
         <-> Product.can_be_ordered quantity p = false)).
Proof.
  intros H.
  destruct (H unavailable_unlimited 1 0 ltac:(lia)) as [_ H2].
  destruct (H2 eq_refl) as (e & p' & Hr).
  discriminate Hr.
Qed.

(** C3 (amended): [reduce_stock(quantity)] raises exactly when the stock is
    finite and [can_be_ordered(quantity)] is false (the product is
    unavailable or the stock is below the quantity); the exception is the
    insufficient-stock [ValueError] and the product is left as it was. On a
    finite stock with [can_be_ordered] true it subtracts the quantity and
    stamps [updated_at]; on unlimited stock it changes nothing and never
    raises, whatever [is_available] says. *)
Theorem reduce_stock_spec (p : Product.t) (quantity : Z) (now : datetime) :
  match Product.stock_quantity p with
  | None => Product.reduce_stock quantity now p = (inr tt, p)
  | Some stock =>
      if Product.can_be_ordered quantity p
      then Product.reduce_stock quantity now p =
             (inr tt, Product.set_updated_at now
                        (Product.set_stock_quantity (Some (stock - quantity)) p))
      else Product.reduce_stock quantity now p =
             (inl (ValueError (Insufficient_stock (Some stock) quantity)), p)
  end
  /\ ((exists e p', Product.reduce_stock quantity now p = (inl e, p'))
      <-> (Product.stock_quantity p <> None
           /\ (Product.is_available p = false
               \/ exists stock, Product.stock_quantity p = Some stock
                                /\ stock < quantity))).
Proof.
  unfold Product.reduce_stock, Product.can_be_ordered, bind, get, modify, raise, ret.
  destruct p as [i u n d pr c im [stock|] av po mh ca ua]; simpl.
  - destruct av; simpl.
    + destruct (Z.leb_spec quantity stock); simpl.
      * split; [reflexivity|]. split.
        -- intros (e & p' & He). discriminate.
        -- intros (_ & [Hf | (s & Hs & Hlt)]); [discriminate|].
           injection Hs as <-. lia.
      * split; [reflexivity|]. split; [|eauto].
        intros _. split; [discriminate|]. right. eauto.
    + split; [reflexivity|]. split; [|eauto].
      intros _. split; [discriminate|]. now left.
  - split; [reflexivity|]. split.
    + intros (e & p' & He). discriminate.
    + intros (Hn & _). now contradiction Hn.
Qed.

(** ** Order state machine *)

(** C2: a trigger succeeds exactly when the transition table allows it for
    the current status, and then moves the order to the status of the
    table; every other trigger, from every status, raises one of the
    invalid-transition errors and leaves the order as it was. *)
Theorem state_machine_follows_table (o : Order.t) (tr : trigger) (now : datetime) :
  match transition_table (Order.status o) tr with
  | Some next =>
      exists o', fire tr now o = (inr tt, o') /\ Order.status o' = next
  | None =>
      exists e, fire tr now o = (inl e, o) /\ InvalidTransition e
  end.
Proof.
  destruct o as [i b u its st pk nt tot ca ua cat cr].
  destruct st, tr; simpl; eexists; split; try reflexivity; exact I.
Qed.



(** In exact arithmetic the order of the additions does not matter. *)
Lemma fold_left_subtotals items : forall acc,
  (fold_left (fun acc item => acc + OrderItem.subtotal item) items acc
   == acc + sum_of_subtotals items)%Q.
Proof.
  induction items as [|item rest IH]; intros acc; simpl.
  - ring.
  - rewrite IH. unfold OrderItem.subtotal. ring.
Qed.

Lemma calculate_total_is_sum items :
  (Order._calculate_total items == sum_of_subtotals items)%Q.
Proof.
  unfold Order._calculate_total. rewrite fold_left_subtotals. ring.
Qed.






(** ** Promo evaluator *)

Lemma Qlt_bool_true (a b : Q) : Qlt_bool a b = true <-> (a < b)%Q.
Proof.
  unfold Qlt_bool. rewrite negb_true_iff. split.
  - intros H. apply Qnot_le_lt. intros Hle.
    apply Qle_bool_iff in Hle. congruence.
  - intros H. destruct (Qle_bool b a) eqn:E; [|reflexivity].
    apply Qle_bool_iff in E. exfalso. exact (Qlt_not_le _ _ H E).
Qed.

Lemma Qlt_bool_false (a b : Q) : Qlt_bool a b = false <-> (b <= a)%Q.
Proof.
  unfold Qlt_bool. rewrite negb_false_iff. apply Qle_bool_iff.
Qed.

(** Python's [min] of two floats is their minimum. *)
Lemma py_min_is_Qmin (a b : Q) : (py_min a b == Qmin a b)%Q.
Proof.
  unfold py_min. destruct (Qlt_bool b a) eqn:E.
  - apply Qlt_bool_true in E. symmetry. apply Q.min_r. now apply Qlt_le_weak.
  - apply Qlt_bool_false in E. symmetry. now apply Q.min_l.
Qed.


(** A promo built with the default usage count starts within its limit. *)
Lemma new_promo_within_limit
    (umkm_id : UUID) (title description : string) (promo_type : Promo.PromoType)
    (discount_value : Q) (valid_from valid_until : datetime) (id : option UUID)
    (code : option string) (min_purchase max_discount : option Q) (limit : Z)
    (is_active : option bool) (created_at updated_at : option datetime)
    (fresh : UUID) (now : datetime) (p : Promo.t) :
  Promo.new umkm_id title description promo_type discount_value valid_from
            valid_until id code min_purchase max_discount (Some limit) None
            is_active created_at updated_at fresh now = inr p ->
  Promo.usage_limit p = Some limit /\ Promo.usage_count p <= limit.
Proof.
  unfold Promo.new, Promo._validate; simpl.
  repeat match goal with
         | |- context [if ?b then inl _ else _] => destruct b eqn:?; [discriminate|]
         end.
  intros [= <-]; simpl. split; [reflexivity|lia].
Qed.

Lemma increment_usage_within_limit (p : Promo.t) (limit : Z) (now : datetime) :
  Promo.usage_limit p = Some limit ->
  Promo.usage_count p <= limit ->
  Promo.usage_limit (snd (Promo.increment_usage now p)) = Some limit
  /\ Promo.usage_count (snd (Promo.increment_usage now p)) <= limit.
Proof.
  intros Hl Hc. unfold Promo.increment_usage, bind, get, modify, raise.
  rewrite Hl. destruct (Z.leb_spec limit (Promo.usage_count p)); simpl.
  - split; assumption.
  - split; [assumption|lia].
Qed.

Lemma use_all_within_limit (limit : Z) instants : forall p,
  Promo.usage_limit p = Some limit ->
  Promo.usage_count p <= limit ->
  Promo.usage_count (use_all instants p) <= limit.
Proof.
  induction instants as [|now rest IH]; intros p Hl Hc; simpl.
  - assumption.
  - destruct (increment_usage_within_limit p limit now Hl Hc) as [Hl' Hc'].
    now apply IH.
Qed.

(** C6: for a promo with a usage limit, [increment_usage] adds one to the
    count while the count is below the limit, and raises, leaving the promo
    as it was, once the count has reached the limit; so a count within the
    limit stays within it through any succession of uses. A promo whose
    count has reached its limit is invalid at every instant and discounts
    every amount by 0. *)
Theorem usage_count_never_exceeds_limit (p : Promo.t) (limit : Z) (now : datetime) :
  Promo.usage_limit p = Some limit ->
  (Promo.usage_count p < limit ->
     Promo.increment_usage now p
     = (inr tt, Promo.set_updated_at now
                  (Promo.set_usage_count (Promo.usage_count p + 1) p)))
  /\ (limit <= Promo.usage_count p ->
        Promo.increment_usage now p
        = (inl (ValueError Promo_usage_limit_exceeded), p)
        /\ (forall current_time utcnow,
              Promo.is_valid current_time utcnow p = false)
        /\ (forall order_amount utcnow,
              Promo.calculate_discount order_amount utcnow p = 0%Q))
  /\ (Promo.usage_count p <= limit ->
        forall instants, Promo.usage_count (use_all instants p) <= limit).
Proof.
  intros Hl. split; [|split].
  - intros Hc. unfold Promo.increment_usage, bind, get, modify, raise.
    rewrite Hl. destruct (Z.leb_spec limit (Promo.usage_count p)); [lia|reflexivity].
  - intros Hc.
    assert (Hv : forall current_time utcnow,
               Promo.is_valid current_time utcnow p = false).
    { intros current_time utcnow. unfold Promo.is_valid. rewrite Hl.
      destruct (negb (Promo.is_active p)); [reflexivity|].
      destruct (_ || _); [reflexivity|].
      destruct (Z.leb_spec limit (Promo.usage_count p)); [reflexivity|lia]. }
    split; [|split].
    + unfold Promo.increment_usage, bind, get, modify, raise.
      rewrite Hl. destruct (Z.leb_spec limit (Promo.usage_count p)); [reflexivity|lia].
    + exact Hv.
    + intros order_amount utcnow.
      unfold Promo.calculate_discount, Promo.can_apply_to_order.
      rewrite Hv. reflexivity.
  - intros Hc instants. now apply use_all_within_limit.
Qed.

Lemma usage_count_never_exceeds_limit_witness :
  Promo.usage_limit used_up = Some 1
  /\ Promo.increment_usage 50 used_up
     = (inl (ValueError Promo_usage_limit_exceeded), used_up)
  /\ Promo.is_valid None 50 used_up = false
  /\ Promo.calculate_discount 50000 50 used_up = 0%Q.
Proof.
  split; [reflexivity|].
  destruct (usage_count_never_exceeds_limit used_up 1 50 eq_refl)
    as (_ & Hfull & _).
  destruct (Hfull ltac:(simpl; lia)) as (Hraise & Hvalid & Hzero).
  split; [exact Hraise|]. split; [apply Hvalid|apply Hzero].
Defined.

(** ** Rating aggregator *)



(** ** Order workflow orchestrator *)

Lemma service_eta (self : OrderService.t) :
  OrderService.mk (OrderService.order_repository self)
                  (OrderService.product_repository self)
                  (OrderService.umkm_repository self) = self.
Proof. destruct self; reflexivity. Qed.

(** The authorization test of [cancel_order] accepts a caller who may
    cancel. *)
Lemma may_cancel_passes (self : OrderService.t) (order : Order.t) (user_id : UUID) :
  may_cancel self order user_id ->
  negb (Pos.eqb (Order.buyer_id order) user_id
        || match OrderService.umkm_repository self !! Order.umkm_id order with
           | Some umkm => Pos.eqb (UMKM.owner_id umkm) user_id
           | None => false
           end) = false.
Proof.
  intros [Hb | (umkm & Hu & Ho)].
  - apply Pos.eqb_eq in Hb. rewrite Hb. reflexivity.
  - rewrite Hu. apply Pos.eqb_eq in Ho. rewrite Ho.
    rewrite orb_true_r. reflexivity.
Qed.

(** C8: cancelling a completed (or already cancelled) order, by a caller
    who may cancel, raises the cannot-be-cancelled error before the
    restoration loop: the whole store, so every product's stock and the
    stored order, is as before. *)
Theorem cancel_finished_order_changes_nothing
    (self : OrderService.t) (order_id user_id : UUID) (reason : option string)
    (now : datetime) (order : Order.t) :
  OrderService.order_repository self !! order_id = Some order ->
  may_cancel self order user_id ->
  Order.status order = COMPLETED \/ Order.status order = CANCELLED ->
  OrderService.cancel_order order_id user_id reason now self
  = (inl (ValueError Order_cannot_be_cancelled), self).
Proof.
  intros Hfind Hauth Hstatus.
  unfold OrderService.cancel_order, bind, OrderService.in_orders,
    OrderService.in_umkms, InMemoryOrderRepository.find_by_id,
    InMemoryUMKMRepository.find_by_id, gets. simpl.
  rewrite Hfind. simpl.
  rewrite (may_cancel_passes _ _ _ Hauth).
  unfold Order.can_be_cancelled, raise.
  destruct Hstatus as [-> | ->]; simpl; rewrite !service_eta; reflexivity.
Qed.

Lemma cancel_finished_order_changes_nothing_witness :
  OrderService.cancel_order 100 20 None 7 shop_after_pickup
  = (inl (ValueError Order_cannot_be_cancelled), shop_after_pickup).
Proof.
  apply (cancel_finished_order_changes_nothing
           shop_after_pickup 100 20 None 7 completed_order).
  - reflexivity.
  - left. reflexivity.
  - left. reflexivity.
Defined.

(** C9: [create_order] is not atomic across lines. In the sample shop,
    where five nasi goreng (product 1) are in stock, a request for two of
    them followed by a line that fails (a product that is not stored, a
    product of another merchant, more es jeruk than in stock) raises, and
    leaves the stock of nasi goreng at three. *)
Theorem create_order_keeps_partial_reservation :
  let attempt items :=
    OrderService.create_order 20 1 items None None 100 0 shop in
  stock_of shop 1 = Some (Some 5)
  /\ (fst (attempt [line 1 2; line 99 1])
      = inl (ValueError (Product_not_found 99))
      /\ stock_of (snd (attempt [line 1 2; line 99 1])) 1 = Some (Some 3))
  /\ (fst (attempt [line 1 2; line 3 1])
      = inl (ValueError (Product_does_not_belong_to_this_UMKM 3))
      /\ stock_of (snd (attempt [line 1 2; line 3 1])) 1 = Some (Some 3))
  /\ (fst (attempt [line 1 2; line 2 3])
      = inl (ValueError (Product_is_not_available_in_requested_quantity "Es jeruk"))
      /\ stock_of (snd (attempt [line 1 2; line 2 3])) 1 = Some (Some 3)).
Proof.
  cbv zeta. repeat split; vm_compute; reflexivity.
Qed.

(** *** One step of each loop *)

Lemma create_order_items_cons (umkm_id : UUID) (now : datetime)
      (item : item_data) (rest : list item_data) (acc : list OrderItem.t)
      (self : OrderService.t) :
  OrderService.create_order_items umkm_id now (item :: rest) acc self
  = match OrderService.product_repository self !! item_product_id item with
    | None => (inl (ValueError (Product_not_found (item_product_id item))), self)
    | Some product =>
        if negb (Pos.eqb (Product.umkm_id product) umkm_id)
        then (inl (ValueError (Product_does_not_belong_to_this_UMKM
                                 (item_product_id item))), self)
        else if negb (Product.can_be_ordered (item_quantity item) product)
        then (inl (ValueError (Product_is_not_available_in_requested_quantity
                                 (Product.name product))), self)
        else
          match OrderItem.new (Product.id product) (Product.name product)
                              (item_quantity item) (Product.price product) with
          | inl e => (inl e, self)
          | inr order_item =>
              match Product.reduce_stock (item_quantity item) now product with
              | (inl e, _) => (inl e, self)
              | (inr _, product') =>
                  OrderService.create_order_items umkm_id now rest
                    (acc ++ [order_item])
                    (OrderService.mk
                       (OrderService.order_repository self)
                       (<[Product.id product' := product']>
                          (OrderService.product_repository self))
                       (OrderService.umkm_repository self))
              end
          end
    end.
Proof.
  simpl.
  unfold bind, OrderService.in_products, InMemoryProductRepository.find_by_id,
    InMemoryProductRepository.save, gets, raise, try_, call, modify, ret, bind.
  simpl. rewrite service_eta.
  destruct (OrderService.product_repository self !! item_product_id item)
    as [product|]; [|reflexivity].
  destruct (negb (Pos.eqb (Product.umkm_id product) umkm_id)); [reflexivity|].
  destruct (negb (Product.can_be_ordered (item_quantity item) product));
    [reflexivity|].
  destruct (OrderItem.new _ _ _ _) as [e|order_item]; [reflexivity|].
  destruct (Product.reduce_stock (item_quantity item) now product)
    as [[e|[]] product']; reflexivity.
Qed.

Lemma restore_stock_cons (now : datetime) (item : OrderItem.t)
      (rest : list OrderItem.t) (self : OrderService.t) :
  OrderService.restore_stock now (item :: rest) self
  = match OrderService.product_repository self !! OrderItem.product_id item with
    | None => OrderService.restore_stock now rest self
    | Some product =>
        match Product.increase_stock (OrderItem.quantity item) now product with
        | (inl e, _) => (inl e, self)
        | (inr _, product') =>
            OrderService.restore_stock now rest
              (OrderService.mk
                 (OrderService.order_repository self)
                 (<[Product.id product' := product']>
                    (OrderService.product_repository self))
                 (OrderService.umkm_repository self))
        end
    end.
Proof.
  simpl.
  unfold bind, OrderService.in_products, InMemoryProductRepository.find_by_id,
    InMemoryProductRepository.save, gets, raise, call, modify, ret, bind.
  simpl. rewrite service_eta.
  destruct (OrderService.product_repository self !! OrderItem.product_id item)
    as [product|]; [|reflexivity].
  destruct (Product.increase_stock (OrderItem.quantity item) now product)
    as [[e|[]] product']; reflexivity.
Qed.

(** *** The two stock operations, when they succeed *)

Lemma reduce_stock_ok (quantity : Z) (now : datetime) (p : Product.t) :
  Product.can_be_ordered quantity p = true ->
  exists p',
    Product.reduce_stock quantity now p = (inr tt, p')
    /\ Product.id p' = Product.id p
    /\ Product.stock_quantity p'
       = shift_stock (- quantity) (Product.stock_quantity p).
Proof.
  intros Hcan.
  unfold Product.reduce_stock, bind, get, modify, raise, ret.
  rewrite Hcan. simpl.
  destruct (Product.stock_quantity p) as [stock|] eqn:Hs.
  - eexists. split; [reflexivity|]. simpl. split; reflexivity.
  - exists p. rewrite Hs. repeat split.
Qed.

Lemma increase_stock_ok (quantity : Z) (now : datetime) (p : Product.t) :
  0 < quantity ->
  exists p',
    Product.increase_stock quantity now p = (inr tt, p')
    /\ Product.id p' = Product.id p
    /\ Product.stock_quantity p'
       = shift_stock quantity (Product.stock_quantity p).
Proof.
  intros Hpos.
  unfold Product.increase_stock, bind, get, modify, raise, ret.
  destruct (Z.leb_spec quantity 0); [lia|].
  destruct (Product.stock_quantity p) as [stock|] eqn:Hs.
  - eexists. split; [reflexivity|]. simpl. split; reflexivity.
  - exists p. rewrite Hs. repeat split.
Qed.

(** Whatever [increase_stock] does, it keeps the identifier. *)
Lemma increase_stock_keeps_id (quantity : Z) (now : datetime) (p : Product.t) :
  Product.id (snd (Product.increase_stock quantity now p)) = Product.id p.
Proof.
  unfold Product.increase_stock, bind, get, modify, raise, ret.
  destruct (quantity <=? 0); [reflexivity|].
  destruct (Product.stock_quantity p); reflexivity.
Qed.

(** *** Stocks in the dictionary *)

Lemma shift_stock_0 (stock : option Z) : shift_stock 0 stock = stock.
Proof. destruct stock as [n|]; simpl; [f_equal; lia|reflexivity]. Qed.

Lemma shift_stock_shift (a b : Z) (stock : option Z) :
  shift_stock a (shift_stock b stock) = shift_stock (b + a) stock.
Proof. destruct stock as [n|]; simpl; [f_equal; lia|reflexivity]. Qed.

Lemma keyed_by_id_save (products : gmap positive Product.t) (p' : Product.t) :
  keyed_by_id products ->
  keyed_by_id (<[Product.id p' := p']> products).
Proof.
  intros Hk k p. rewrite lookup_insert_Some.
  intros [[<- <-] | [_ Hp]]; [reflexivity|]. now apply Hk.
Qed.

(** Saving an updated product moves the stock under its key, and no other. *)
Lemma stock_after_save (products : gmap positive Product.t) (k : UUID)
      (p p' : Product.t) (delta : Z) (product_id : UUID) :
  products !! k = Some p ->
  Product.stock_quantity p' = shift_stock delta (Product.stock_quantity p) ->
  Product.stock_quantity <$> (<[k := p']> products) !! product_id
  = shift_stock (if Pos.eqb k product_id then delta else 0)
      <$> (Product.stock_quantity <$> products !! product_id).
Proof.
  intros Hp Hs. destruct (Pos.eqb_spec k product_id) as [<- | Hne].
  - rewrite lookup_insert_eq, Hp. simpl. now f_equal.
  - rewrite lookup_insert_ne by assumption.
    destruct (products !! product_id); simpl; [|reflexivity].
    now rewrite shift_stock_0.
Qed.

(** *** The reservation loop *)

Lemma create_order_items_reserves (umkm_id : UUID) (now : datetime)
      (items : list item_data) :
  forall (acc : list OrderItem.t) (self : OrderService.t)
         (acc' : list OrderItem.t) (self1 : OrderService.t),
    keyed_by_id (OrderService.product_repository self) ->
    OrderService.create_order_items umkm_id now items acc self = (inr acc', self1) ->
    OrderService.order_repository self1 = OrderService.order_repository self
    /\ OrderService.umkm_repository self1 = OrderService.umkm_repository self
    /\ keyed_by_id (OrderService.product_repository self1)
    /\ (forall product_id,
          stock_of self1 product_id
          = shift_stock (- requested product_id items) <$> stock_of self product_id)
    /\ exists lines,
         acc' = acc ++ lines
         /\ Forall (fun l => 0 < OrderItem.quantity l) lines
         /\ forall product_id, ordered product_id lines = requested product_id items.
Proof.
  induction items as [|item rest IH]; intros acc self acc' self1 Hk Hrun.
  - simpl in Hrun. injection Hrun as <- <-.
    repeat split; try assumption.
    + intros product_id. simpl. destruct (stock_of self product_id); simpl;
        [now rewrite shift_stock_0|reflexivity].
    + exists []. rewrite app_nil_r. repeat split. constructor.
  - rewrite create_order_items_cons in Hrun.
    destruct (OrderService.product_repository self !! item_product_id item)
      as [p|] eqn:Hp; [|discriminate].
    destruct (negb (Pos.eqb (Product.umkm_id p) umkm_id)); [discriminate|].
    destruct (negb (Product.can_be_ordered (item_quantity item) p)) eqn:Hcan;
      [discriminate|].
    apply negb_false_iff in Hcan.
    unfold OrderItem.new in Hrun.
    destruct (Z.leb_spec (item_quantity item) 0) as [|Hq]; [discriminate|].
    destruct (Qle_bool (Product.price p) 0); [discriminate|].
    destruct (reduce_stock_ok _ now _ Hcan) as (p' & Hred & Hid & Hst).
    rewrite Hred in Hrun.
    pose proof (Hk _ _ Hp) as Hkey.
    apply IH in Hrun; [|simpl; now apply keyed_by_id_save].
    destruct Hrun as (Ho & Hu & Hk' & Hstock & lines & Hacc & Hpos & Hord).
    simpl in Ho, Hu.
    split; [assumption|]. split; [assumption|]. split; [assumption|]. split.
    + intros product_id. rewrite Hstock. unfold stock_of at 1. simpl.
      rewrite (stock_after_save _ (Product.id p') p p' (- item_quantity item))
        by (try assumption; now rewrite Hid, Hkey).
      rewrite Hid, Hkey. fold (stock_of self product_id).
      destruct (stock_of self product_id) as [stock|]; simpl; [|reflexivity].
      rewrite shift_stock_shift. do 2 f_equal.
      destruct (Pos.eqb (item_product_id item) product_id); lia.
    + eexists (_ :: lines). split.
      * rewrite Hacc, <- app_assoc. reflexivity.
      * split.
        -- constructor; [exact Hq|assumption].
        -- intros product_id. simpl. rewrite Hkey, Hord. reflexivity.
Qed.

(** *** The restoration loop *)

Lemma restore_stock_restores (now : datetime) (items : list OrderItem.t) :
  forall self : OrderService.t,
    keyed_by_id (OrderService.product_repository self) ->
    Forall (fun l => 0 < OrderItem.quantity l) items ->
    exists self2,
      OrderService.restore_stock now items self = (inr tt, self2)
      /\ OrderService.order_repository self2 = OrderService.order_repository self
      /\ OrderService.umkm_repository self2 = OrderService.umkm_repository self
      /\ keyed_by_id (OrderService.product_repository self2)
      /\ forall product_id,
           stock_of self2 product_id
           = shift_stock (ordered product_id items) <$> stock_of self product_id.
Proof.
  induction items as [|item rest IH]; intros self Hk Hpos.
  - exists self. simpl. repeat split; try assumption.
    intros product_id. destruct (stock_of self product_id); simpl;
      [now rewrite shift_stock_0|reflexivity].
  - rewrite restore_stock_cons. inversion Hpos as [|? ? Hq Hrest]; subst.
    destruct (OrderService.product_repository self !! OrderItem.product_id item)
      as [p|] eqn:Hp.
    + destruct (increase_stock_ok _ now p Hq) as (p' & Hinc & Hid & Hst).
      rewrite Hinc. pose proof (Hk _ _ Hp) as Hkey.
      destruct (IH (OrderService.mk
                      (OrderService.order_repository self)
                      (<[Product.id p' := p']> (OrderService.product_repository self))
                      (OrderService.umkm_repository self)))
        as (self2 & Hrun & Ho & Hu & Hk' & Hstock);
        [simpl; now apply keyed_by_id_save|assumption|].
      exists self2. split; [assumption|]. simpl in Ho, Hu.
      split; [assumption|]. split; [assumption|]. split; [assumption|].
      intros product_id. rewrite Hstock. unfold stock_of at 1. simpl.
      rewrite (stock_after_save _ (Product.id p') p p' (OrderItem.quantity item))
        by (try assumption; now rewrite Hid, Hkey).
      rewrite Hid, Hkey. fold (stock_of self product_id).
      destruct (stock_of self product_id) as [stock|]; simpl; [|reflexivity].
      rewrite shift_stock_shift. reflexivity.
    + destruct (IH self Hk Hrest) as (self2 & Hrun & Ho & Hu & Hk' & Hstock).
      exists self2. repeat (split; [assumption|]).
      intros product_id. rewrite Hstock. simpl.
      destruct (Pos.eqb_spec (OrderItem.product_id item) product_id) as [<-|_].
      * unfold stock_of. rewrite Hp. reflexivity.
      * reflexivity.
Qed.

(** The loop passes over the lines whose product is not stored: it runs as
    on the lines whose product is stored. *)
Lemma restore_stock_skips_missing (now : datetime) (self0 : OrderService.t)
      (items : list OrderItem.t) :
  forall self : OrderService.t,
    (forall product_id,
        OrderService.product_repository self !! product_id = None
        <-> OrderService.product_repository self0 !! product_id = None) ->
    keyed_by_id (OrderService.product_repository self) ->
    OrderService.restore_stock now items self
    = OrderService.restore_stock now (List.filter (in_store self0) items) self.
Proof.
  induction items as [|item rest IH]; intros self Hdom Hk; [reflexivity|].
  rewrite restore_stock_cons. simpl. unfold in_store at 1.
  destruct (OrderService.product_repository self !! OrderItem.product_id item)
    as [p|] eqn:Hp.
  - destruct (OrderService.product_repository self0 !! OrderItem.product_id item)
      as [p0|] eqn:Hp0.
    + rewrite restore_stock_cons, Hp.
      pose proof (increase_stock_keeps_id (OrderItem.quantity item) now p) as Hid.
      destruct (Product.increase_stock (OrderItem.quantity item) now p)
        as [[e|[]] p']; [reflexivity|].
      simpl in Hid. pose proof (Hk _ _ Hp) as Hkey.
      apply IH; simpl; [|now apply keyed_by_id_save].
      intros product_id. rewrite <- Hdom, Hid, Hkey.
      rewrite lookup_insert_None. split.
      * intros [Hnone _]. exact Hnone.
      * intros Hnone. split; [exact Hnone|]. intros <-. congruence.
    + apply Hdom in Hp0. congruence.
  - assert (Hp0 : OrderService.product_repository self0 !! OrderItem.product_id item
                  = None) by now apply Hdom.
    rewrite Hp0. now apply IH.
Qed.

(** *** Cancellation, past its checks *)

Lemma cancel_ok (reason : option string) (now : datetime) (order : Order.t) :
  Order.can_be_cancelled order = true ->
  Order.cancel reason now order
  = (inr tt,
     Order.set_updated_at now
       (Order.set_cancellation_reason reason
          (Order.set_cancelled_at (Some now)
             (Order.set_status CANCELLED order)))).
Proof.
  intros Hcan. unfold Order.cancel, bind, get, modify, raise.
  rewrite Hcan. reflexivity.
Qed.

Lemma cancel_order_run (self : OrderService.t) (order_id user_id : UUID)
      (reason : option string) (now : datetime) (order : Order.t) :
  OrderService.order_repository self !! order_id = Some order ->
  may_cancel self order user_id ->
  Order.can_be_cancelled order = true ->
  OrderService.cancel_order order_id user_id reason now self
  = match OrderService.restore_stock now (Order.items order) self with
    | (inl e, self') => (inl e, self')
    | (inr _, self') =>
        let cancelled := snd (Order.cancel reason now order) in
        (inr cancelled,
         OrderService.mk
           (<[Order.id cancelled := cancelled]> (OrderService.order_repository self'))
           (OrderService.product_repository self')
           (OrderService.umkm_repository self'))
    end.
Proof.
  intros Hfind Hauth Hcan.
  unfold OrderService.cancel_order, bind, OrderService.in_orders,
    OrderService.in_umkms, InMemoryOrderRepository.find_by_id,
    InMemoryUMKMRepository.find_by_id, InMemoryOrderRepository.save,
    gets, modify, ret, call, bind. simpl.
  rewrite Hfind. simpl.
  rewrite (may_cancel_passes _ _ _ Hauth), Hcan. simpl.
  rewrite !service_eta.
  destruct (OrderService.restore_stock now (Order.items order) self)
    as [[e|[]] self']; [reflexivity|].
  rewrite (cancel_ok reason now order Hcan). reflexivity.
Qed.

(** C10: in [cancel_order], past the checks, a line whose product is not
    in the product store is passed over: no error is raised, the product
    stays absent, the store of products ends as if the order held only the
    lines whose product is stored, and the order is cancelled and saved. *)
Theorem cancel_order_skips_missing_products
    (self : OrderService.t) (order_id user_id : UUID) (reason : option string)
    (now : datetime) (order : Order.t) :
  keyed_by_id (OrderService.product_repository self) ->
  OrderService.order_repository self !! order_id = Some order ->
  may_cancel self order user_id ->
  Order.can_be_cancelled order = true ->
  Forall (fun l => 0 < OrderItem.quantity l) (Order.items order) ->
  exists cancelled self',
    OrderService.cancel_order order_id user_id reason now self
    = (inr cancelled, self')
    /\ Order.status cancelled = CANCELLED
    /\ OrderService.order_repository self' !! Order.id order = Some cancelled
    /\ (forall item,
          In item (Order.items order) ->
          in_store self item = false ->
          OrderService.product_repository self' !! OrderItem.product_id item = None)
    /\ OrderService.product_repository self'
       = OrderService.product_repository
           (snd (OrderService.restore_stock now
                   (List.filter (in_store self) (Order.items order)) self)).
Proof.
  intros Hk Hfind Hauth Hcan Hpos.
  rewrite (cancel_order_run _ _ _ _ _ _ Hfind Hauth Hcan).
  destruct (restore_stock_restores now (Order.items order) self Hk Hpos)
    as (self2 & Hrun & Ho & Hu & Hk2 & Hstock).
  rewrite Hrun. cbv zeta. rewrite (cancel_ok reason now order Hcan). simpl.
  eexists _, _. split; [reflexivity|]. simpl.
  split; [reflexivity|]. split; [apply lookup_insert_eq|]. split.
  - intros item _ Hmissing. unfold in_store in Hmissing.
    specialize (Hstock (OrderItem.product_id item)). unfold stock_of in Hstock.
    destruct (OrderService.product_repository self !! OrderItem.product_id item);
      [discriminate|].
    simpl in Hstock. now apply fmap_None in Hstock.
  - rewrite <- (restore_stock_skips_missing now self (Order.items order) self)
      by (assumption || reflexivity).
    rewrite Hrun. reflexivity.
Qed.

Ltac stored_under_own_key :=
  let k := fresh "k" in
  let p := fresh "p" in
  let H := fresh "H" in
  intros k p H; simpl in H;
  repeat (apply lookup_insert_Some in H;
          destruct H as [[<- <-] | [_ H]]; [reflexivity|]);
  rewrite lookup_empty in H; discriminate H.

Lemma cancel_order_skips_missing_products_witness :
  exists cancelled self',
    OrderService.cancel_order 101 20 None 7 shop_without_es_jeruk
    = (inr cancelled, self')
    /\ Order.status cancelled = CANCELLED
    /\ stock_of shop_without_es_jeruk 2 = None
    /\ stock_of self' 2 = None
    /\ stock_of self' 1 = Some (Some 5).
Proof.
  destruct (cancel_order_skips_missing_products
              shop_without_es_jeruk 101 20 None 7 open_order)
    as (cancelled & self' & Hrun & Hstatus & _ & Hmissing & Hproducts).
  - stored_under_own_key.
  - reflexivity.
  - left. reflexivity.
  - reflexivity.
  - repeat constructor.
  - exists cancelled, self'. split; [exact Hrun|]. split; [exact Hstatus|].
    split; [reflexivity|]. split.
    + unfold stock_of.
      assert (Hgone := Hmissing (OrderItem.mk 2 "Es jeruk" 1 5000)).
      simpl in Hgone. rewrite Hgone; [reflexivity|tauto|reflexivity].
    + unfold stock_of. rewrite Hproducts. vm_compute. reflexivity.
Defined.

(** *** Creation, unfolded *)

Lemma create_order_run (self : OrderService.t) (buyer_id umkm_id : UUID)
      (items : list item_data) (pickup_time : option datetime)
      (notes : option string) (fresh : UUID) (now : datetime) :
  OrderService.create_order buyer_id umkm_id items pickup_time notes fresh now self
  = match OrderService.umkm_repository self !! umkm_id with
    | None => (inl (ValueError UMKM_not_found), self)
    | Some umkm =>
        if negb (UMKM.can_accept_orders umkm)
        then (inl (ValueError UMKM_is_not_accepting_orders), self)
        else
          match OrderService.create_order_items umkm_id now items [] self with
          | (inl e, self') => (inl e, self')
          | (inr order_items, self') =>
              match Order.new buyer_id umkm_id order_items PLACED None
                              pickup_time notes None None None None None
                              fresh now with
              | inl e => (inl e, self')
              | inr order =>
                  (inr order,
                   OrderService.mk
                     (<[Order.id order := order]>
                        (OrderService.order_repository self'))
                     (OrderService.product_repository self')
                     (OrderService.umkm_repository self'))
              end
          end
    end.
Proof.
  unfold OrderService.create_order, bind, OrderService.in_umkms,
    OrderService.in_orders, InMemoryUMKMRepository.find_by_id,
    InMemoryOrderRepository.save, gets, modify, ret, raise, try_, bind.
  simpl. rewrite service_eta.
  destruct (OrderService.umkm_repository self !! umkm_id) as [umkm|];
    [|reflexivity].
  destruct (negb (UMKM.can_accept_orders umkm)); [reflexivity|].
  destruct (OrderService.create_order_items umkm_id now items [] self)
    as [[e|order_items] self']; [reflexivity|].
  destruct (Order.new _ _ _ _ _ _ _ _ _ _ _ _ _ _) as [e|order]; reflexivity.
Qed.

(** The fields of a freshly placed order. *)
Lemma placed_order_fields (buyer_id umkm_id : UUID) (items : list OrderItem.t)
      (pickup_time : option datetime) (notes : option string)
      (fresh : UUID) (now : datetime) (order : Order.t) :
  Order.new buyer_id umkm_id items PLACED None pickup_time notes
            None None None None None fresh now = inr order ->
  Order.id order = fresh /\ Order.buyer_id order = buyer_id
  /\ Order.umkm_id order = umkm_id /\ Order.items order = items
  /\ Order.status order = PLACED.
Proof.
  unfold Order.new, Order._validate; simpl.
  destruct items as [|item rest]; [discriminate|].
  destruct (match pickup_time with Some pickup => pickup <=? now | None => false end);
    [discriminate|].
  destruct (Qle_bool _ 0); [discriminate|].
  intros [= <-]. repeat split.
Qed.

Lemma requested_of_absent (product_id : UUID) (items : list item_data) :
  ~ In product_id (map item_product_id items) ->
  requested product_id items = 0.
Proof.
  induction items as [|item rest IH]; intros Hnot; simpl; [reflexivity|].
  simpl in Hnot. destruct (Pos.eqb_spec (item_product_id item) product_id).
  - tauto.
  - rewrite IH by tauto. reflexivity.
Qed.

(** With one line per product, the request asks of a product the quantity
    of its line. *)
Lemma requested_of_single_line (items : list item_data) (item : item_data) :
  List.NoDup (map item_product_id items) ->
  In item items ->
  requested (item_product_id item) items = item_quantity item.
Proof.
  induction items as [|first rest IH]; intros Hnd Hin; [destruct Hin|].
  simpl in Hnd. inversion Hnd as [|? ? Hfresh Hrest]; subst. simpl.
  destruct Hin as [-> | Hin].
  - rewrite Pos.eqb_refl, requested_of_absent by assumption. lia.
  - destruct (Pos.eqb_spec (item_product_id first) (item_product_id item)) as [E|_].
    + exfalso. apply Hfresh. rewrite E. now apply in_map.
    + rewrite IH by assumption. reflexivity.
Qed.

(** *** Creation succeeds on a request the store can serve *)

Lemma requested_nonneg (product_id : UUID) (items : list item_data) :
  Forall (fun item => 0 < item_quantity item) items ->
  0 <= requested product_id items.
Proof.
  induction 1 as [|item rest Hq _ IH]; simpl; [lia|].
  destruct (Pos.eqb (item_product_id item) product_id); lia.
Qed.

(** What [reduce_stock] keeps of a product. *)
Lemma reduce_stock_keeps (quantity : Z) (now : datetime) (p : Product.t) :
  let p' := snd (Product.reduce_stock quantity now p) in
  Product.umkm_id p' = Product.umkm_id p
  /\ Product.is_available p' = Product.is_available p
  /\ Product.price p' = Product.price p.
Proof.
  unfold Product.reduce_stock, bind, get, modify, raise, ret.
  destruct (Product.stock_quantity p); [|repeat split].
  destruct (negb (Product.can_be_ordered quantity p)); repeat split.
Qed.

Lemma create_order_items_succeeds (umkm_id : UUID) (now : datetime)
      (items : list item_data) :
  forall (acc : list OrderItem.t) (self : OrderService.t),
    keyed_by_id (OrderService.product_repository self) ->
    Forall (can_be_served self umkm_id items) items ->
    exists acc' self1,
      OrderService.create_order_items umkm_id now items acc self
      = (inr acc', self1).
Proof.
  induction items as [|item rest IH]; intros acc self Hk Hserved.
  - exists acc, self. reflexivity.
  - assert (Hquantities : Forall (fun l => 0 < item_quantity l) (item :: rest)).
    { eapply Forall_impl; [exact Hserved|].
      intros l (p & _ & _ & _ & _ & Hq & _). exact Hq. }
    inversion Hserved as [|? ? (p & Hp & Hm & Hav & Hprice & Hq & Hstock) Hrest];
      subst.
    inversion Hquantities as [|? ? _ Hquantities_rest]; subst.
    rewrite create_order_items_cons, Hp.
    rewrite (proj2 (Pos.eqb_eq _ _) eq_refl). simpl.
    assert (Hcan : Product.can_be_ordered (item_quantity item) p = true).
    { unfold Product.can_be_ordered. rewrite Hav. simpl.
      destruct (Product.stock_quantity p) as [stock|]; [|reflexivity].
      simpl in Hstock. rewrite Pos.eqb_refl in Hstock.
      pose proof (requested_nonneg (item_product_id item) rest Hquantities_rest).
      apply Z.leb_le. lia. }
    rewrite Hcan. simpl. unfold OrderItem.new.
    destruct (Z.leb_spec (item_quantity item) 0); [lia|].
    destruct (Qle_bool (Product.price p) 0) eqn:Hle.
    { apply Qle_bool_iff in Hle. exfalso. exact (Qlt_not_le _ _ Hprice Hle). }
    destruct (reduce_stock_ok _ now _ Hcan) as (p' & Hred & Hid & Hst).
    pose proof (reduce_stock_keeps (item_quantity item) now p) as Hkept.
    rewrite Hred in *. simpl in Hkept. destruct Hkept as (Hm' & Hav' & Hprice').
    pose proof (Hk _ _ Hp) as Hkey.
    apply IH; [simpl; now apply keyed_by_id_save|].
    apply Forall_forall. intros l Hl.
    rewrite Forall_forall in Hrest.
    destruct (Hrest l Hl) as (pl & Hpl & Hml & Havl & Hpricel & Hql & Hstockl).
    simpl in Hstockl. unfold can_be_served. simpl.
    rewrite Hid, Hkey.
    destruct (Pos.eqb_spec (item_product_id item) (item_product_id l)) as [E|Hne].
    + rewrite <- E in *. rewrite lookup_insert_eq.
      assert (pl = p) by congruence. subst pl.
      exists p'. rewrite Hm', Hav', Hprice', Hst.
      repeat (split; [assumption || reflexivity|]).
      destruct (Product.stock_quantity p) as [stock|]; simpl; [lia|exact I].
    + rewrite lookup_insert_ne by assumption.
      exists pl. repeat (split; [assumption|]).
      destruct (Product.stock_quantity pl); [lia|exact I].
Qed.

(** The lines the loop builds: one per requested line, each with a positive
    quantity and a positive price. *)
Lemma create_order_items_lines (umkm_id : UUID) (now : datetime)
      (items : list item_data) :
  forall (acc : list OrderItem.t) (self : OrderService.t)
         (acc' : list OrderItem.t) (self1 : OrderService.t),
    OrderService.create_order_items umkm_id now items acc self = (inr acc', self1) ->
    exists lines,
      acc' = acc ++ lines
      /\ length lines = length items
      /\ Forall (fun l => 0 < OrderItem.quantity l
                          /\ (0 < OrderItem.unit_price l)%Q) lines.
Proof.
  induction items as [|item rest IH]; intros acc self acc' self1 Hrun.
  - simpl in Hrun. injection Hrun as <- <-. exists [].
    rewrite app_nil_r. repeat split. constructor.
  - rewrite create_order_items_cons in Hrun.
    destruct (OrderService.product_repository self !! item_product_id item)
      as [p|]; [|discriminate].
    destruct (negb (Pos.eqb (Product.umkm_id p) umkm_id)); [discriminate|].
    destruct (negb (Product.can_be_ordered (item_quantity item) p));
      [discriminate|].
    unfold OrderItem.new in Hrun.
    destruct (Z.leb_spec (item_quantity item) 0) as [|Hq]; [discriminate|].
    destruct (Qle_bool (Product.price p) 0) eqn:Hprice; [discriminate|].
    destruct (Product.reduce_stock (item_quantity item) now p) as [[e|[]] p'];
      [discriminate|].
    apply IH in Hrun. destruct Hrun as (lines & Hacc & Hlen & Hall).
    eexists (_ :: lines). split; [rewrite Hacc, <- app_assoc; reflexivity|].
    split; [simpl; now f_equal|].
    constructor; [|assumption]. simpl. split; [exact Hq|].
    apply Qnot_le_lt. intros Hle. apply Qle_bool_iff in Hle. congruence.
Qed.

Lemma sum_of_subtotals_positive (lines : list OrderItem.t) :
  lines <> [] ->
  Forall (fun l => 0 < OrderItem.quantity l /\ (0 < OrderItem.unit_price l)%Q) lines ->
  (0 < sum_of_subtotals lines)%Q.
Proof.
  intros Hne Hall. induction Hall as [|l rest [Hq Hp] Hrest IH]; [congruence|].
  simpl.
  assert (Hsub : (0 < inject_Z (OrderItem.quantity l) * OrderItem.unit_price l)%Q).
  { apply Qmult_lt_0_compat; [|exact Hp]. unfold Qlt. simpl. lia. }
  destruct rest as [|l' rest'].
  - simpl. now rewrite Qplus_0_r.
  - apply Qlt_trans with (0 + sum_of_subtotals (l' :: rest'))%Q.
    + rewrite Qplus_0_l. apply IH. discriminate.
    + apply Qplus_lt_l. exact Hsub.
Qed.

(** On an active merchant, a non-empty request that the store can serve,
    with no pickup time or one in the future, is turned into an order
    (amounts being rationals here; on doubles, a quantity beyond the
    largest double raises instead, see [Float64.of_int]). *)
Lemma create_order_succeeds
      (self : OrderService.t) (buyer_id umkm_id : UUID) (items : list item_data)
      (pickup_time : option datetime) (notes : option string) (fresh : UUID)
      (now : datetime) (umkm : UMKM.t) :
  keyed_by_id (OrderService.product_repository self) ->
  OrderService.umkm_repository self !! umkm_id = Some umkm ->
  UMKM.status umkm = UMKM.ACTIVE ->
  items <> [] ->
  Forall (can_be_served self umkm_id items) items ->
  match pickup_time with Some pickup => now < pickup | None => True end ->
  exists order self1,
    OrderService.create_order buyer_id umkm_id items pickup_time notes fresh now self
    = (inr order, self1).
Proof.
  intros Hk Humkm Hactive Hne Hserved Hpickup.
  rewrite create_order_run, Humkm. unfold UMKM.can_accept_orders.
  rewrite Hactive. simpl.
  destruct (create_order_items_succeeds umkm_id now items [] self Hk Hserved)
    as (order_items & self' & Hloop).
  rewrite Hloop.
  destruct (create_order_items_lines _ _ _ _ _ _ _ Hloop)
    as (lines & Hacc & Hlen & Hall).
  simpl in Hacc. subst order_items.
  assert (Hlines : lines <> []).
  { intros ->. destruct items; [congruence|discriminate]. }
  unfold Order.new, Order._validate. simpl.
  destruct lines as [|l rest] eqn:El; [congruence|]. rewrite <- El in *.
  assert (Hfuture : match pickup_time with
                    | Some pickup => pickup <=? now
                    | None => false
                    end = false).
  { destruct pickup_time as [pickup|]; [|reflexivity]. apply Z.leb_gt. lia. }
  rewrite Hfuture.
  destruct (Qle_bool (Order._calculate_total lines) 0) eqn:Htotal.
  - apply Qle_bool_iff in Htotal. rewrite calculate_total_is_sum in Htotal.
    exfalso. apply (Qlt_not_le _ _ (sum_of_subtotals_positive lines Hlines Hall)).
    exact Htotal.
  - eexists _, _. reflexivity.
Qed.

(** C1: when [create_order] returns an order, the merchant is active and
    every stored product has its stock reduced by the quantity requested of
    it (a finite stock by exactly that quantity, which is the quantity of
    its line when each product has one line; an unlimited stock stays
    unlimited); cancelling that order next, by the buyer or by the owner of
    the merchant, succeeds and leaves every product with the stock it had
    before the order. *)
Theorem create_then_cancel_restores_stock
    (self : OrderService.t) (buyer_id umkm_id : UUID) (items : list item_data)
    (pickup_time : option datetime) (notes : option string) (fresh : UUID)
    (now : datetime) (order : Order.t) (self1 : OrderService.t)
    (user_id : UUID) (reason : option string) (later : datetime) :
  keyed_by_id (OrderService.product_repository self) ->
  OrderService.create_order buyer_id umkm_id items pickup_time notes fresh now self
  = (inr order, self1) ->
  may_cancel self1 order user_id ->
  (exists umkm,
      OrderService.umkm_repository self !! umkm_id = Some umkm
      /\ UMKM.status umkm = UMKM.ACTIVE)
  /\ (forall product_id,
        stock_of self1 product_id
        = shift_stock (- requested product_id items) <$> stock_of self product_id)
  /\ (List.NoDup (map item_product_id items) ->
      forall item stock,
        In item items ->
        stock_of self (item_product_id item) = Some (Some stock) ->
        stock_of self1 (item_product_id item)
        = Some (Some (stock - item_quantity item)))
  /\ exists cancelled self2,
       OrderService.cancel_order (Order.id order) user_id reason later self1
       = (inr cancelled, self2)
       /\ Order.status cancelled = CANCELLED
       /\ forall product_id, stock_of self2 product_id = stock_of self product_id.
Proof.
  intros Hk Hcreate Hauth. rewrite create_order_run in Hcreate.
  destruct (OrderService.umkm_repository self !! umkm_id) as [umkm|] eqn:Humkm;
    [|discriminate].
  destruct (negb (UMKM.can_accept_orders umkm)) eqn:Hactive; [discriminate|].
  destruct (OrderService.create_order_items umkm_id now items [] self)
    as [[e|order_items] self'] eqn:Hloop; [discriminate|].
  destruct (Order.new _ _ _ _ _ _ _ _ _ _ _ _ _ _) as [e|placed] eqn:Hnew;
    [discriminate|].
  injection Hcreate as -> <-.
  destruct (placed_order_fields _ _ _ _ _ _ _ _ Hnew)
    as (Hid & Hbuyer & Hmerchant & Hitems & Hstatus).
  destruct (create_order_items_reserves _ _ _ _ _ _ _ Hk Hloop)
    as (Ho & Hu & Hk' & Hstock & lines & Hacc & Hpos & Hord).
  simpl in Hacc. rewrite Hacc in Hitems. clear Hacc.
  assert (Hreduced : forall product_id,
             stock_of (OrderService.mk
                         (<[Order.id order := order]>
                            (OrderService.order_repository self'))
                         (OrderService.product_repository self')
                         (OrderService.umkm_repository self')) product_id
             = shift_stock (- requested product_id items)
                 <$> stock_of self product_id)
    by (intros product_id; apply Hstock).
  split; [|split; [exact Hreduced|split]].
  - exists umkm. split; [reflexivity|].
    apply negb_false_iff in Hactive. unfold UMKM.can_accept_orders in Hactive.
    destruct (UMKM.status umkm); (reflexivity || discriminate).
  - intros Hnd item stock Hin Hbefore.
    rewrite Hreduced, Hbefore. simpl.
    rewrite (requested_of_single_line items item Hnd Hin). reflexivity.
  - assert (Hcan : Order.can_be_cancelled order = true)
      by (unfold Order.can_be_cancelled; now rewrite Hstatus).
    rewrite (cancel_order_run _ _ _ _ _ order (lookup_insert_eq _ _ _) Hauth Hcan).
    rewrite Hitems.
    match goal with |- context [OrderService.restore_stock later lines ?s] =>
      destruct (restore_stock_restores later lines s Hk' Hpos)
        as (self2 & Hrun & _ & _ & _ & Hrestored) end.
    rewrite Hrun. cbv zeta. rewrite (cancel_ok reason later order Hcan). simpl.
    eexists _, _. split; [reflexivity|]. split; [reflexivity|].
    intros product_id. unfold stock_of at 1. simpl.
    fold (stock_of self2 product_id). rewrite Hrestored, Hreduced, Hord.
    destruct (stock_of self product_id) as [stock|]; simpl; [|reflexivity].
    rewrite shift_stock_shift.
    replace (- requested product_id items + requested product_id items) with 0 by lia.
    now rewrite shift_stock_0.
Qed.

Lemma create_then_cancel_restores_stock_witness :
  stock_of shop 1 = Some (Some 5)
  /\ stock_of shop_after_order 1 = Some (Some 3)
  /\ exists cancelled self2,
       OrderService.cancel_order 100 20 None 7 shop_after_order
       = (inr cancelled, self2)
       /\ stock_of self2 1 = Some (Some 5)
       /\ stock_of self2 2 = Some (Some 1).
Proof.
  destruct (create_then_cancel_restores_stock
              shop 20 1 [line 1 2; line 2 1] None None 100 0
              placed_order shop_after_order 20 None 7)
    as (_ & Hreduced & _ & cancelled & self2 & Hrun & _ & Hback).
  - stored_under_own_key.
  - vm_compute. reflexivity.
  - left. reflexivity.
  - split; [reflexivity|]. split; [rewrite Hreduced; reflexivity|].
    exists cancelled, self2. split; [exact Hrun|].
    split; rewrite Hback; reflexivity.
Defined.

(* ================================================================== *)
(** * Further properties *)
(* ================================================================== *)

(** ** The order entity, beyond the transition table *)

Lemma order_method_on_final (c : order_call) (now : datetime) (o : Order.t) :
  Order.status o = COMPLETED \/ Order.status o = CANCELLED ->
  snd (order_method c now o) = o.
Proof.
  destruct o as [i b u its st pk nt tot ca ua cat cr]. simpl.
  intros [-> | ->]; destruct c as [[| | | |reason]|t]; reflexivity.
Qed.

(** X1: a completed or cancelled order is frozen: no succession of
    triggers and pickup-time changes alters any of its fields. *)
Theorem final_order_is_frozen (o : Order.t) (calls : list (order_call * datetime)) :
  Order.status o = COMPLETED \/ Order.status o = CANCELLED ->
  call_all calls o = o.
Proof.
  intros Hfinal. induction calls as [|[c now] rest IH]; simpl; [reflexivity|].
  rewrite (order_method_on_final c now o Hfinal). exact IH.
Qed.

Lemma final_order_is_frozen_witness :
  call_all [(Fire (cancel None), 8); (Reschedule 99, 9); (Fire confirm, 10)]
           completed_order = completed_order.
Proof.
  apply (final_order_is_frozen completed_order). left. reflexivity.
Defined.

Lemma accepted_trigger_progresses (tr : trigger) (now : datetime) (o : Order.t) :
  if accepts tr now o
  then (steps_left (Order.status (snd (fire tr now o)))
        < steps_left (Order.status o))%nat
  else snd (fire tr now o) = o.
Proof.
  destruct o as [i b u its st pk nt tot ca ua cat cr].
  destruct st, tr; simpl; (reflexivity || lia).
Qed.

(** X2: whatever the history, an order accepts at most as many triggers as
    there are steps left from its status to a final one; so never more
    than four in its life. *)
Theorem order_accepts_at_most_four_triggers
    (history : list (trigger * datetime)) (o : Order.t) :
  (accepted_count history o <= steps_left (Order.status o))%nat
  /\ (accepted_count history o <= 4)%nat.
Proof.
  assert (Hbound : forall s, (steps_left s <= 4)%nat) by (intros []; simpl; lia).
  assert (Hsteps : forall o, (accepted_count history o
                              <= steps_left (Order.status o))%nat).
  { clear o. induction history as [|[tr now] rest IH]; intros o;
      [simpl; lia|]. cbn [accepted_count].
    specialize (IH (snd (fire tr now o))).
    pose proof (accepted_trigger_progresses tr now o) as Hstep.
    destruct (accepts tr now o).
    - lia.
    - rewrite Hstep in *. lia. }
  split; [apply Hsteps|].
  specialize (Hsteps o). specialize (Hbound (Order.status o)). lia.
Qed.

Lemma order_method_keeps_stamp (c : order_call) (now : datetime) (o : Order.t) :
  stamped_iff_cancelled o ->
  stamped_iff_cancelled (snd (order_method c now o)).
Proof.
  unfold stamped_iff_cancelled.
  destruct o as [i b u its st pk nt tot ca ua cat cr]. simpl.
  intros [Hyes Hno].
  destruct st, c as [[| | | |reason]|t];
    unfold order_method, Order.update_pickup_time, bind, get, modify, raise;
    simpl; try (destruct (t <=? now); simpl);
    (split; intros H;
     first [ congruence | discriminate | exact (Hyes eq_refl)
           | apply Hno; discriminate ]).
Qed.

(** X3: the cancellation stamp follows the status. If an order carries
    [cancelled_at] exactly when it is cancelled, and no reason otherwise,
    then so it does after any succession of triggers and pickup-time
    changes: only [cancel] writes the stamp and the reason. *)
Theorem cancellation_stamp_follows_status
    (o : Order.t) (calls : list (order_call * datetime)) :
  stamped_iff_cancelled o ->
  stamped_iff_cancelled (call_all calls o).
Proof.
  revert o. induction calls as [|[c now] rest IH]; intros o Hinv; simpl.
  - exact Hinv.
  - apply IH. now apply order_method_keeps_stamp.
Qed.

Lemma cancellation_stamp_follows_status_witness :
  Order.cancelled_at
    (call_all [(Fire confirm, 1); (Reschedule 50, 2); (Fire (cancel None), 3)]
              placed_order) <> None.
Proof.
  apply (cancellation_stamp_follows_status placed_order).
  - split; [discriminate|]. intros _. split; reflexivity.
  - reflexivity.
Defined.

(** X4: [update_pickup_time] succeeds only on a placed or confirmed order
    and a time after now; it then writes the pickup time and the stamp,
    nothing else, and the order is a preorder at that instant. Otherwise
    it raises and leaves the order as it was. *)
Theorem update_pickup_time_spec
    (new_pickup_time now : datetime) (o : Order.t) :
  match Order.update_pickup_time new_pickup_time now o with
  | (inr _, o') =>
      (Order.status o = PLACED \/ Order.status o = CONFIRMED)
      /\ now < new_pickup_time
      /\ o' = Order.set_updated_at now
                (Order.set_pickup_time (Some new_pickup_time) o)
      /\ Order.is_preorder now o' = true
  | (inl e, o') =>
      o' = o
      /\ ((in_progress_or_finished (Order.status o)
           /\ e = ValueError Cannot_update_pickup_time_for_orders_in_progress)
          \/ (new_pickup_time <= now
              /\ e = ValueError Pickup_time_must_be_in_the_future))
  end.
Proof.
  unfold Order.update_pickup_time, bind, get, modify, raise,
    in_progress_or_finished, Order.is_preorder.
  destruct o as [i b u its st pk nt tot ca ua cat cr]; simpl.
  destruct st; simpl;
    try (split; [reflexivity|left; repeat split; discriminate]);
    destruct (Z.leb_spec new_pickup_time now); simpl;
    try (split; [reflexivity|right; split; [assumption|reflexivity]]);
    (split; [auto|]; split; [assumption|]; split; [reflexivity|];
     apply Z.ltb_lt; assumption).
Qed.

Lemma order_method_keeps_pickup (c : order_call) (now : datetime) (o : Order.t) :
  in_progress_or_finished (Order.status o) ->
  in_progress_or_finished (Order.status (snd (order_method c now o)))
  /\ Order.pickup_time (snd (order_method c now o)) = Order.pickup_time o.
Proof.
  unfold in_progress_or_finished.
  destruct o as [i b u its st pk nt tot ca ua cat cr]. simpl.
  intros [Hp Hc].
  destruct st; try congruence;
    destruct c as [[| | | |reason]|t]; simpl; repeat split; discriminate.
Qed.

(** X5: once an order is being prepared (or ready, or final), its pickup
    time is settled: no succession of triggers and pickup-time changes
    alters it. *)
Theorem pickup_time_settled_once_preparing
    (o : Order.t) (calls : list (order_call * datetime)) :
  in_progress_or_finished (Order.status o) ->
  Order.pickup_time (call_all calls o) = Order.pickup_time o.
Proof.
  revert o. induction calls as [|[c now] rest IH]; intros o Hlate; simpl.
  - reflexivity.
  - destruct (order_method_keeps_pickup c now o Hlate) as [Hlate' Hsame].
    rewrite IH by assumption. exact Hsame.
Qed.

Lemma pickup_time_settled_once_preparing_witness :
  Order.pickup_time
    (call_all [(Reschedule 99, 9); (Fire markReady, 10); (Reschedule 120, 11)]
              (Order.set_status PREPARING placed_order)) = None.
Proof.
  apply (pickup_time_settled_once_preparing
           (Order.set_status PREPARING placed_order)).
  split; discriminate.
Defined.

(** ** The merchant entity *)

(** X6: the merchant status machine. [approve] succeeds only on a pending
    merchant, [suspend] and [reactivate] on any merchant that is not
    closed, [close] always; each then sets the status of the table and the
    stamp, nothing else; a refused call raises and leaves the merchant as
    it was. *)
Theorem merchant_lifecycle_follows_table
    (u : UMKM.t) (a : lifecycle) (now : datetime) :
  match lifecycle_table (UMKM.status u) a with
  | Some next =>
      lifecycle_method a now u
      = (inr tt, UMKM.set_updated_at now (UMKM.set_status next u))
  | None =>
      exists e, lifecycle_method a now u = (inl e, u)
  end.
Proof.
  destruct u as [i o n d l p st im oh ra rc ca ua].
  destruct st, a; simpl; try reflexivity; eexists; reflexivity.
Qed.

Lemma lifecycle_method_on_closed (a : lifecycle) (now : datetime) (u : UMKM.t) :
  UMKM.status u = UMKM.CLOSED ->
  UMKM.status (snd (lifecycle_method a now u)) = UMKM.CLOSED.
Proof.
  destruct u as [i o n d l p st im oh ra rc ca ua]. simpl. intros ->.
  destruct a; reflexivity.
Qed.

(** X7: closing is final. After any succession of [approve], [suspend],
    [close] and [reactivate], a closed merchant is still closed, and so
    does not accept orders. *)
Theorem closed_merchant_stays_closed
    (u : UMKM.t) (actions : list (lifecycle * datetime)) :
  UMKM.status u = UMKM.CLOSED ->
  UMKM.status (lifecycle_all actions u) = UMKM.CLOSED
  /\ UMKM.can_accept_orders (lifecycle_all actions u) = false.
Proof.
  intros Hclosed.
  assert (H : UMKM.status (lifecycle_all actions u) = UMKM.CLOSED).
  { revert u Hclosed. induction actions as [|[a now] rest IH];
      intros u Hclosed; simpl; [exact Hclosed|].
    apply IH. now apply lifecycle_method_on_closed. }
  split; [exact H|]. unfold UMKM.can_accept_orders. rewrite H. reflexivity.
Qed.

Lemma closed_merchant_stays_closed_witness :
  UMKM.can_accept_orders
    (lifecycle_all [(Reactivate, 5); (Approve, 6); (Suspend None, 7)]
                   (UMKM.set_status UMKM.CLOSED new_stall)) = false.
Proof.
  apply (closed_merchant_stays_closed (UMKM.set_status UMKM.CLOSED new_stall)).
  reflexivity.
Defined.

(** A rating on the scale, of a merchant with a non-negative count. *)
Lemma update_rating_on_scale (u : UMKM.t) (score : Q) (now : datetime) :
  0 <= UMKM.rating_count u ->
  on_scale score ->
  UMKM.update_rating score now u
  = (inr tt,
     UMKM.set_updated_at now
       (UMKM.set_rating_average
          ((UMKM.rating_average u * inject_Z (UMKM.rating_count u) + score)
           / inject_Z (UMKM.rating_count u + 1))%Q
          (UMKM.set_rating_count (UMKM.rating_count u + 1) u))).
Proof.
  intros Hcount [Hlo Hhi]. unfold UMKM.update_rating.
  apply Qlt_bool_false in Hlo. apply Qlt_bool_false in Hhi.
  rewrite Hlo, Hhi. simpl.
  unfold bind, get, modify, raise. simpl.
  destruct (Z.eqb_spec (UMKM.rating_count u + 1) 0); [lia|reflexivity].
Qed.

Lemma inject_Z_succ_pos (n : Z) : 0 <= n -> (0 < inject_Z (n + 1))%Q.
Proof.
  intros Hn. replace 0%Q with (inject_Z 0) by reflexivity.
  rewrite <- Zlt_Qlt. lia.
Qed.

(** X9: the average stays on its scale. On a merchant with a non-negative
    count and an average between 0 and 5, a rating on the scale leaves the
    average between 0 and 5, and at least 1 when it was at least 1 or when
    it is the first rating. *)
Theorem rating_average_stays_in_range (u : UMKM.t) (score : Q) (now : datetime) :
  0 <= UMKM.rating_count u ->
  (0 <= UMKM.rating_average u /\ UMKM.rating_average u <= 5)%Q ->
  on_scale score ->
  let u' := snd (UMKM.update_rating score now u) in
  (0 <= UMKM.rating_average u' /\ UMKM.rating_average u' <= 5)%Q
  /\ ((UMKM.rating_count u = 0%Z \/ 1 <= UMKM.rating_average u)%Q ->
      (1 <= UMKM.rating_average u')%Q).
Proof.
  intros Hcount [Hlo Hhi] Hscore. cbv zeta.
  rewrite (update_rating_on_scale u score now Hcount Hscore). simpl.
  destruct Hscore as [Hs1 Hs5].
  pose proof (inject_Z_succ_pos _ Hcount) as Hpos.
  assert (Hc : (0 <= inject_Z (UMKM.rating_count u))%Q).
  { replace 0%Q with (inject_Z 0) by reflexivity. rewrite <- Zle_Qle. lia. }
  rewrite inject_Z_plus in *.
  set (c := inject_Z (UMKM.rating_count u)) in *.
  set (a := UMKM.rating_average u) in *.
  assert (Hac0 : (0 <= a * c)%Q) by now apply Qmult_le_0_compat.
  assert (Hac5 : (a * c <= 5 * c)%Q) by now apply Qmult_le_compat_r.
  change (inject_Z 1) with 1%Q in *.
  split; [split|].
  - apply Qle_shift_div_l; [exact Hpos|]. lra.
  - apply Qle_shift_div_r; [exact Hpos|]. lra.
  - intros Hfirst. apply Qle_shift_div_l; [exact Hpos|].
    destruct Hfirst as [Hzero | Hone].
    + assert (Hc0 : (c == 0)%Q)
        by (unfold c; rewrite Hzero; reflexivity).
      rewrite Hc0. lra.
    + assert (Hac1 : (1 * c <= a * c)%Q) by now apply Qmult_le_compat_r.
      lra.
Qed.

Lemma rating_average_stays_in_range_witness :
  (UMKM.rating_average (snd (UMKM.update_rating 5 0 new_stall)) <= 5)%Q.
Proof.
  destruct (rating_average_stays_in_range new_stall 5 0) as [[_ Hhi] _].
  - simpl. lia.
  - split; discriminate.
  - split; discriminate.
  - exact Hhi.
Defined.

(** ** The promo entity *)

(** Passing a test of a validator: the next test of the goal was false. *)
Ltac passed H :=
  lazymatch goal with
  | |- (if ?b then _ else _) = _ -> _ => destruct b eqn:H; [discriminate|]
  end.

(** What [_validate] has checked of a promo it accepts. *)
Lemma validated_promo (p p' : Promo.t) :
  Promo._validate p = inr p' ->
  p' = p
  /\ Promo.valid_from p < Promo.valid_until p
  /\ (Promo.promo_type p = Promo.PERCENTAGE ->
      (0 < Promo.discount_value p /\ Promo.discount_value p <= 100)%Q)
  /\ (Promo.promo_type p = Promo.FIXED_AMOUNT -> (0 < Promo.discount_value p)%Q)
  /\ (forall limit, Promo.usage_limit p = Some limit -> 0 <= limit).
Proof.
  unfold Promo._validate.
  passed Htitle. passed Hdescription. passed Hwindow.
  passed Hpercent. passed Hfixed. passed Hlimit.
  intros [= <-]. split; [reflexivity|]. split; [now apply Z.leb_gt|].
  split; [|split].
  - intros Htype. rewrite Htype in Hpercent.
    apply orb_false_iff in Hpercent as [Hlow Hhigh]. split.
    + apply Qnot_le_lt. intros Hle. apply Qle_bool_iff in Hle. congruence.
    + now apply Qlt_bool_false.
  - intros Htype. rewrite Htype in Hfixed.
    apply Qnot_le_lt. intros Hle. apply Qle_bool_iff in Hle. congruence.
  - intros limit Hsome. rewrite Hsome in Hlimit. now apply Z.ltb_ge.
Qed.

(** X10: a promo that passes validation never discounts more than the
    amount of a non-negative order, whatever its type, cap and usage; and
    the discount is non-negative unless a negative cap was given. *)
Theorem discount_never_exceeds_amount
    (p : Promo.t) (order_amount : Q) (now : datetime) :
  Promo._validate p = inr p ->
  (0 <= order_amount)%Q ->
  (Promo.calculate_discount order_amount now p <= order_amount)%Q
  /\ (match Promo.max_discount p with
      | Some cap => (0 <= cap)%Q
      | None => True
      end ->
      (0 <= Promo.calculate_discount order_amount now p)%Q).
Proof.
  intros Hvalid Hamount.
  destruct (validated_promo p p Hvalid) as (_ & _ & Hpercent & Hfixed & _).
  unfold Promo.calculate_discount.
  destruct (negb (Promo.can_apply_to_order order_amount now p));
    [split; [assumption|intros _; apply Qle_refl]|].
  destruct (Promo.promo_type p).
  - destruct (Hpercent eq_refl) as [Hpos Hmax].
    assert (Hrate : (Promo.discount_value p / 100 <= 1)%Q)
      by (apply Qle_shift_div_r; [reflexivity|lra]).
    assert (Hrate0 : (0 <= Promo.discount_value p / 100)%Q)
      by (apply Qle_shift_div_l; [reflexivity|lra]).
    assert (Hd : (order_amount * (Promo.discount_value p / 100) <= order_amount)%Q).
    { rewrite Qmult_comm. apply Qle_trans with (1 * order_amount)%Q.
      - now apply Qmult_le_compat_r.
      - rewrite Qmult_1_l. apply Qle_refl. }
    assert (Hd0 : (0 <= order_amount * (Promo.discount_value p / 100))%Q)
      by now apply Qmult_le_0_compat.
    destruct (Promo.max_discount p) as [cap|].
    + rewrite py_min_is_Qmin. split.
      * eapply Qle_trans; [apply Q.le_min_l|exact Hd].
      * intros Hcap. now apply Q.min_glb.
    + split; [exact Hd|intros _; exact Hd0].
  - pose proof (Hfixed eq_refl) as Hpos. rewrite py_min_is_Qmin. split.
    + apply Q.le_min_r.
    + intros _. apply Q.min_glb; [now apply Qlt_le_weak|assumption].
  - split; [assumption|intros _; apply Qle_refl].
Qed.

Lemma discount_never_exceeds_amount_witness :
  (Promo.calculate_discount 1500 50 ten_thousand_off <= 1500)%Q.
Proof.
  destruct (discount_never_exceeds_amount ten_thousand_off 1500 50) as [H _].
  - reflexivity.
  - discriminate.
  - exact H.
Defined.

(** X11: a promo with a usage limit accepts exactly as many uses as are
    left: after any number of attempts, its count is the count it had plus
    the attempts, capped at the limit. *)
Theorem promo_accepts_exactly_the_uses_left
    (p : Promo.t) (limit : Z) (instants : list datetime) :
  Promo.usage_limit p = Some limit ->
  Promo.usage_count p <= limit ->
  Promo.usage_count (use_all instants p)
  = Z.min (Promo.usage_count p + Z.of_nat (length instants)) limit.
Proof.
  revert p. induction instants as [|now rest IH]; intros p Hl Hc.
  - simpl. lia.
  - destruct (increment_usage_within_limit p limit now Hl Hc) as [Hl' Hc'].
    cbn [use_all length]. rewrite (IH _ Hl' Hc').
    unfold Promo.increment_usage, bind, get, modify, raise. rewrite Hl.
    destruct (Z.leb_spec limit (Promo.usage_count p)); simpl; lia.
Qed.

Lemma promo_accepts_exactly_the_uses_left_witness :
  Promo.usage_count (use_all [51; 52; 53] used_up) = 1.
Proof.
  rewrite (promo_accepts_exactly_the_uses_left used_up 1 [51; 52; 53]).
  - reflexivity.
  - reflexivity.
  - simpl. lia.
Defined.

(** X12: a promo just built, with the default count and activity, is valid
    at an instant exactly when the instant is within its window, ends
    included, and its usage limit is not zero. A limit of zero passes
    validation and yields a promo that is never valid. *)
Theorem new_promo_valid_within_window
    (umkm_id : UUID) (title description : string) (promo_type : Promo.PromoType)
    (discount_value : Q) (valid_from valid_until : datetime) (id : option UUID)
    (code : option string) (min_purchase max_discount : option Q)
    (usage_limit : option Z) (created_at updated_at : option datetime)
    (fresh : UUID) (now : datetime) (p : Promo.t)
    (current_time : option datetime) (utcnow : datetime) :
  Promo.new umkm_id title description promo_type discount_value valid_from
            valid_until id code min_purchase max_discount usage_limit None
            None created_at updated_at fresh now = inr p ->
  Promo.is_valid current_time utcnow p = true
  <-> (valid_from <= default utcnow current_time
       /\ default utcnow current_time <= valid_until
       /\ usage_limit <> Some 0).
Proof.
  unfold Promo.new. intros Hnew.
  destruct (validated_promo _ _ Hnew) as (-> & _ & _ & _ & Hlimit).
  simpl in Hlimit. unfold Promo.is_valid. simpl.
  set (t := default utcnow current_time).
  destruct (Z.ltb_spec t valid_from); simpl.
  { split; [discriminate|lia]. }
  destruct (Z.ltb_spec valid_until t); simpl.
  { split; [discriminate|lia]. }
  destruct usage_limit as [limit|].
  - specialize (Hlimit limit eq_refl).
    destruct (Z.leb_spec limit 0).
    + assert (limit = 0) by lia. subst limit.
      split; [discriminate|]. intros (_ & _ & Habs). congruence.
    + split; [|reflexivity]. intros _. repeat split; try assumption.
      intros [= ->]. lia.
  - split; [|reflexivity]. intros _. repeat split; try assumption. discriminate.
Qed.

Lemma new_promo_valid_within_window_witness :
  Promo.is_valid (Some 100) 0
    (Promo.mk 7 1 "Promo" "Promo pembukaan" Promo.BUY_ONE_GET_ONE 0 10 100
              None None None (Some 0) 0 true 0 0) = false.
Proof.
  apply not_true_iff_false. intros Hvalid.
  apply (new_promo_valid_within_window
           1 "Promo" "Promo pembukaan" Promo.BUY_ONE_GET_ONE 0 10 100 None
           None None None (Some 0) None None 7 0 _ (Some 100) 0 eq_refl)
    in Hvalid.
  destruct Hvalid as (_ & _ & Hlimit). now apply Hlimit.
Defined.

(** ** The order service: what a call touches *)

(** [same_but_stock], field by field. *)
Lemma same_but_stock_fields (p p' : Product.t) :
  same_but_stock p p'
  <-> (Product.id p' = Product.id p
       /\ Product.umkm_id p' = Product.umkm_id p
       /\ Product.name p' = Product.name p
       /\ Product.description p' = Product.description p
       /\ Product.price p' = Product.price p
       /\ Product.category p' = Product.category p
       /\ Product.image_url p' = Product.image_url p
       /\ Product.is_available p' = Product.is_available p
       /\ Product.preorder_required p' = Product.preorder_required p
       /\ Product.min_preorder_hours p' = Product.min_preorder_hours p
       /\ Product.created_at p' = Product.created_at p).
Proof.
  unfold same_but_stock, Product.set_updated_at, Product.set_stock_quantity.
  destruct p, p'; simpl. split.
  - intros H. injection H. intros. subst. repeat split.
  - intros (-> & -> & -> & -> & -> & -> & -> & -> & -> & -> & ->). reflexivity.
Qed.

Lemma stock_moved_refl (direction : comparison)
      (products : gmap positive Product.t) :
  stock_moved direction products products.
Proof.
  intros k. destruct (products !! k) as [p|]; [|exact I]. split.
  - apply same_but_stock_fields. repeat split.
  - destruct (Product.stock_quantity p); [|exact I].
    destruct direction; lia.
Qed.

Lemma stock_moved_trans (direction : comparison)
      (a b c : gmap positive Product.t) :
  stock_moved direction a b -> stock_moved direction b c ->
  stock_moved direction a c.
Proof.
  intros Hab Hbc k. specialize (Hab k). specialize (Hbc k).
  destruct (a !! k) as [pa|], (b !! k) as [pb|], (c !! k) as [pc|];
    try contradiction; try exact I.
  destruct Hab as [Hsame1 Hstock1], Hbc as [Hsame2 Hstock2]. split.
  - apply same_but_stock_fields in Hsame1, Hsame2. apply same_but_stock_fields.
    intuition congruence.
  - destruct (Product.stock_quantity pa), (Product.stock_quantity pb),
      (Product.stock_quantity pc); try contradiction; try exact I.
    destruct direction; lia.
Qed.

(** Saving, under its key, a product that differs from the stored one by
    its stock and stamp. *)
Lemma stock_moved_save (direction : comparison)
      (products : gmap positive Product.t) (p p' : Product.t) :
  products !! Product.id p' = Some p ->
  same_but_stock p p' ->
  match Product.stock_quantity p, Product.stock_quantity p' with
  | Some stock, Some stock' =>
      match direction with
      | Lt => stock' <= stock
      | Gt => stock <= stock'
      | Eq => stock' = stock
      end
  | None, None => True
  | _, _ => False
  end ->
  stock_moved direction products (<[Product.id p' := p']> products).
Proof.
  intros Hp Hsame Hstock k.
  destruct (decide (Product.id p' = k)) as [<-|Hne].
  - rewrite lookup_insert_eq, Hp. split; assumption.
  - rewrite lookup_insert_ne by assumption.
    apply (stock_moved_refl direction products k).
Qed.

(** What [reduce_stock] and [increase_stock] do to a product, when they
    return. *)
Lemma reduce_stock_moves (quantity : Z) (now : datetime) (p p' : Product.t) :
  0 < quantity ->
  Product.reduce_stock quantity now p = (inr tt, p') ->
  same_but_stock p p'
  /\ match Product.stock_quantity p, Product.stock_quantity p' with
     | Some stock, Some stock' => stock' <= stock /\ 0 <= stock'
     | None, None => True
     | _, _ => False
     end.
Proof.
  intros Hq. unfold Product.reduce_stock, Product.can_be_ordered,
    bind, get, modify, raise, ret.
  destruct p as [i u n d pr c im [stock|] av po mh ca ua]; simpl.
  - destruct av; simpl; [|discriminate].
    destruct (Z.leb_spec quantity stock); simpl; [|discriminate].
    intros [= <-]. simpl. split; [reflexivity|lia].
  - intros [= <-]. split; [reflexivity|exact I].
Qed.

Lemma increase_stock_moves (quantity : Z) (now : datetime) (p p' : Product.t) :
  Product.increase_stock quantity now p = (inr tt, p') ->
  same_but_stock p p'
  /\ match Product.stock_quantity p, Product.stock_quantity p' with
     | Some stock, Some stock' => stock <= stock'
     | None, None => True
     | _, _ => False
     end.
Proof.
  unfold Product.increase_stock, bind, get, modify, raise, ret.
  destruct (Z.leb_spec quantity 0); [discriminate|].
  destruct p as [i u n d pr c im [stock|] av po mh ca ua]; simpl.
  - intros [= <-]. simpl. split; [reflexivity|lia].
  - intros [= <-]. split; [reflexivity|exact I].
Qed.

(** The reservation loop, whatever its outcome. *)
Lemma create_order_items_footprint (umkm_id : UUID) (now : datetime)
      (items : list item_data) :
  forall (acc : list OrderItem.t) (self : OrderService.t)
         (r : exn + list OrderItem.t) (self1 : OrderService.t),
    keyed_by_id (OrderService.product_repository self) ->
    OrderService.create_order_items umkm_id now items acc self = (r, self1) ->
    OrderService.order_repository self1 = OrderService.order_repository self
    /\ OrderService.umkm_repository self1 = OrderService.umkm_repository self
    /\ keyed_by_id (OrderService.product_repository self1)
    /\ stock_moved Lt (OrderService.product_repository self)
                   (OrderService.product_repository self1).
Proof.
  induction items as [|item rest IH]; intros acc self r self1 Hk Hrun.
  - simpl in Hrun. injection Hrun as <- <-.
    repeat split; try assumption. apply stock_moved_refl.
  - assert (Hstop : forall e : exn, (inl e, self) = (r, self1) ->
              OrderService.order_repository self1 = OrderService.order_repository self
              /\ OrderService.umkm_repository self1 = OrderService.umkm_repository self
              /\ keyed_by_id (OrderService.product_repository self1)
              /\ stock_moved Lt (OrderService.product_repository self)
                             (OrderService.product_repository self1)).
    { intros e [= <- <-]. repeat split; try assumption. apply stock_moved_refl. }
    rewrite create_order_items_cons in Hrun.
    destruct (OrderService.product_repository self !! item_product_id item)
      as [p|] eqn:Hp; [|now apply (Hstop _ Hrun)].
    destruct (negb (Pos.eqb (Product.umkm_id p) umkm_id));
      [now apply (Hstop _ Hrun)|].
    destruct (negb (Product.can_be_ordered (item_quantity item) p));
      [now apply (Hstop _ Hrun)|].
    unfold OrderItem.new in Hrun.
    destruct (Z.leb_spec (item_quantity item) 0) as [|Hq];
      [now apply (Hstop _ Hrun)|].
    destruct (Qle_bool (Product.price p) 0); [now apply (Hstop _ Hrun)|].
    destruct (Product.reduce_stock (item_quantity item) now p)
      as [[e|[]] p'] eqn:Hred; [now apply (Hstop _ Hrun)|].
    destruct (reduce_stock_moves _ _ _ _ Hq Hred) as [Hsame Hstock].
    assert (Hid : Product.id p' = item_product_id item).
    { destruct (proj1 (same_but_stock_fields _ _) Hsame) as (Hid & _).
      rewrite Hid. now apply Hk. }
    apply IH in Hrun; [|simpl; now apply keyed_by_id_save].
    destruct Hrun as (Ho & Hu & Hk' & Hmoved). simpl in Ho, Hu, Hmoved.
    repeat (split; [assumption|]).
    eapply stock_moved_trans; [|exact Hmoved].
    apply (stock_moved_save Lt _ p p'); [now rewrite Hid|assumption|].
    destruct (Product.stock_quantity p), (Product.stock_quantity p');
      try assumption. lia.
Qed.

(** The restoration loop, whatever its outcome. *)
Lemma restore_stock_footprint (now : datetime) (items : list OrderItem.t) :
  forall (self : OrderService.t) (r : exn + unit) (self1 : OrderService.t),
    keyed_by_id (OrderService.product_repository self) ->
    OrderService.restore_stock now items self = (r, self1) ->
    OrderService.order_repository self1 = OrderService.order_repository self
    /\ OrderService.umkm_repository self1 = OrderService.umkm_repository self
    /\ keyed_by_id (OrderService.product_repository self1)
    /\ stock_moved Gt (OrderService.product_repository self)
                   (OrderService.product_repository self1).
Proof.
  induction items as [|item rest IH]; intros self r self1 Hk Hrun.
  - simpl in Hrun. injection Hrun as <- <-.
    repeat split; try assumption. apply stock_moved_refl.
  - rewrite restore_stock_cons in Hrun.
    destruct (OrderService.product_repository self !! OrderItem.product_id item)
      as [p|] eqn:Hp; [|now apply IH in Hrun].
    destruct (Product.increase_stock (OrderItem.quantity item) now p)
      as [[e|[]] p'] eqn:Hinc.
    + injection Hrun as <- <-. repeat split; try assumption.
      apply stock_moved_refl.
    + destruct (increase_stock_moves _ _ _ _ Hinc) as [Hsame Hstock].
      assert (Hid : Product.id p' = OrderItem.product_id item).
      { destruct (proj1 (same_but_stock_fields _ _) Hsame) as (Hid & _).
        rewrite Hid. now apply Hk. }
      apply IH in Hrun; [|simpl; now apply keyed_by_id_save].
      destruct Hrun as (Ho & Hu & Hk' & Hmoved). simpl in Ho, Hu, Hmoved.
      repeat (split; [assumption|]).
      eapply stock_moved_trans; [|exact Hmoved].
      apply (stock_moved_save Gt _ p p'); [now rewrite Hid|assumption|assumption].
Qed.

(** X13: what [create_order] touches, whatever its outcome. The merchants
    are as before; the same products are stored, each under its own
    identifier and the same up to its stock and stamp, no finite stock
    above what it was; and the orders are as before when the call raises,
    and hold one more entry, the returned order under the fresh
    identifier, when it returns. *)
Theorem create_order_footprint
    (self : OrderService.t) (buyer_id umkm_id : UUID) (items : list item_data)
    (pickup_time : option datetime) (notes : option string) (fresh : UUID)
    (now : datetime) (r : exn + Order.t) (self1 : OrderService.t) :
  keyed_by_id (OrderService.product_repository self) ->
  OrderService.create_order buyer_id umkm_id items pickup_time notes fresh now self
  = (r, self1) ->
  OrderService.umkm_repository self1 = OrderService.umkm_repository self
  /\ keyed_by_id (OrderService.product_repository self1)
  /\ stock_moved Lt (OrderService.product_repository self)
                 (OrderService.product_repository self1)
  /\ match r with
     | inl _ =>
         OrderService.order_repository self1 = OrderService.order_repository self
     | inr order =>
         Order.id order = fresh
         /\ OrderService.order_repository self1
            = <[fresh := order]> (OrderService.order_repository self)
     end.
Proof.
  intros Hk Hrun. rewrite create_order_run in Hrun.
  assert (Hstop : forall e : exn, (inl e, self) = (r, self1) ->
            OrderService.umkm_repository self1 = OrderService.umkm_repository self
            /\ keyed_by_id (OrderService.product_repository self1)
            /\ stock_moved Lt (OrderService.product_repository self)
                           (OrderService.product_repository self1)
            /\ match r with
               | inl _ => OrderService.order_repository self1
                          = OrderService.order_repository self
               | inr order =>
                   Order.id order = fresh
                   /\ OrderService.order_repository self1
                      = <[fresh := order]> (OrderService.order_repository self)
               end).
  { intros e [= <- <-]. repeat split; try assumption. apply stock_moved_refl. }
  destruct (OrderService.umkm_repository self !! umkm_id) as [umkm|];
    [|now apply (Hstop _ Hrun)].
  destruct (negb (UMKM.can_accept_orders umkm)); [now apply (Hstop _ Hrun)|].
  destruct (OrderService.create_order_items umkm_id now items [] self)
    as [[e|order_items] self'] eqn:Hloop;
    destruct (create_order_items_footprint _ _ _ _ _ _ _ Hk Hloop)
      as (Ho & Hu & Hk' & Hmoved).
  - injection Hrun as <- <-. repeat split; assumption.
  - destruct (Order.new _ _ _ _ _ _ _ _ _ _ _ _ _ _) as [e|order] eqn:Hnew.
    + injection Hrun as <- <-. repeat split; assumption.
    + injection Hrun as <- <-. simpl.
      destruct (placed_order_fields _ _ _ _ _ _ _ _ Hnew) as (Hid & _).
      repeat (split; [assumption|]). now rewrite Hid, Ho.
Qed.

Lemma create_order_footprint_witness :
  stock_moved Lt (OrderService.product_repository shop)
    (OrderService.product_repository
       (snd (OrderService.create_order 20 1 [line 1 2; line 99 1]
                                       None None 100 0 shop)))
  /\ OrderService.order_repository
       (snd (OrderService.create_order 20 1 [line 1 2; line 99 1]
                                       None None 100 0 shop))
     = OrderService.order_repository shop.
Proof.
  destruct (create_order_footprint shop 20 1 [line 1 2; line 99 1] None None
              100 0 (inl (ValueError (Product_not_found 99)))
              (snd (OrderService.create_order 20 1 [line 1 2; line 99 1]
                                              None None 100 0 shop)))
    as (_ & _ & Hmoved & Horders).
  - stored_under_own_key.
  - vm_compute. reflexivity.
  - split; assumption.
Defined.

Lemma stocks_nonneg_save (products : gmap positive Product.t) (k : UUID)
      (p' : Product.t) :
  stocks_nonneg products ->
  (forall stock, Product.stock_quantity p' = Some stock -> 0 <= stock) ->
  stocks_nonneg (<[k := p']> products).
Proof.
  intros Hall Hnew j p stock. rewrite lookup_insert_Some.
  intros [[_ <-] | [_ Hp]]; [apply Hnew|apply (Hall j p stock Hp)].
Qed.

Lemma create_order_items_keeps_nonneg (umkm_id : UUID) (now : datetime)
      (items : list item_data) :
  forall (acc : list OrderItem.t) (self : OrderService.t),
    stocks_nonneg (OrderService.product_repository self) ->
    stocks_nonneg (OrderService.product_repository
                     (snd (OrderService.create_order_items umkm_id now items acc self))).
Proof.
  induction items as [|item rest IH]; intros acc self Hnn; [exact Hnn|].
  rewrite create_order_items_cons.
  destruct (OrderService.product_repository self !! item_product_id item)
    as [p|] eqn:Hp; [|exact Hnn].
  destruct (negb (Pos.eqb (Product.umkm_id p) umkm_id)); [exact Hnn|].
  destruct (negb (Product.can_be_ordered (item_quantity item) p)); [exact Hnn|].
  unfold OrderItem.new.
  destruct (Z.leb_spec (item_quantity item) 0) as [|Hq]; [exact Hnn|].
  destruct (Qle_bool (Product.price p) 0); [exact Hnn|].
  destruct (Product.reduce_stock (item_quantity item) now p)
    as [[e|[]] p'] eqn:Hred; [exact Hnn|].
  apply IH. simpl. apply stocks_nonneg_save; [exact Hnn|].
  destruct (reduce_stock_moves _ _ _ _ Hq Hred) as [_ Hstock].
  intros stock Hs. rewrite Hs in Hstock.
  destruct (Product.stock_quantity p); [lia|contradiction].
Qed.

Lemma restore_stock_keeps_nonneg (now : datetime) (items : list OrderItem.t) :
  forall self : OrderService.t,
    stocks_nonneg (OrderService.product_repository self) ->
    stocks_nonneg (OrderService.product_repository
                     (snd (OrderService.restore_stock now items self))).
Proof.
  induction items as [|item rest IH]; intros self Hnn; [exact Hnn|].
  rewrite restore_stock_cons.
  destruct (OrderService.product_repository self !! OrderItem.product_id item)
    as [p|] eqn:Hp; [|now apply IH].
  destruct (Product.increase_stock (OrderItem.quantity item) now p)
    as [[e|[]] p'] eqn:Hinc; [exact Hnn|].
  apply IH. simpl. apply stocks_nonneg_save; [exact Hnn|].
  destruct (increase_stock_moves _ _ _ _ Hinc) as [_ Hstock].
  intros stock Hs. rewrite Hs in Hstock.
  destruct (Product.stock_quantity p) as [old|] eqn:Hold; [|contradiction].
  pose proof (Hnn _ _ _ Hp Hold). lia.
Qed.

(** [cancel_order], case by case. *)
Lemma cancel_order_cases (self : OrderService.t) (order_id user_id : UUID)
      (reason : option string) (now : datetime) :
  OrderService.cancel_order order_id user_id reason now self
  = match OrderService.order_repository self !! order_id with
    | None => (inl (ValueError Order_not_found), self)
    | Some order =>
        if negb (Pos.eqb (Order.buyer_id order) user_id
                 || match OrderService.umkm_repository self !! Order.umkm_id order with
                    | Some umkm => Pos.eqb (UMKM.owner_id umkm) user_id
                    | None => false
                    end)
        then (inl (ValueError Unauthorized_you_cannot_cancel_this_order), self)
        else if negb (Order.can_be_cancelled order)
        then (inl (ValueError Order_cannot_be_cancelled), self)
        else
          match OrderService.restore_stock now (Order.items order) self with
          | (inl e, self') => (inl e, self')
          | (inr _, self') =>
              let cancelled := snd (Order.cancel reason now order) in
              (inr cancelled,
               OrderService.mk
                 (<[Order.id cancelled := cancelled]>
                    (OrderService.order_repository self'))
                 (OrderService.product_repository self')
                 (OrderService.umkm_repository self'))
          end
    end.
Proof.
  unfold OrderService.cancel_order, bind, OrderService.in_orders,
    OrderService.in_umkms, InMemoryOrderRepository.find_by_id,
    InMemoryUMKMRepository.find_by_id, InMemoryOrderRepository.save,
    gets, modify, ret, raise, call, bind. simpl.
  destruct (OrderService.order_repository self !! order_id) as [order|];
    simpl; [|now rewrite service_eta].
  destruct (negb _); [now rewrite !service_eta|].
  destruct (negb (Order.can_be_cancelled order)) eqn:Hcan;
    [now rewrite !service_eta|].
  rewrite !service_eta.
  destruct (OrderService.restore_stock now (Order.items order) self)
    as [[e|[]] self']; [reflexivity|].
  apply negb_false_iff in Hcan.
  rewrite (cancel_ok reason now order Hcan). reflexivity.
Qed.

(** X14: no stock goes negative. If every finite stock of the store is
    non-negative, it still is after [create_order] and after
    [cancel_order], whether the call returns or raises, also when it
    raises after some lines have been handled. *)
Theorem stock_never_goes_negative
    (self : OrderService.t) (buyer_id umkm_id : UUID) (items : list item_data)
    (pickup_time : option datetime) (notes : option string) (fresh : UUID)
    (order_id user_id : UUID) (reason : option string) (now : datetime) :
  stocks_nonneg (OrderService.product_repository self) ->
  stocks_nonneg
    (OrderService.product_repository
       (snd (OrderService.create_order buyer_id umkm_id items pickup_time
                                       notes fresh now self)))
  /\ stocks_nonneg
       (OrderService.product_repository
          (snd (OrderService.cancel_order order_id user_id reason now self))).
Proof.
  intros Hnn. split.
  - rewrite create_order_run.
    destruct (OrderService.umkm_repository self !! umkm_id) as [umkm|];
      [|exact Hnn].
    destruct (negb (UMKM.can_accept_orders umkm)); [exact Hnn|].
    pose proof (create_order_items_keeps_nonneg umkm_id now items [] self Hnn)
      as Hloop.
    destruct (OrderService.create_order_items umkm_id now items [] self)
      as [[e|order_items] self']; [exact Hloop|].
    destruct (Order.new _ _ _ _ _ _ _ _ _ _ _ _ _ _); exact Hloop.
  - rewrite cancel_order_cases.
    destruct (OrderService.order_repository self !! order_id) as [order|];
      [|exact Hnn].
    destruct (negb _); [exact Hnn|].
    destruct (negb (Order.can_be_cancelled order)); [exact Hnn|].
    pose proof (restore_stock_keeps_nonneg now (Order.items order) self Hnn)
      as Hloop.
    destruct (OrderService.restore_stock now (Order.items order) self)
      as [[e|[]] self']; exact Hloop.
Qed.

Lemma stock_never_goes_negative_witness :
  stocks_nonneg
    (OrderService.product_repository
       (snd (OrderService.create_order 20 1 [line 1 2; line 2 3]
                                       None None 100 0 shop))).
Proof.
  apply (stock_never_goes_negative shop 20 1 [line 1 2; line 2 3] None None
                                   100 100 20 None 0).
  intros k p stock H. simpl in H.
  repeat (apply lookup_insert_Some in H;
          destruct H as [[_ <-] | [_ H]]; [intros [= <-]; lia|]).
  rewrite lookup_empty in H. discriminate H.
Defined.

(** The authorization test of [cancel_order] refuses only a caller who may
    not cancel. *)
Lemma may_cancel_refused (self : OrderService.t) (order : Order.t) (user_id : UUID) :
  negb (Pos.eqb (Order.buyer_id order) user_id
        || match OrderService.umkm_repository self !! Order.umkm_id order with
           | Some umkm => Pos.eqb (UMKM.owner_id umkm) user_id
           | None => false
           end) = true ->
  ~ may_cancel self order user_id.
Proof.
  intros Htest Hmay. rewrite (may_cancel_passes _ _ _ Hmay) in Htest.
  discriminate.
Qed.

(** X15: the outcomes of [cancel_order], when the lines of the stored order
    have positive quantities. It raises in three cases only (no such
    order; a caller who is neither the buyer nor the owner of the
    merchant; an order completed or cancelled) and then changes nothing at
    all. Otherwise it returns the order as [cancel] leaves it, saved under
    its identifier; the merchants are as before and the products are the
    same up to their stock and stamp, no finite stock below what it
    was. *)
Theorem cancel_order_outcomes
    (self : OrderService.t) (order_id user_id : UUID) (reason : option string)
    (now : datetime) (r : exn + Order.t) (self1 : OrderService.t) :
  keyed_by_id (OrderService.product_repository self) ->
  (forall order,
      OrderService.order_repository self !! order_id = Some order ->
      Forall (fun l => 0 < OrderItem.quantity l) (Order.items order)) ->
  OrderService.cancel_order order_id user_id reason now self = (r, self1) ->
  match r with
  | inl e =>
      self1 = self
      /\ match OrderService.order_repository self !! order_id with
         | None => e = ValueError Order_not_found
         | Some order =>
             (e = ValueError Unauthorized_you_cannot_cancel_this_order
              /\ ~ may_cancel self order user_id)
             \/ (e = ValueError Order_cannot_be_cancelled
                 /\ may_cancel self order user_id
                 /\ Order.can_be_cancelled order = false)
         end
  | inr cancelled =>
      exists order,
        OrderService.order_repository self !! order_id = Some order
        /\ may_cancel self order user_id
        /\ Order.can_be_cancelled order = true
        /\ (inr tt, cancelled) = Order.cancel reason now order
        /\ OrderService.order_repository self1
           = <[Order.id order := cancelled]> (OrderService.order_repository self)
        /\ OrderService.umkm_repository self1 = OrderService.umkm_repository self
        /\ stock_moved Gt (OrderService.product_repository self)
                       (OrderService.product_repository self1)
  end.
Proof.
  intros Hk Hpositive Hrun. rewrite cancel_order_cases in Hrun.
  destruct (OrderService.order_repository self !! order_id) as [order|] eqn:Hfind.
  2: { injection Hrun as <- <-. split; reflexivity. }
  destruct (negb (_ || _)) eqn:Hauth.
  { injection Hrun as <- <-. split; [reflexivity|]. left.
    split; [reflexivity|]. now apply may_cancel_refused. }
  assert (Hmay : may_cancel self order user_id).
  { apply negb_false_iff, orb_true_iff in Hauth.
    destruct Hauth as [Hb | Hs].
    - left. now apply Pos.eqb_eq.
    - right.
      destruct (OrderService.umkm_repository self !! Order.umkm_id order)
        as [umkm|]; [|discriminate].
      exists umkm. split; [reflexivity|]. now apply Pos.eqb_eq. }
  destruct (negb (Order.can_be_cancelled order)) eqn:Hcan.
  { injection Hrun as <- <-. split; [reflexivity|]. right.
    split; [reflexivity|]. split; [assumption|]. now apply negb_true_iff. }
  apply negb_false_iff in Hcan.
  destruct (restore_stock_restores now (Order.items order) self Hk
              (Hpositive order eq_refl))
    as (self2 & Hloop & _).
  pose proof (restore_stock_footprint now (Order.items order) self _ _ Hk Hloop)
    as (Ho & Hu & _ & Hmoved).
  rewrite Hloop in Hrun. cbv zeta in Hrun.
  rewrite (cancel_ok reason now order Hcan) in Hrun. simpl in Hrun.
  injection Hrun as <- <-. exists order.
  split; [reflexivity|]. split; [assumption|]. split; [assumption|].
  split; [now rewrite (cancel_ok reason now order Hcan)|]. simpl.
  split; [now rewrite Ho|]. split; assumption.
Qed.

Lemma cancel_order_outcomes_witness :
  ~ may_cancel shop_without_es_jeruk open_order 77.
Proof.
  pose proof (cancel_order_outcomes
                shop_without_es_jeruk 101 77 None 7
                (inl (ValueError Unauthorized_you_cannot_cancel_this_order))
                shop_without_es_jeruk) as Hout.
  destruct Hout as [_ Hcase].
  - stored_under_own_key.
  - intros order Hfind. simpl in Hfind.
    rewrite lookup_insert_eq in Hfind. injection Hfind as <-.
    repeat constructor.
  - vm_compute. reflexivity.
  - simpl in Hcase. rewrite lookup_insert_eq in Hcase.
    destruct Hcase as [[_ Hno] | [Habs _]]; [exact Hno|discriminate Habs].
Defined.

(** *** What an order records of the request *)





(** X17: stock is restored once. After [cancel_order] has returned for an
    order stored under its own identifier, any further [cancel_order] on
    it, by anyone, raises and changes nothing; and for a caller who may
    cancel the error is that the order cannot be cancelled. *)
Theorem second_cancel_changes_nothing
    (self : OrderService.t) (order_id user_id : UUID) (reason : option string)
    (now : datetime) (order cancelled : Order.t) (self1 : OrderService.t)
    (user_id2 : UUID) (reason2 : option string) (later : datetime) :
  OrderService.order_repository self !! order_id = Some order ->
  Order.id order = order_id ->
  OrderService.cancel_order order_id user_id reason now self
  = (inr cancelled, self1) ->
  (exists e,
      OrderService.cancel_order order_id user_id2 reason2 later self1
      = (inl e, self1))
  /\ (may_cancel self1 cancelled user_id2 ->
      OrderService.cancel_order order_id user_id2 reason2 later self1
      = (inl (ValueError Order_cannot_be_cancelled), self1)).
Proof.
  intros Hfind Hid Hrun. rewrite cancel_order_cases, Hfind in Hrun.
  destruct (negb (_ || _)); [discriminate|].
  destruct (negb (Order.can_be_cancelled order)) eqn:Hcan; [discriminate|].
  apply negb_false_iff in Hcan.
  destruct (OrderService.restore_stock now (Order.items order) self)
    as [[e|[]] self']; [discriminate|].
  cbv zeta in Hrun. rewrite (cancel_ok reason now order Hcan) in Hrun.
  simpl in Hrun. rewrite Hid in Hrun. injection Hrun as <- <-.
  rewrite !cancel_order_cases. simpl. rewrite lookup_insert_eq. simpl.
  split.
  - destruct (negb (_ || _)); eexists; reflexivity.
  - intros Hmay. pose proof (may_cancel_passes _ _ _ Hmay) as Hpass.
    simpl in Hpass. rewrite Hpass. reflexivity.
Qed.

Lemma second_cancel_changes_nothing_witness :
  let self1 := snd (OrderService.cancel_order 100 20 None 7 shop_after_order) in
  OrderService.cancel_order 100 10 None 8 self1
  = (inl (ValueError Order_cannot_be_cancelled), self1).
Proof.
  cbv zeta.
  apply (second_cancel_changes_nothing
           shop_after_order 100 20 None 7 placed_order
           (snd (Order.cancel None 7 placed_order))
           (snd (OrderService.cancel_order 100 20 None 7 shop_after_order))
           10 None 8).
  - reflexivity.
  - reflexivity.
  - vm_compute. reflexivity.
  - right. exists new_stall. split; vm_compute; reflexivity.
Defined.

(** X18: [confirm_order] is [update_order_status] with the status name
    "confirmed": same result and same store, for every store and
    caller. *)
Theorem confirm_order_is_update_to_confirmed
    (self : OrderService.t) (order_id seller_id : UUID) (now : datetime) :
  OrderService.confirm_order order_id seller_id now self
  = OrderService.update_order_status order_id seller_id "confirmed" now self.
Proof.
  unfold OrderService.confirm_order, OrderService.update_order_status, bind.
  destruct (OrderService.in_orders _ self) as [[e|[order|]] self'];
    reflexivity.
Qed.

(** [update_order_status], case by case. *)
Lemma update_order_status_cases (self : OrderService.t) (order_id seller_id : UUID)
      (new_status : string) (now : datetime) :
  OrderService.update_order_status order_id seller_id new_status now self
  = match OrderService.order_repository self !! order_id with
    | None => (inl (ValueError Order_not_found), self)
    | Some order =>
        if match OrderService.umkm_repository self !! Order.umkm_id order with
           | None => true
           | Some umkm => negb (Pos.eqb (UMKM.owner_id umkm) seller_id)
           end
        then (inl (ValueError Unauthorized_you_dont_own_this_UMKM), self)
        else
          match (if String.eqb new_status "confirmed"
                 then Order.confirm now order
                 else if String.eqb new_status "preparing"
                 then Order.mark_preparing now order
                 else if String.eqb new_status "ready"
                 then Order.mark_ready now order
                 else if String.eqb new_status "completed"
                 then Order.complete now order
                 else (inl (ValueError (Invalid_status new_status)), order)) with
          | (inl e, _) => (inl e, self)
          | (inr _, moved) =>
              (inr moved,
               OrderService.mk
                 (<[Order.id moved := moved]> (OrderService.order_repository self))
                 (OrderService.product_repository self)
                 (OrderService.umkm_repository self))
          end
    end.
Proof.
  unfold OrderService.update_order_status, bind, OrderService.in_orders,
    OrderService.in_umkms, InMemoryOrderRepository.find_by_id,
    InMemoryUMKMRepository.find_by_id, InMemoryOrderRepository.save,
    gets, modify, ret, raise, call, bind. simpl.
  destruct (OrderService.order_repository self !! order_id) as [order|];
    simpl; [|now rewrite service_eta].
  destruct (match OrderService.umkm_repository self !! Order.umkm_id order with
            | None => true
            | Some umkm => negb (Pos.eqb (UMKM.owner_id umkm) seller_id)
            end); [now rewrite !service_eta|].
  rewrite !service_eta.
  destruct (String.eqb new_status "confirmed");
    [destruct (Order.confirm now order) as [[e|[]] moved]; reflexivity|].
  destruct (String.eqb new_status "preparing");
    [destruct (Order.mark_preparing now order) as [[e|[]] moved]; reflexivity|].
  destruct (String.eqb new_status "ready");
    [destruct (Order.mark_ready now order) as [[e|[]] moved]; reflexivity|].
  destruct (String.eqb new_status "completed");
    [destruct (Order.complete now order) as [[e|[]] moved]; reflexivity|].
  reflexivity.
Qed.

(** X19: the outcomes of [update_order_status]. It never touches the
    products nor the merchants. When it raises, it changes nothing at all.
    When it returns, the caller owns the merchant of the stored order, the
    order has moved one step forward to the status the caller named (never
    to cancelled), only its status and stamp have changed, and it is saved
    under its identifier. *)
Theorem update_order_status_outcomes
    (self : OrderService.t) (order_id seller_id : UUID) (new_status : string)
    (now : datetime) (r : exn + Order.t) (self1 : OrderService.t) :
  OrderService.update_order_status order_id seller_id new_status now self
  = (r, self1) ->
  OrderService.product_repository self1 = OrderService.product_repository self
  /\ OrderService.umkm_repository self1 = OrderService.umkm_repository self
  /\ match r with
     | inl _ => self1 = self
     | inr moved =>
         exists order umkm,
           OrderService.order_repository self !! order_id = Some order
           /\ OrderService.umkm_repository self !! Order.umkm_id order = Some umkm
           /\ UMKM.owner_id umkm = seller_id
           /\ status_named new_status = Some (Order.status moved)
           /\ steps_left (Order.status order)
              = S (steps_left (Order.status moved))
           /\ moved = Order.set_updated_at now
                        (Order.set_status (Order.status moved) order)
           /\ OrderService.order_repository self1
              = <[Order.id order := moved]> (OrderService.order_repository self)
     end.
Proof.
  intros Hrun. rewrite update_order_status_cases in Hrun.
  destruct (OrderService.order_repository self !! order_id) as [order|] eqn:Hfind.
  2: { injection Hrun as <- <-. repeat split. }
  destruct (OrderService.umkm_repository self !! Order.umkm_id order)
    as [umkm|] eqn:Humkm.
  2: { injection Hrun as <- <-. repeat split. }
  destruct (negb (Pos.eqb (UMKM.owner_id umkm) seller_id)) eqn:Hown.
  { injection Hrun as <- <-. repeat split. }
  apply negb_false_iff, Pos.eqb_eq in Hown.
  unfold status_named.
  destruct order as [i b u its st pk nt tot ca ua cat cr].
  destruct (String.eqb new_status "confirmed");
    [|destruct (String.eqb new_status "preparing");
      [|destruct (String.eqb new_status "ready");
        [|destruct (String.eqb new_status "completed")]]];
    destruct st; simpl in Hrun; injection Hrun as <- <-;
    repeat split;
    eexists _, umkm; simpl in *;
    (split; [reflexivity|]); (split; [exact Humkm|]); (split; [exact Hown|]);
    repeat split.
Qed.

Lemma update_order_status_outcomes_witness :
  exists order umkm,
    OrderService.order_repository shop_after_order !! 100%positive = Some order
    /\ OrderService.umkm_repository shop_after_order !! Order.umkm_id order
       = Some umkm
    /\ UMKM.owner_id umkm = 10%positive.
Proof.
  destruct (update_order_status_outcomes
              shop_after_order 100 10 "confirmed" 5
              (inr (Order.set_updated_at 5 (Order.set_status CONFIRMED placed_order)))
              (snd (OrderService.update_order_status
                      100 10 "confirmed" 5 shop_after_order)))
    as (_ & _ & order & umkm & Hfind & Humkm & Hown & _).
  - vm_compute. reflexivity.
  - exists order, umkm. repeat split; assumption.
Defined.

(** *** What [create_order] requires to return an order *)

(** Where the loop returns, a finite stock covered all that was asked of
    the product. *)
Lemma create_order_items_covered (umkm_id : UUID) (now : datetime)
      (items : list item_data) :
  forall (acc : list OrderItem.t) (self : OrderService.t)
         (acc' : list OrderItem.t) (self1 : OrderService.t)
         (product_id : UUID) (p : Product.t) (stock : Z),
    keyed_by_id (OrderService.product_repository self) ->
    OrderService.create_order_items umkm_id now items acc self = (inr acc', self1) ->
    OrderService.product_repository self !! product_id = Some p ->
    Product.stock_quantity p = Some stock ->
    In product_id (map item_product_id items) ->
    requested product_id items <= stock.
Proof.
  induction items as [|item rest IH];
    intros acc self acc' self1 product_id p0 stock Hk Hrun Hp0 Hs0 Hin;
    [destruct Hin|].
  rewrite create_order_items_cons in Hrun.
  destruct (OrderService.product_repository self !! item_product_id item)
    as [p|] eqn:Hp; [|discriminate].
  destruct (negb (Pos.eqb (Product.umkm_id p) umkm_id)); [discriminate|].
  destruct (negb (Product.can_be_ordered (item_quantity item) p)) eqn:Hcan;
    [discriminate|].
  apply negb_false_iff in Hcan.
  unfold OrderItem.new in Hrun.
  destruct (Z.leb_spec (item_quantity item) 0) as [|Hq]; [discriminate|].
  destruct (Qle_bool (Product.price p) 0); [discriminate|].
  destruct (reduce_stock_ok _ now _ Hcan) as (p' & Hred & Hid & Hst).
  rewrite Hred in Hrun. pose proof (Hk _ _ Hp) as Hkey.
  assert (Hk' : keyed_by_id (<[Product.id p' := p']>
                               (OrderService.product_repository self)))
    by now apply keyed_by_id_save.
  rewrite Hid, Hkey in Hrun, Hk'. simpl.
  destruct (Pos.eqb_spec (item_product_id item) product_id) as [E|Hne].
  - subst product_id. assert (p0 = p) by congruence. subst p0.
    rewrite Hs0 in Hst. simpl in Hst.
    destruct (in_dec Pos.eq_dec (item_product_id item)
                     (map item_product_id rest)) as [Hrest|Hrest].
    + unshelve epose proof (IH _ _ _ _ (item_product_id item) p' _ _ Hrun
                                _ Hst Hrest) as Hcovered;
        [exact Hk'|simpl; apply lookup_insert_eq|].
      lia.
    + rewrite (requested_of_absent _ _ Hrest).
      unfold Product.can_be_ordered in Hcan. rewrite Hs0 in Hcan.
      destruct (negb (Product.is_available p)); [discriminate|].
      apply Z.leb_le in Hcan. lia.
  - destruct Hin as [Hhead|Hrest]; [congruence|].
    assert (Hp0' : <[item_product_id item := p']>
                     (OrderService.product_repository self) !! product_id
                   = Some p0)
      by now rewrite lookup_insert_ne.
    unshelve epose proof (IH _ _ _ _ product_id p0 stock _ Hrun _ Hs0 Hrest)
      as Hcovered; [exact Hk'|exact Hp0'|].
    lia.
Qed.

(** Where the loop returns, every line named a stored, available, priced
    product of the merchant, with a positive quantity. *)
Lemma create_order_items_served (umkm_id : UUID) (now : datetime)
      (items : list item_data) :
  forall (acc : list OrderItem.t) (self : OrderService.t)
         (acc' : list OrderItem.t) (self1 : OrderService.t),
    keyed_by_id (OrderService.product_repository self) ->
    OrderService.create_order_items umkm_id now items acc self = (inr acc', self1) ->
    Forall (fun item =>
              exists p,
                OrderService.product_repository self !! item_product_id item
                = Some p
                /\ Product.umkm_id p = umkm_id
                /\ Product.is_available p = true
                /\ (0 < Product.price p)%Q
                /\ 0 < item_quantity item) items.
Proof.
  induction items as [|item rest IH]; intros acc self acc' self1 Hk Hrun;
    [constructor|].
  pose proof Hrun as Hwhole.
  rewrite create_order_items_cons in Hrun.
  destruct (OrderService.product_repository self !! item_product_id item)
    as [p|] eqn:Hp; [|discriminate].
  destruct (Pos.eqb_spec (Product.umkm_id p) umkm_id) as [Hm|];
    [|discriminate]. simpl in Hrun.
  destruct (negb (Product.can_be_ordered (item_quantity item) p)) eqn:Hcan;
    [discriminate|].
  apply negb_false_iff in Hcan.
  unfold OrderItem.new in Hrun.
  destruct (Z.leb_spec (item_quantity item) 0) as [|Hq]; [discriminate|].
  destruct (Qle_bool (Product.price p) 0) eqn:Hprice; [discriminate|].
  destruct (Product.reduce_stock (item_quantity item) now p)
    as [[e|[]] p'] eqn:Hred; [discriminate|].
  destruct (reduce_stock_moves _ _ _ _ Hq Hred) as [Hsame Hstock].
  pose proof (Hk _ _ Hp) as Hkey.
  destruct (proj1 (same_but_stock_fields _ _) Hsame)
    as (Hid & Hm' & _ & _ & Hprice' & _ & _ & Hav' & _).
  assert (Havailable : Product.is_available p = true).
  { unfold Product.can_be_ordered in Hcan.
    destruct (Product.is_available p); [reflexivity|discriminate]. }
  apply IH in Hrun; [|simpl; now apply keyed_by_id_save].
  simpl in Hrun. constructor.
  - exists p. repeat (split; [assumption|]).
    split; [|assumption].
    apply Qnot_le_lt. intros Hle. apply Qle_bool_iff in Hle. congruence.
  - eapply Forall_impl; [exact Hrun|].
    intros l (pl & Hpl & Hml & Havl & Hpricel & Hql).
    rewrite Hid, Hkey in Hpl.
    destruct (decide (item_product_id item = item_product_id l)) as [E|Hne].
    + rewrite E, lookup_insert_eq in Hpl. injection Hpl as <-.
      exists p. rewrite <- E.
      split; [assumption|]. split; [congruence|]. split; [assumption|].
      split; [|assumption]. now rewrite <- Hprice'.
    + rewrite lookup_insert_ne in Hpl by assumption.
      exists pl. repeat (split; [assumption|]). assumption.
Qed.

(** X20: [create_order] returns an order only when the merchant is
    stored and active, the request has at least one line, every line can
    be served (a stored, available, priced product of the merchant, a
    positive quantity, and a finite stock covering all that the request
    asks of the product) and the pickup time, if any, is after now; a
    call that misses one of these raises. *)
Theorem create_order_returns_only_if_serviceable
    (self : OrderService.t) (buyer_id umkm_id : UUID) (items : list item_data)
    (pickup_time : option datetime) (notes : option string) (fresh : UUID)
    (now : datetime) (order : Order.t) (self1 : OrderService.t) :
  keyed_by_id (OrderService.product_repository self) ->
  OrderService.create_order buyer_id umkm_id items pickup_time notes
                            fresh now self = (inr order, self1) ->
  (exists umkm,
      OrderService.umkm_repository self !! umkm_id = Some umkm
      /\ UMKM.status umkm = UMKM.ACTIVE)
  /\ items <> []
  /\ Forall (can_be_served self umkm_id items) items
  /\ match pickup_time with
     | Some pickup => now < pickup
     | None => True
     end.
Proof.
  intros Hk Hrun. rewrite create_order_run in Hrun.
  destruct (OrderService.umkm_repository self !! umkm_id) as [umkm|];
    [|discriminate].
  destruct (negb (UMKM.can_accept_orders umkm)) eqn:Hactive; [discriminate|].
  destruct (OrderService.create_order_items umkm_id now items [] self)
    as [[e|order_items] self'] eqn:Hloop; [discriminate|].
  destruct (Order.new _ _ _ _ _ _ _ _ _ _ _ _ _ _) as [e|placed] eqn:Hnew;
    [discriminate|].
  split; [|split; [|split]].
  - exists umkm. split; [reflexivity|].
    apply negb_false_iff in Hactive. unfold UMKM.can_accept_orders in Hactive.
    destruct (UMKM.status umkm); (reflexivity || discriminate).
  - destruct (create_order_items_lines _ _ _ _ _ _ _ Hloop)
      as (lines & Hacc & Hlen & _).
    simpl in Hacc. subst order_items. intros ->.
    destruct lines; [|discriminate].
    unfold Order.new, Order._validate in Hnew. discriminate.
  - pose proof (create_order_items_served _ _ _ _ _ _ _ Hk Hloop) as Hserved.
    rewrite Forall_forall in Hserved. apply Forall_forall. intros item Hitem.
    destruct (Hserved item Hitem) as (p & Hp & Hm & Hav & Hprice & Hq).
    exists p. repeat (split; [assumption|]).
    destruct (Product.stock_quantity p) as [stock|] eqn:Hstock; [|exact I].
    apply (create_order_items_covered _ _ _ _ _ _ _ _ p _ Hk Hloop Hp Hstock).
    apply in_map, list_elem_of_In, Hitem.
  - unfold Order.new, Order._validate in Hnew. simpl in Hnew.
    destruct order_items; [discriminate|].
    destruct pickup_time as [pickup|]; [|exact I].
    destruct (Z.leb_spec pickup now); [discriminate|assumption].
Qed.

Lemma create_order_returns_only_if_serviceable_witness :
  Forall (can_be_served shop 1 [line 1 2; line 2 1]) [line 1 2; line 2 1].
Proof.
  destruct (create_order_returns_only_if_serviceable
              shop 20 1 [line 1 2; line 2 1] None None 100 0
              placed_order shop_after_order) as (_ & _ & Hserved & _).
  - stored_under_own_key.
  - vm_compute. reflexivity.
  - exact Hserved.
Defined.

(** X21: [create_order] refuses at the gate. When the merchant is not
    stored or is not active, or the request has no line, the call raises
    and changes nothing at all. *)
Theorem create_order_refused_at_the_gate
    (self : OrderService.t) (buyer_id umkm_id : UUID) (items : list item_data)
    (pickup_time : option datetime) (notes : option string) (fresh : UUID)
    (now : datetime) :
  (match OrderService.umkm_repository self !! umkm_id with
   | Some umkm => UMKM.status umkm <> UMKM.ACTIVE
   | None => True
   end
   \/ items = []) ->
  exists e,
    OrderService.create_order buyer_id umkm_id items pickup_time notes
                              fresh now self = (inl e, self).
Proof.
  intros Hgate. rewrite create_order_run.
  destruct (OrderService.umkm_repository self !! umkm_id) as [umkm|];
    [|eexists; reflexivity].
  unfold UMKM.can_accept_orders.
  destruct (UMKM.status umkm) eqn:Hstatus; simpl; try (eexists; reflexivity).
  destruct Hgate as [Hnot | ->]; [congruence|].
  simpl. eexists. reflexivity.
Qed.

Lemma create_order_refused_at_the_gate_witness :
  exists e,
    OrderService.create_order 20 1 [] None None 100 0 shop = (inl e, shop).
Proof.
  apply (create_order_refused_at_the_gate shop 20 1 [] None None 100 0).
  right. reflexivity.
Defined.

(** ** The product repository *)

Lemma product_store_method_keeps_keys (c : product_store_call)
      (products : gmap positive Product.t) :
  keyed_by_id products ->
  keyed_by_id (snd (product_store_method c products)).
Proof.
  intros Hk. destruct c as [product|product_id]; simpl.
  - now apply keyed_by_id_save.
  - unfold InMemoryProductRepository.delete, bind, get, modify, ret. simpl.
    destruct (products !! product_id); simpl; [|exact Hk].
    intros k p. rewrite lookup_delete_Some. intros [_ Hp]. now apply Hk.
Qed.

(** X22: the product repository. A saved product is found again under its
    identifier, as saved; [delete] tells whether the product was stored
    and leaves no product under the identifier; neither touches another
    identifier; and any store built from the empty one by saves and
    deletes holds every product under its own identifier. *)
Theorem product_repository_round_trip
    (products : gmap positive Product.t) (product : Product.t)
    (product_id : UUID) (calls : list product_store_call) :
  (let after := snd (InMemoryProductRepository.save product products) in
   fst (InMemoryProductRepository.find_by_id (Product.id product) after)
   = inr (Some product)
   /\ (product_id <> Product.id product ->
       fst (InMemoryProductRepository.find_by_id product_id after)
       = fst (InMemoryProductRepository.find_by_id product_id products)))
  /\ (let after := snd (InMemoryProductRepository.delete product_id products) in
      fst (InMemoryProductRepository.delete product_id products)
      = inr (match products !! product_id with
             | Some _ => true
             | None => false
             end)
      /\ fst (InMemoryProductRepository.find_by_id product_id after) = inr None
      /\ forall k, k <> product_id -> after !! k = products !! k)
  /\ keyed_by_id (store_all calls ∅).
Proof.
  split; [|split].
  - simpl. split.
    + now rewrite lookup_insert_eq.
    + intros Hne. now rewrite lookup_insert_ne.
  - unfold InMemoryProductRepository.delete, bind, get, modify, ret. simpl.
    destruct (products !! product_id) eqn:Hp; simpl.
    + split; [reflexivity|]. split; [now rewrite lookup_delete_eq|].
      intros k Hne. now rewrite lookup_delete_ne.
    + split; [reflexivity|]. split; [now rewrite Hp|]. reflexivity.
  - assert (H : forall start, keyed_by_id start -> keyed_by_id (store_all calls start)).
    { induction calls as [|c rest IH]; intros start Hk; [exact Hk|].
      simpl. apply IH. now apply product_store_method_keeps_keys. }
    apply H. intros k p Hp. rewrite lookup_empty in Hp. discriminate.
Qed.

(** ** The product entity and the product service *)

(** What [_validate] checks of a product, test by test. *)
Lemma valid_product_iff (p : Product.t) :
  valid_product p
  <-> ((2 <= String.length (Product.name p))%nat
       /\ String.length (Product.description p) <> 0%nat
       /\ (0 < Product.price p)%Q
       /\ (forall stock, Product.stock_quantity p = Some stock -> 0 <= stock)
       /\ 0 <= Product.min_preorder_hours p).
Proof.
  unfold valid_product, Product._validate. split.
  - passed Hname. passed Hdescription. passed Hprice. passed Hstock.
    passed Hhours. intros _.
    split; [now apply Nat.ltb_ge|]. split; [now apply Nat.eqb_neq|].
    split; [apply Qnot_le_lt; intros Hle; apply Qle_bool_iff in Hle; congruence|].
    split; [|now apply Z.ltb_ge].
    intros stock Hs. rewrite Hs in Hstock. now apply Z.ltb_ge.
  - intros (Hname & Hdescription & Hprice & Hstock & Hhours).
    apply Nat.ltb_ge in Hname. apply Nat.eqb_neq in Hdescription.
    apply Z.ltb_ge in Hhours. rewrite Hname, Hdescription, Hhours.
    destruct (Qle_bool (Product.price p) 0) eqn:Hle.
    { apply Qle_bool_iff in Hle. exfalso. exact (Qlt_not_le _ _ Hprice Hle). }
    destruct (Product.stock_quantity p) as [stock|]; [|reflexivity].
    specialize (Hstock stock eq_refl). apply Z.ltb_ge in Hstock.
    now rewrite Hstock.
Qed.

(** A property of the state kept by both halves of a sequence is kept by
    the sequence, whether it returns or raises. *)
Lemma bindF_keeps {S A B} (P : S -> Prop) (m : MF S A) (k : A -> MF S B) :
  (forall s, P s -> P (snd (m s))) ->
  (forall a s, P s -> P (snd (k a s))) ->
  forall s, P s -> P (snd (bindF m k s)).
Proof.
  intros Hm Hk s Hs. unfold bindF. specialize (Hm s Hs).
  destruct (m s) as [[e|a] s']; simpl in *; [exact Hm|now apply Hk].
Qed.

Lemma product_method_keeps_valid (c : product_call) (now : datetime)
      (p : Product.t) :
  valid_product p -> valid_product (snd (product_method c now p)).
Proof.
  destruct c as [quantity|quantity| | |new_price
                 |name description category image_url preorder hours]; simpl.
  - intros Hv. unfold earlier.
    destruct (Product.reduce_stock quantity now p) as [[e|[]] p'] eqn:Hrun; simpl.
    + unfold Product.reduce_stock, bind, get, modify, raise, ret in Hrun.
      destruct (Product.stock_quantity p); [|discriminate].
      destruct (negb (Product.can_be_ordered quantity p));
        [now injection Hrun as _ <-|discriminate].
    + unfold Product.reduce_stock, Product.can_be_ordered,
        bind, get, modify, raise, ret in Hrun.
      apply valid_product_iff in Hv. apply valid_product_iff.
      destruct p as [i u n d pr ct im [stock|] av po mh ca ua]; simpl in *.
      * destruct av; simpl in Hrun; [|discriminate].
        destruct (Z.leb_spec quantity stock); simpl in Hrun; [|discriminate].
        injection Hrun as <-. simpl.
        destruct Hv as (? & ? & ? & Hs & ?).
        repeat (split; [assumption|]). split; [|assumption].
        intros s [= <-]. specialize (Hs stock eq_refl). lia.
      * now injection Hrun as <-.
  - intros Hv. unfold earlier, Product.increase_stock, bind, get, modify, raise, ret.
    destruct (Z.leb_spec quantity 0); simpl; [exact Hv|].
    apply valid_product_iff in Hv. apply valid_product_iff.
    destruct p as [i u n d pr ct im [stock|] av po mh ca ua]; simpl in *;
      [|exact Hv].
    destruct Hv as (? & ? & ? & Hs & ?).
    repeat (split; [assumption|]). split; [|assumption].
    intros s [= <-]. specialize (Hs stock eq_refl). lia.
  - intros Hv. apply valid_product_iff in Hv. apply valid_product_iff.
    exact Hv.
  - intros Hv. apply valid_product_iff in Hv. apply valid_product_iff.
    exact Hv.
  - intros Hv. unfold Product.update_price, bindF, modifyF, raiseF.
    destruct (Qle_bool new_price 0) eqn:Hle; simpl; [exact Hv|].
    apply valid_product_iff in Hv. apply valid_product_iff. simpl.
    destruct Hv as (? & ? & _ & ? & ?).
    repeat (split; [assumption|]).
    split; [|split; assumption].
    apply Qnot_le_lt. intros Hq. apply Qle_bool_iff in Hq. congruence.
  - unfold Product.update_info. revert p.
    repeat (apply bindF_keeps; [|intros _]); intros p Hv;
      apply valid_product_iff in Hv; destruct Hv as (Hn & Hd & Hp & Hs & Hh).
    + destruct name as [name|]; [|now apply valid_product_iff].
      destruct (Nat.ltb_spec (String.length name) 2); simpl;
        apply valid_product_iff; repeat split; assumption.
    + destruct description as [description|]; [|now apply valid_product_iff].
      destruct (Nat.eqb_spec (String.length description) 0); simpl;
        apply valid_product_iff; repeat split; assumption.
    + destruct category; apply valid_product_iff; repeat split; assumption.
    + destruct image_url; apply valid_product_iff; repeat split; assumption.
    + destruct preorder; apply valid_product_iff; repeat split; assumption.
    + destruct hours as [hours|]; [|now apply valid_product_iff].
      destruct (Z.ltb_spec hours 0); simpl;
        apply valid_product_iff; repeat split; assumption.
    + apply valid_product_iff. repeat split; assumption.
Qed.

(** X23: a valid product stays valid. A product that passes the validation
    of its constructor still passes it after any succession of calls of
    its methods ([reduce_stock], [increase_stock], [mark_available],
    [mark_unavailable], [update_price], [update_info]), whether they
    return or raise, also when [update_info] raises after having assigned
    some of its arguments. *)
Theorem valid_product_stays_valid
    (p : Product.t) (calls : list (product_call * datetime)) :
  valid_product p -> valid_product (product_calls calls p).
Proof.
  revert p. induction calls as [|[c now] rest IH]; intros p Hv; simpl.
  - exact Hv.
  - apply IH. now apply product_method_keeps_valid.
Qed.

Lemma valid_product_stays_valid_witness :
  valid_product
    (product_calls [(UpdateInfo (Some "Nasi goreng spesial"%string) (Some EmptyString) None
                                None None None, 3);
                    (ReduceStock 2, 4); (UpdatePrice 0, 5)]
                   nasi_goreng).
Proof.
  apply (valid_product_stays_valid nasi_goreng). reflexivity.
Defined.

Lemma product_desk_eta (self : ProductService.t) :
  ProductService.mk (ProductService.product_repository self)
                    (ProductService.umkm_repository self) = self.
Proof. destruct self; reflexivity. Qed.

(** The common start of the methods that change a product, case by case. *)
Lemma owned_product_cases (product_id seller_id : UUID) (self : ProductService.t) :
  ProductService.owned_product product_id seller_id self
  = match ProductService.product_repository self !! product_id with
    | None => (inl (FurtherValueError Product_not_found_), self)
    | Some product =>
        if match ProductService.umkm_repository self !! Product.umkm_id product with
           | None => true
           | Some umkm => negb (Pos.eqb (UMKM.owner_id umkm) seller_id)
           end
        then (inl (FurtherValueError Unauthorized_you_dont_own_this_products_UMKM),
              self)
        else (inr product, self)
    end.
Proof.
  unfold ProductService.owned_product, bindF, ProductService.in_products,
    ProductService.in_umkms, earlier, InMemoryProductRepository.find_by_id,
    InMemoryUMKMRepository.find_by_id, gets, raiseF, retF. simpl.
  destruct (ProductService.product_repository self !! product_id) as [product|];
    simpl; [|now rewrite product_desk_eta].
  rewrite !product_desk_eta.
  destruct (match ProductService.umkm_repository self !! Product.umkm_id product with
            | None => true
            | Some umkm => negb (Pos.eqb (UMKM.owner_id umkm) seller_id)
            end); reflexivity.
Qed.

(** [update_info] changes neither the identifier nor the merchant. *)
Lemma update_info_keeps_identity
      (name description : option string)
      (category : option Product.ProductCategory) (image_url : option string)
      (preorder_required : option bool) (min_preorder_hours : option Z)
      (now : datetime) (i u : UUID) :
  forall s : Product.t,
    Product.id s = i /\ Product.umkm_id s = u ->
    Product.id (snd (Product.update_info name description category image_url
                                         preorder_required min_preorder_hours
                                         now s)) = i
    /\ Product.umkm_id (snd (Product.update_info name description category
                                                 image_url preorder_required
                                                 min_preorder_hours now s)) = u.
Proof.
  unfold Product.update_info.
  repeat (apply (bindF_keeps
                   (fun s => Product.id s = i /\ Product.umkm_id s = u));
          [|intros _]);
    intros s Hs.
  - destruct name as [name|]; [|exact Hs].
    destruct (String.length name <? 2)%nat; exact Hs.
  - destruct description as [description|]; [|exact Hs].
    destruct (String.length description =? 0)%nat; exact Hs.
  - destruct category; exact Hs.
  - destruct image_url; exact Hs.
  - destruct preorder_required; exact Hs.
  - destruct min_preorder_hours as [hours|]; [|exact Hs].
    destruct (hours <? 0); exact Hs.
  - exact Hs.
Qed.

(** No method of a product changes its identifier or its merchant. *)
Lemma product_method_keeps_identity (c : product_call) (now : datetime)
      (p : Product.t) :
  Product.id (snd (product_method c now p)) = Product.id p
  /\ Product.umkm_id (snd (product_method c now p)) = Product.umkm_id p.
Proof.
  destruct c as [quantity|quantity| | |new_price
                 |name description category image_url preorder hours]; simpl.
  - unfold earlier, Product.reduce_stock, bind, get, modify, raise, ret.
    destruct (Product.stock_quantity p); [|split; reflexivity].
    destruct (negb (Product.can_be_ordered quantity p)); split; reflexivity.
  - unfold earlier, Product.increase_stock, bind, get, modify, raise, ret.
    destruct (quantity <=? 0); [split; reflexivity|].
    destruct (Product.stock_quantity p); split; reflexivity.
  - split; reflexivity.
  - split; reflexivity.
  - unfold Product.update_price, bindF, modifyF, raiseF.
    destruct (Qle_bool new_price 0); split; reflexivity.
  - now apply update_info_keeps_identity.
Qed.

(** The methods of the service that change a product, case by case. *)
Lemma product_service_method_cases (c : product_service_call)
      (product_id seller_id : UUID) (now : datetime) (self : ProductService.t) :
  product_service_method c product_id seller_id now self
  = match ProductService.owned_product product_id seller_id self with
    | (inl e, _) => (inl e, self)
    | (inr product, _) =>
        let saved (p' : Product.t) :=
          (inr tt,
           ProductService.mk
             (<[Product.id p' := p']> (ProductService.product_repository self))
             (ProductService.umkm_repository self)) in
        match entity_call c with
        | Some call =>
            match product_method call now product with
            | (inl e, _) => (inl e, self)
            | (inr _, p') => saved p'
            end
        | None =>
            match c with
            | UpdateProductStock new_stock =>
                if new_stock <? 0
                then (inl (FurtherValueError Stock_cannot_be_negative), self)
                else saved (Product.set_stock_quantity (Some new_stock) product)
            | _ =>
                (inr tt,
                 ProductService.mk
                   (delete product_id (ProductService.product_repository self))
                   (ProductService.umkm_repository self))
            end
        end
    end.
Proof.
  rewrite owned_product_cases.
  destruct c as [name description category image_url preorder hours
                |new_price|new_stock|available|];
    unfold product_service_method, ProductService.update_product,
      ProductService.update_product_price, ProductService.update_product_stock,
      ProductService.toggle_product_availability, ProductService.delete_product;
    unfold bindF at 1 2; rewrite owned_product_cases;
    destruct (ProductService.product_repository self !! product_id)
      as [product|] eqn:Hp; try reflexivity;
    destruct (match ProductService.umkm_repository self
                      !! Product.umkm_id product with
              | None => true
              | Some umkm => negb (Pos.eqb (UMKM.owner_id umkm) seller_id)
              end); try reflexivity;
    unfold bindF, callF, retF, raiseF, ProductService.in_products, earlier,
      InMemoryProductRepository.save, InMemoryProductRepository.delete,
      call, bind, get, modify, ret; cbn [entity_call].
  - simpl. destruct (Product.update_info _ _ _ _ _ _ _ product) as [[e|[]] p'];
      reflexivity.
  - simpl. destruct (Product.update_price _ _ product) as [[e|[]] p'];
      reflexivity.
  - destruct (new_stock <? 0); reflexivity.
  - destruct available; reflexivity.
  - simpl. rewrite Hp. reflexivity.
Qed.

(** X24: the methods of the product service that change a stored product
    ([update_product], [update_product_price], [update_product_stock],
    [toggle_product_availability], [delete_product]). Each leaves the
    merchants and every other product as they were. When it raises, the
    store is unchanged, also when the product method raised after
    assigning part of its arguments. When it returns, the product was
    stored, its merchant is stored and owned by the caller; and the
    product is then gone if the call was a deletion, and otherwise stored
    under the same identifier, with the same merchant, and valid if it was
    valid. *)
Theorem product_service_outcomes
    (c : product_service_call) (product_id seller_id : UUID) (now : datetime)
    (self : ProductService.t) (r : further_exn + unit) (self1 : ProductService.t) :
  keyed_by_id (ProductService.product_repository self) ->
  product_service_method c product_id seller_id now self = (r, self1) ->
  ProductService.umkm_repository self1 = ProductService.umkm_repository self
  /\ (forall k, k <> product_id ->
        ProductService.product_repository self1 !! k
        = ProductService.product_repository self !! k)
  /\ match r with
     | inl _ => self1 = self
     | inr _ =>
         exists p umkm,
           ProductService.product_repository self !! product_id = Some p
           /\ ProductService.umkm_repository self !! Product.umkm_id p = Some umkm
           /\ UMKM.owner_id umkm = seller_id
           /\ match ProductService.product_repository self1 !! product_id with
              | Some p' =>
                  c <> DeleteProduct
                  /\ Product.id p' = product_id
                  /\ Product.umkm_id p' = Product.umkm_id p
                  /\ (valid_product p -> valid_product p')
              | None => c = DeleteProduct
              end
     end.
Proof.
  intros Hk Hrun. rewrite product_service_method_cases, owned_product_cases in Hrun.
  destruct (ProductService.product_repository self !! product_id)
    as [p|] eqn:Hp.
  2: { injection Hrun as <- <-. repeat split. }
  destruct (ProductService.umkm_repository self !! Product.umkm_id p)
    as [umkm|] eqn:Humkm.
  2: { injection Hrun as <- <-. repeat split. }
  destruct (negb (Pos.eqb (UMKM.owner_id umkm) seller_id)) eqn:Hown.
  { injection Hrun as <- <-. repeat split. }
  apply negb_false_iff, Pos.eqb_eq in Hown.
  pose proof (Hk _ _ Hp) as Hkey. cbv zeta in Hrun.
  assert (Hsaved : forall p',
             Product.id p' = product_id ->
             Product.umkm_id p' = Product.umkm_id p ->
             (valid_product p -> valid_product p') ->
             c <> DeleteProduct ->
             (inr tt,
              ProductService.mk
                (<[Product.id p' := p']> (ProductService.product_repository self))
                (ProductService.umkm_repository self)) = (r, self1) ->
             ProductService.umkm_repository self1
             = ProductService.umkm_repository self
             /\ (forall k, k <> product_id ->
                   ProductService.product_repository self1 !! k
                   = ProductService.product_repository self !! k)
             /\ match r with
                | inl _ => self1 = self
                | inr _ =>
                    exists p0 umkm0,
                      Some p = Some p0
                      /\ ProductService.umkm_repository self !! Product.umkm_id p0
                         = Some umkm0
                      /\ UMKM.owner_id umkm0 = seller_id
                      /\ match ProductService.product_repository self1
                               !! product_id with
                         | Some p'0 =>
                             c <> DeleteProduct
                             /\ Product.id p'0 = product_id
                             /\ Product.umkm_id p'0 = Product.umkm_id p0
                             /\ (valid_product p0 -> valid_product p'0)
                         | None => c = DeleteProduct
                         end
                end).
  { intros p' Hid Hmerchant Hvalid Hnot [= <- <-]. simpl. rewrite Hid.
    split; [reflexivity|]. split.
    - intros k Hne. now rewrite lookup_insert_ne.
    - exists p, umkm. rewrite lookup_insert_eq. repeat split; assumption. }
  destruct (entity_call c) as [call|] eqn:Hcall.
  - destruct (product_method call now p) as [[e|[]] p'] eqn:Hmethod.
    + injection Hrun as <- <-. repeat split.
    + pose proof (product_method_keeps_identity call now p) as [Hid Hmerchant].
      pose proof (product_method_keeps_valid call now p) as Hvalid.
      rewrite Hmethod in Hid, Hmerchant, Hvalid. simpl in Hid, Hmerchant, Hvalid.
      apply (Hsaved p'); try assumption; [congruence|].
      intros ->. discriminate.
  - destruct c as [| |new_stock|[|]|]; try discriminate.
    + destruct (Z.ltb_spec new_stock 0).
      * injection Hrun as <- <-. repeat split.
      * apply (Hsaved (Product.set_stock_quantity (Some new_stock) p));
          try assumption; try reflexivity; [|discriminate].
        intros Hv. apply valid_product_iff in Hv. apply valid_product_iff.
        simpl. destruct Hv as (? & ? & ? & _ & ?).
        repeat (split; [assumption|]). split; [|assumption].
        intros s [= <-]. assumption.
    + injection Hrun as <- <-. simpl. split; [reflexivity|]. split.
      * intros k Hne. now rewrite lookup_delete_ne.
      * exists p, umkm. rewrite lookup_delete_eq. repeat split; assumption.
Qed.

Lemma product_service_outcomes_witness :
  let self1 :=
    snd (product_service_method (UpdateProductStock 40) 1 10 0 product_desk) in
  ProductService.umkm_repository self1
  = ProductService.umkm_repository product_desk
  /\ forall k, k <> 1%positive ->
       ProductService.product_repository self1 !! k
       = ProductService.product_repository product_desk !! k.
Proof.
  cbv zeta.
  destruct (product_service_outcomes
              (UpdateProductStock 40) 1 10 0 product_desk (inr tt)
              (snd (product_service_method (UpdateProductStock 40) 1 10 0
                                           product_desk)))
    as (Hmerchants & Hothers & _).
  - stored_under_own_key.
  - vm_compute. reflexivity.
  - split; assumption.
Defined.

(** ** The review entity and the review service *)

Lemma valid_review_iff (r : Review.t) :
  valid_review r <-> Review.check (Review.rating r) (Review.comment r) = None.
Proof.
  unfold valid_review, Review._validate.
  destruct (Review.check (Review.rating r) (Review.comment r));
    split; congruence.
Qed.

(** What the three checks accept. *)
Lemma check_accepts (rating : Z) (comment : string) :
  Review.check rating comment = None
  <-> (1 <= rating <= 5
       /\ (5 <= String.length comment <= 1000)%nat).
Proof.
  unfold Review.check.
  destruct (Z.ltb_spec rating 1); simpl; [split; [discriminate|lia]|].
  destruct (Z.ltb_spec 5 rating); simpl; [split; [discriminate|lia]|].
  destruct (Nat.ltb_spec (String.length comment) 5);
    [split; [discriminate|lia]|].
  destruct (Nat.ltb_spec 1000 (String.length comment));
    [split; [discriminate|lia]|].
  split; [intros _; lia|reflexivity].
Qed.

Lemma review_method_keeps_valid (c : review_call) (now : datetime) (r : Review.t) :
  valid_review r -> valid_review (snd (review_method c now r)).
Proof.
  rewrite !valid_review_iff.
  destruct c as [| | |new_rating new_comment]; simpl; try (intros H; exact H).
  intros H. unfold Review.update_content.
  destruct (Review.check new_rating new_comment) eqn:Hcheck; simpl;
    [exact H|exact Hcheck].
Qed.

(** X25: a valid review stays valid. A review that passes the validation
    of its constructor still passes it after any succession of
    [flag_for_moderation], [hide], [show] and [update_content], accepted
    or refused: its rating is between 1 and 5 and its comment has 5 to
    1000 characters. *)
Theorem valid_review_stays_valid
    (r : Review.t) (calls : list (review_call * datetime)) :
  valid_review r ->
  valid_review (review_calls calls r)
  /\ 1 <= Review.rating (review_calls calls r) <= 5
  /\ (5 <= String.length (Review.comment (review_calls calls r)) <= 1000)%nat.
Proof.
  intros Hv.
  assert (H : valid_review (review_calls calls r)).
  { revert r Hv. induction calls as [|[c now] rest IH]; intros r Hv; simpl.
    - exact Hv.
    - apply IH. now apply review_method_keeps_valid. }
  split; [exact H|]. now apply check_accepts, valid_review_iff.
Qed.

Lemma valid_review_stays_valid_witness :
  1 <= Review.rating
         (review_calls [(UpdateContent 9 "Biasa saja", 3); (HideReview, 4);
                        (UpdateContent 2 "Kurang", 5)] kind_review) <= 5.
Proof.
  destruct (valid_review_stays_valid
              kind_review
              [(UpdateContent 9 "Biasa saja", 3); (HideReview, 4);
               (UpdateContent 2 "Kurang", 5)]) as (_ & Hrating & _).
  - reflexivity.
  - exact Hrating.
Defined.

Lemma review_desk_eta (self : ReviewService.t) :
  ReviewService.mk (ReviewService.review_repository self)
                   (ReviewService.umkm_repository self)
                   (ReviewService.order_repository self) = self.
Proof. destruct self; reflexivity. Qed.




(** X27: the outcomes of [update_review]. Only the author of a stored
    review can update it, and only with a rating between 1 and 5 and a
    comment of 5 to 1000 characters; the review is then saved with the new
    rating and comment. Whatever the outcome, the merchants are as before:
    the rating of the merchant is not computed again from the new rating.
    When the call raises, nothing is changed. *)
Theorem update_review_outcomes
    (self : ReviewService.t) (review_id user_id : UUID) (new_rating : Z)
    (new_comment : string) (now : datetime)
    (r : further_exn + Review.t) (self1 : ReviewService.t) :
  ReviewService.update_review review_id user_id new_rating new_comment now self
  = (r, self1) ->
  ReviewService.umkm_repository self1 = ReviewService.umkm_repository self
  /\ ReviewService.order_repository self1 = ReviewService.order_repository self
  /\ match r with
     | inl _ => self1 = self
     | inr updated =>
         exists review,
           ReviewService.review_repository self !! review_id = Some review
           /\ Review.user_id review = user_id
           /\ 1 <= new_rating <= 5
           /\ (5 <= String.length new_comment <= 1000)%nat
           /\ updated = Review.set_updated_at now
                          (Review.set_comment new_comment
                             (Review.set_rating new_rating review))
           /\ ReviewService.review_repository self1
              = <[Review.id review := updated]>
                  (ReviewService.review_repository self)
     end.
Proof.
  unfold ReviewService.update_review, bindF, ReviewService.in_reviews, earlier,
    InMemoryReviewRepository.find_by_id, InMemoryReviewRepository.save,
    gets, modify, ret, bind, raiseF, retF, callF. simpl.
  destruct (ReviewService.review_repository self !! review_id) as [review|]
    eqn:Hfind; simpl.
  2: { rewrite review_desk_eta. intros [= <- <-]. repeat split. }
  rewrite !review_desk_eta.
  destruct (Pos.eqb_spec (Review.user_id review) user_id) as [Hauthor|]; simpl.
  2: { intros [= <- <-]. repeat split. }
  unfold Review.update_content.
  destruct (Review.check new_rating new_comment) eqn:Hcheck; simpl.
  { intros [= <- <-]. repeat split. }
  intros [= <- <-]. simpl. split; [reflexivity|]. split; [reflexivity|].
  apply check_accepts in Hcheck. destruct Hcheck as [Hrating Hcomment].
  exists review. repeat split; try assumption; lia.
Qed.

Lemma update_review_outcomes_witness :
  ReviewService.umkm_repository
    (snd (ReviewService.update_review 500 20 1 "Mengecewakan" 9 review_desk))
  = ReviewService.umkm_repository review_desk.
Proof.
  destruct (update_review_outcomes
              review_desk 500 20 1 "Mengecewakan" 9
              (inr (Review.mk 500 20 1 None 1 "Mengecewakan" true false 0 9))
              (snd (ReviewService.update_review 500 20 1 "Mengecewakan" 9
                                                review_desk)))
    as (Hmerchants & _).
  - vm_compute. reflexivity.
  - exact Hmerchants.
Defined.

(** X28: the outcomes of [create_product]. When it raises, nothing is
    changed. When it returns, the merchant is stored and owned by the
    caller, and the product, valid, available, of that merchant, is saved
    under the fresh identifier; the merchants are as before, and a store
    that holds every product under its own identifier still does. *)
Theorem create_product_outcomes
    (self : ProductService.t) (seller_id umkm_id : UUID)
    (name description : string) (price : Q)
    (category : Product.ProductCategory) (image_url : option string)
    (stock_quantity : option Z) (preorder_required : bool)
    (min_preorder_hours : Z) (fresh : UUID) (now : datetime)
    (r : further_exn + Product.t) (self1 : ProductService.t) :
  ProductService.create_product seller_id umkm_id name description price
                                category image_url stock_quantity
                                preorder_required min_preorder_hours
                                fresh now self = (r, self1) ->
  match r with
  | inl _ => self1 = self
  | inr product =>
      (exists umkm,
          ProductService.umkm_repository self !! umkm_id = Some umkm
          /\ UMKM.owner_id umkm = seller_id)
      /\ product = Product.mk fresh umkm_id name description price category
                              image_url stock_quantity true preorder_required
                              min_preorder_hours now now
      /\ valid_product product
      /\ ProductService.product_repository self1
         = <[fresh := product]> (ProductService.product_repository self)
      /\ ProductService.umkm_repository self1
         = ProductService.umkm_repository self
      /\ (keyed_by_id (ProductService.product_repository self) ->
          keyed_by_id (ProductService.product_repository self1))
  end.
Proof.
  unfold ProductService.create_product, bindF, ProductService.in_umkms,
    ProductService.in_products, earlier, InMemoryUMKMRepository.find_by_id,
    InMemoryProductRepository.save, gets, modify, ret, bind, raiseF, retF, tryF.
  simpl.
  destruct (ProductService.umkm_repository self !! umkm_id) as [umkm|] eqn:Humkm;
    simpl.
  2: { rewrite product_desk_eta. now intros [= <- <-]. }
  rewrite !product_desk_eta.
  destruct (Pos.eqb_spec (UMKM.owner_id umkm) seller_id) as [Hown|]; simpl.
  2: { now intros [= <- <-]. }
  destruct (Product.new _ _ _ _ _ _ _ _ _ _ _ _ _ _ _) as [e|product] eqn:Hnew.
  { now intros [= <- <-]. }
  intros [= <- <-]. simpl.
  unfold Product.new in Hnew. simpl in Hnew.
  assert (Hvalid : valid_product product).
  { unfold valid_product. unfold Product._validate in *.
    revert Hnew. passed H1. passed H2. passed H3. passed H4. passed H5.
    intros [= <-]. simpl in *. now rewrite H1, H2, H3, H4, H5. }
  assert (Hshape : product = Product.mk fresh umkm_id name description price
                                        category image_url stock_quantity true
                                        preorder_required min_preorder_hours
                                        now now).
  { unfold Product._validate in Hnew.
    revert Hnew. passed H1. passed H2. passed H3. passed H4. passed H5.
    now intros [= <-]. }
  split; [exists umkm; split; [reflexivity|assumption]|].
  split; [exact Hshape|]. split; [exact Hvalid|].
  assert (Hid : Product.id product = fresh) by now rewrite Hshape.
  rewrite Hid. split; [reflexivity|]. split; [reflexivity|].
  intros Hk. rewrite <- Hid. now apply keyed_by_id_save.
Qed.

Lemma create_product_outcomes_witness :
  valid_product
    (Product.mk 9 1 "Teh botol" "Teh dalam botol" 6000 Product.BEVERAGE None
                (Some 24) true false 0 3 3).
Proof.
  destruct (create_product_outcomes
              product_desk 10 1 "Teh botol" "Teh dalam botol" 6000
              Product.BEVERAGE None (Some 24) false 0 9 3
              (inr (Product.mk 9 1 "Teh botol" "Teh dalam botol" 6000
                               Product.BEVERAGE None (Some 24) true false 0 3 3))
              (snd (ProductService.create_product
                      10 1 "Teh botol" "Teh dalam botol" 6000
                      Product.BEVERAGE None (Some 24) false 0 9 3 product_desk)))
    as (_ & _ & Hvalid & _).
  - vm_compute. reflexivity.
  - exact Hvalid.
Defined.

(** X29: switching a promo off and on. A deactivated promo is valid at no
    instant and discounts nothing; and a promo that was active, once
    deactivated then activated again, is valid at the same instants and
    gives the same discounts as before. *)
Theorem deactivate_then_activate
    (p : Promo.t) (off on : datetime) (current_time : option datetime)
    (utcnow : datetime) (order_amount : Q) :
  let stopped := snd (Promo.deactivate off p) in
  let resumed := snd (Promo.activate on stopped) in
  Promo.is_valid current_time utcnow stopped = false
  /\ Promo.calculate_discount order_amount utcnow stopped = 0%Q
  /\ (Promo.is_active p = true ->
      Promo.is_valid current_time utcnow resumed
      = Promo.is_valid current_time utcnow p
      /\ Promo.calculate_discount order_amount utcnow resumed
         = Promo.calculate_discount order_amount utcnow p).
Proof.
  destruct p as [i u t d ty dv vf vu c mp md ul uc ia ca ua]. simpl.
  split; [reflexivity|]. split; [reflexivity|].
  intros ->. split; reflexivity.
Qed.
